(** * The document extraction service (app/services/ai_extraction.py)

    A shallow embedding of [AIExtractionService]: the Python string and
    path helpers it relies on, the values it passes around (spreadsheet
    cells, JSON-like dictionaries, Textract blocks), a small monad that
    threads the log of calls made to the remote services and carries
    Python exceptions, and the methods of the class, one definition per
    method, under the names of the source.

    Conventions.
    - A Python [str] is a [string]; its characters are the code points
      below 256 (Latin-1), which fixes [str.isspace] and [str.lower].
    - [bytes] is a list of bytes.
    - A [float] is modelled by the rational number it denotes; the source
      only compares floats with [0] and [100] and converts integers of
      that range, which is exact.  The text of a float ([str(x)]) is left
      to the runtime, see [runtime].
    - The third-party parsers (pdfplumber, python-docx, openpyxl, json,
      urllib.parse) are functions of their input that return or raise,
      gathered in [runtime]; the remote services (S3, HTTP, Textract,
      OpenAI) answer as a function of the calls made so far, gathered in
      [services].
    - Dates and times are the naive values openpyxl reads from a cell;
      [strftime] formats as the C library of the deployment does (glibc:
      [%Y] is the year without padding). *)

From Stdlib Require Import String Ascii List ZArith QArith Lia Bool Arith.
From Stdlib Require Import DecimalString.
Import ListNotations.

Local Close Scope Q_scope.
Local Open Scope list_scope.
Local Open Scope string_scope.
Local Open Scope nat_scope.

Set Implicit Arguments.
Set Warnings "-register-all,-abstract-large-number".

(* ===================================================================== *)
(** ** Python strings *)
(* ===================================================================== *)

Module PyStr.

(** [str.isspace] on the code points below 256: TAB..CR, FS..US, space,
    NEL and the no-break space.  The same set is what [\s] matches. *)
Definition is_space (c : ascii) : bool :=
  let n := nat_of_ascii c in
  ((9 <=? n) && (n <=? 13)) || ((28 <=? n) && (n <=? 32))
  || (n =? 133) || (n =? 160).

Fixpoint lstrip (s : string) : string :=
  match s with
  | String c s' => if is_space c then lstrip s' else s
  | EmptyString => EmptyString
  end.

Fixpoint rstrip (s : string) : string :=
  match s with
  | EmptyString => EmptyString
  | String c s' =>
      match rstrip s' with
      | EmptyString => if is_space c then EmptyString else String c EmptyString
      | r => String c r
      end
  end.

(** [s.strip()] *)
Definition strip (s : string) : string := rstrip (lstrip s).

(** [s.lstrip(ch)] for a one-character argument. *)
Fixpoint lstrip_char (ch : ascii) (s : string) : string :=
  match s with
  | String c s' => if Ascii.eqb c ch then lstrip_char ch s' else s
  | EmptyString => EmptyString
  end.

Definition lower_char (c : ascii) : ascii :=
  let n := nat_of_ascii c in
  if ((65 <=? n) && (n <=? 90))
     || ((192 <=? n) && (n <=? 222) && negb (n =? 215))
  then ascii_of_nat (n + 32) else c.

(** [s.lower()] *)
Fixpoint lower (s : string) : string :=
  match s with
  | EmptyString => EmptyString
  | String c s' => String (lower_char c) (lower s')
  end.

(** [s.startswith(p)] *)
Definition startswith (p s : string) : bool := String.prefix p s.

(** [needle in hay] *)
Fixpoint contains (needle hay : string) : bool :=
  if String.prefix needle hay then true
  else match hay with
       | EmptyString => false
       | String _ hay' => contains needle hay'
       end.

(** [s[n:]] *)
Fixpoint drop (n : nat) (s : string) : string :=
  match n, s with
  | O, _ => s
  | S n', String _ s' => drop n' s'
  | S _, EmptyString => EmptyString
  end.

(** [s[:n]] *)
Definition take (n : nat) (s : string) : string := String.substring 0 n s.

(** [sep.join(parts)] *)
Fixpoint join (sep : string) (parts : list string) : string :=
  match parts with
  | [] => EmptyString
  | [p] => p
  | p :: rest => p ++ sep ++ join sep rest
  end.

(** [s.split(ch, 1)]: the text before the first [ch] and, when [ch]
    occurs, the text after it. *)
Fixpoint split_once (ch : ascii) (s : string) : string * option string :=
  match s with
  | EmptyString => (EmptyString, None)
  | String c s' =>
      if Ascii.eqb c ch then (EmptyString, Some s')
      else let (before, after) := split_once ch s' in (String c before, after)
  end.

(** [s.split(ch)] *)
Fixpoint split (ch : ascii) (s : string) : list string :=
  match s with
  | EmptyString => [EmptyString]
  | String c s' =>
      if Ascii.eqb c ch then EmptyString :: split ch s'
      else match split ch s' with
           | p :: rest => String c p :: rest
           | [] => [String c EmptyString]
           end
  end.

(** [s.rfind(ch)] *)
Fixpoint rfind_from (ch : ascii) (s : string) (i : nat) (found : option nat)
  : option nat :=
  match s with
  | EmptyString => found
  | String c s' =>
      rfind_from ch s' (S i) (if Ascii.eqb c ch then Some i else found)
  end.

Definition rfind (ch : ascii) (s : string) : option nat := rfind_from ch s 0 None.

(** [str(n)] for an [int]. *)
Definition of_Z (n : Z) : string := NilZero.string_of_int (Z.to_int n).

(** [s.zfill(width)] for the text of a non-negative number. *)
Fixpoint zeros (n : nat) : string :=
  match n with O => EmptyString | S n' => String "0" (zeros n') end.

Definition zfill (width : nat) (s : string) : string :=
  zeros (width - String.length s) ++ s.

(** A text in which ['] stands for the double quote; [dq] puts the double
    quotes back. *)
Fixpoint dq (s : string) : string :=
  match s with
  | EmptyString => EmptyString
  | String c s' =>
      String (if Ascii.eqb c "'" then ascii_of_nat 34 else c) (dq s')
  end.

(** Python truth value of a [str]. *)
Definition truthy (s : string) : bool :=
  match s with EmptyString => false | _ => true end.

End PyStr.

(* ===================================================================== *)
(** ** pathlib: [Path(p).suffix] *)
(* ===================================================================== *)

Module PyPath.

(** The components of a POSIX path: empty components and ["."] are
    dropped when the path is parsed. *)
Definition parts (p : string) : list string :=
  filter (fun c => negb (String.eqb c "" || String.eqb c "."))
         (PyStr.split "/" p).

(** [PurePath.name]: the last component, or the empty string. *)
Definition name (p : string) : string := last (parts p) "".

(** [PurePath.suffix]: from the last dot of the name on, when that dot is
    neither the first nor the last character of the name. *)
Definition suffix (p : string) : string :=
  let n := name p in
  match PyStr.rfind "." n with
  | Some i =>
      if (0 <? i) && (i <? String.length n - 1) then PyStr.drop i n else ""
  | None => ""
  end.

End PyPath.

(* ===================================================================== *)
(** ** Values *)
(* ===================================================================== *)

Definition bytes := list Byte.byte.

(** A [datetime.datetime] as openpyxl returns it for a date cell. *)
Record datetime := {
  dt_year : Z; dt_month : Z; dt_day : Z;
  dt_hour : Z; dt_minute : Z; dt_second : Z; dt_microsecond : Z
}.

(** A [datetime.date]. *)
Record pydate := { d_year : Z; d_month : Z; d_day : Z }.

(** A [datetime.time], which openpyxl returns for a cell that holds a time
    of day. *)
Record pytime := {
  t_hour : Z; t_minute : Z; t_second : Z; t_microsecond : Z
}.

(** A [datetime.timedelta], which openpyxl returns for a cell that holds a
    duration: days, seconds (0 to 86399) and microseconds. *)
Record timedelta := {
  td_days : Z; td_seconds : Z; td_microseconds : Z
}.

(** [cell.value] of an openpyxl cell. *)
Inductive cell_value :=
| CNone
| CStr (s : string)
| CInt (n : Z)
| CFloat (x : Q)
| CBool (b : bool)
| CDateTime (d : datetime)
| CDate (d : pydate)
| CTime (t : pytime)
| CTimedelta (d : timedelta).

Definition row := list cell_value.
Definition sheet := list row.

(** A sheet of a workbook: a worksheet with its rows, or a chart sheet,
    which has no cells. *)
Inductive any_sheet :=
| Worksheet (rows : sheet)
| Chartsheet.

(** An openpyxl workbook: the sheets, chart sheets included, in the order
    of [wb.sheetnames], and the index of the active one. *)
Record workbook := {
  wb_sheets : list (string * any_sheet);
  wb_active_index : nat
}.

(** The values of [json.loads] and of the dictionaries the service
    builds.  A [dict] keeps its keys in insertion order. *)
Inductive pyval :=
| PNone
| PBool (b : bool)
| PInt (n : Z)
| PFloat (x : Q)
| PStr (s : string)
| PList (items : list pyval)
| PDict (entries : list (string * pyval)).

(** [d.get(key)] *)
Fixpoint dict_get (key : string) (d : list (string * pyval)) : option pyval :=
  match d with
  | [] => None
  | (k, v) :: d' => if String.eqb k key then Some v else dict_get key d'
  end.

(** [d[key] = v]: an existing key keeps its place. *)
Fixpoint dict_set (key : string) (v : pyval) (d : list (string * pyval))
  : list (string * pyval) :=
  match d with
  | [] => [(key, v)]
  | (k, v0) :: d' =>
      if String.eqb k key then (k, v) :: d' else (k, v0) :: dict_set key v d'
  end.

(** A block of a Textract answer; [Text] is absent on blocks that carry no
    text of their own. *)
Record block := { BlockType : string; Text : option string }.

(** The answer of [get_document_text_detection]; a missing ["Blocks"] is
    the empty list. *)
Record get_response := {
  JobStatus : string;
  Blocks : list block;
  NextToken : option string
}.

(** The result envelope of the four entry points. *)
Inductive envelope :=
| Success (data : pyval)                  (* {"success": True, "data": data} *)
| Failure (error : string).               (* {"success": False, "error": error} *)

(* ===================================================================== *)
(** ** Calls to the outside, exceptions, and the monad *)
(* ===================================================================== *)

(** The calls the service makes to the outside world, with their
    arguments. *)
Inductive request :=
| S3GetObject (Bucket Key : string)
| HttpGet (url : string)
| StartDocumentTextDetection (Bucket Name : string)
| GetDocumentTextDetection (JobId : string) (next_token : option string)
| DetectDocumentText (Bucket Name : string)
| ChatCompletion (model system user : string) (temperature : Q) (max_tokens : Z)
| Sleep (seconds : Z).

Definition log := list request.

(** What a call gives back: a value, or an exception with its message. *)
Inductive answer (A : Type) :=
| Answer (a : A)
| Fault (message : string).
Arguments Fault {A} message.

(** The remote services.  Each answers as a function of the calls made
    before. *)
Record services := {
  s3_get_object : log -> string -> string -> answer bytes;
  http_get : log -> string -> answer bytes;
  start_document_text_detection : log -> string -> string -> answer string;
  get_document_text_detection :
    log -> string -> option string -> answer get_response;
  detect_document_text : log -> string -> string -> answer (list block);
  chat_completions_create :
    log -> string -> string -> string -> Q -> Z -> answer (option string)
}.

(** What the service reads of [urlparse(url)]: [.hostname], which is
    [None] for a locator without a network location, and [.path]. *)
Record url_parts := { url_hostname : option string; url_path : string }.

(** The libraries the service parses with, and the configuration.
    [urlparse] raises [ValueError] on a locator it cannot split (an
    unbalanced bracket in the network location, for one). *)
Record runtime := {
  pdfplumber_pages : bytes -> answer (list (option string));
  docx_paragraphs : bytes -> answer (list string);
  load_workbook : bytes -> answer workbook;
  json_loads : string -> answer pyval;
  urlparse : string -> answer url_parts;
  float_str : Q -> string;
  aws_s3_bucket : string
}.

(** [urlparse(url).hostname] and [urlparse(url).path] of a locator that
    [urlparse] accepts. *)
Definition urlparse_hostname (rt : runtime) (url : string) : option string :=
  match urlparse rt url with
  | Answer parsed => url_hostname parsed
  | Fault _ => None
  end.

Definition urlparse_path (rt : runtime) (url : string) : string :=
  match urlparse rt url with
  | Answer parsed => url_path parsed
  | Fault _ => ""
  end.

(** The outcome of a computation: a value, a raised exception ([str(e)]),
    or a loop that was cut off. *)
Inductive outcome (A : Type) :=
| Ret (a : A)
| Raise (message : string)
| Diverge.
Arguments Raise {A} message.
Arguments Diverge {A}.

Definition M (A : Type) := log -> outcome A * log.

Definition ret {A} (a : A) : M A := fun h => (Ret a, h).

Definition raise {A} (message : string) : M A := fun h => (Raise message, h).

Definition diverge {A} : M A := fun h => (Diverge, h).

Definition bind {A B} (m : M A) (k : A -> M B) : M B :=
  fun h =>
    match m h with
    | (Ret a, h') => k a h'
    | (Raise e, h') => (Raise e, h')
    | (Diverge, h') => (Diverge, h')
    end.

(** [try: m  except Exception as e: handler e] *)
Definition try_except {A} (m : M A) (handler : string -> M A) : M A :=
  fun h =>
    match m h with
    | (Raise e, h') => handler e h'
    | r => r
    end.

(** A call: the service sees the calls made before this one; the call is
    logged whether it answers or raises. *)
Definition call {A} (r : request) (f : log -> answer A) : M A :=
  fun h =>
    match f h with
    | Answer a => (Ret a, (h ++ [r])%list)
    | Fault e => (Raise e, (h ++ [r])%list)
    end.

(** A library function that may raise. *)
Definition lift {A} (a : answer A) : M A :=
  match a with
  | Answer x => ret x
  | Fault e => raise e
  end.

Declare Scope service_scope.
Delimit Scope service_scope with service.
Notation "x <- m ;; k" := (bind m (fun x => k))
  (at level 61, m at next level, right associativity) : service_scope.
Notation "m ;;; k" := (bind m (fun _ => k))
  (at level 61, right associativity) : service_scope.
Local Open Scope service_scope.

(* ===================================================================== *)
(** ** Helpers of the service *)
(* ===================================================================== *)

(** The line feed. *)
Definition nl : string := String (ascii_of_nat 10) EmptyString.

(** [x in [a, b, ...]] for strings. *)
Definition in_list (x : string) (l : list string) : bool :=
  existsb (String.eqb x) l.

(** Python truth value of a cell value ([if cell.value], [any(values)]). *)
Definition cell_truthy (v : cell_value) : bool :=
  match v with
  | CNone => false
  | CStr s => PyStr.truthy s
  | CInt n => negb (n =? 0)%Z
  | CFloat x => negb (Qnum x =? 0)%Z
  | CBool b => b
  | CDateTime _ => true
  | CDate _ => true
  | CTime _ => true
  | CTimedelta d =>
      negb ((td_days d =? 0)%Z && (td_seconds d =? 0)%Z
            && (td_microseconds d =? 0)%Z)
  end.

Definition two_digits (n : Z) : string := PyStr.zfill 2 (PyStr.of_Z n).

(** [strftime("%Y-%m-%d")] of a year, month and day: the year is written
    without padding, month and day with two digits. *)
Definition strftime_ymd (year month day : Z) : string :=
  PyStr.of_Z year ++ "-" ++ two_digits month ++ "-" ++ two_digits day.

(** [date.isoformat()]: the year with four digits. *)
Definition isoformat_date (year month day : Z) : string :=
  PyStr.zfill 4 (PyStr.of_Z year) ++ "-" ++ two_digits month
  ++ "-" ++ two_digits day.

(** [time.isoformat()]: the microseconds are written when there are
    any. *)
Definition isoformat_time (hour minute second microsecond : Z) : string :=
  two_digits hour ++ ":" ++ two_digits minute ++ ":" ++ two_digits second
  ++ (if (microsecond =? 0)%Z then ""
      else "." ++ PyStr.zfill 6 (PyStr.of_Z microsecond)).

(** [str(d)] for a [datetime]. *)
Definition datetime_str (d : datetime) : string :=
  isoformat_date (dt_year d) (dt_month d) (dt_day d) ++ " "
  ++ isoformat_time (dt_hour d) (dt_minute d) (dt_second d)
                    (dt_microsecond d).

(** [str(d)] for a [timedelta]. *)
Definition timedelta_str (d : timedelta) : string :=
  let mm := (td_seconds d / 60)%Z in
  let ss := (td_seconds d mod 60)%Z in
  let hh := (mm / 60)%Z in
  let mm := (mm mod 60)%Z in
  (if (td_days d =? 0)%Z then ""
   else PyStr.of_Z (td_days d) ++ " day"
        ++ (if (Z.abs (td_days d) =? 1)%Z then "" else "s") ++ ", ")
  ++ PyStr.of_Z hh ++ ":" ++ two_digits mm ++ ":" ++ two_digits ss
  ++ (if (td_microseconds d =? 0)%Z then ""
      else "." ++ PyStr.zfill 6 (PyStr.of_Z (td_microseconds d))).

(** [val.strftime("%Y-%m-%d")] for the values that have the method
    ([hasattr(val, "strftime")]): a [datetime], a [date], and a [time],
    whose date is 1900-01-01. *)
Definition strftime_of (val : cell_value) : option string :=
  match val with
  | CDateTime d => Some (strftime_ymd (dt_year d) (dt_month d) (dt_day d))
  | CDate d => Some (strftime_ymd (d_year d) (d_month d) (d_day d))
  | CTime _ => Some "1900-01-01"
  | _ => None
  end.

(** [re.sub(r'^```json\s*', '', content)] *)
Definition strip_opening_fence (content : string) : string :=
  if PyStr.startswith "```json" content
  then PyStr.lstrip (PyStr.drop 7 content)
  else content.

(** [re.sub(r'\s*```$', '', content)]: the leftmost place from which the
    rest of the text is white space, three backquotes and the end of the
    text (or the line feed that ends the text) is where the text is cut;
    the final line feed, when there is one, stays. *)
Fixpoint strip_closing_fence (content : string) : string :=
  let rest := PyStr.lstrip content in
  if String.eqb rest "```" then EmptyString
  else if String.eqb rest ("```" ++ nl) then nl
  else match content with
       | EmptyString => EmptyString
       | String c content' => String c (strip_closing_fence content')
       end.

(** [obj[key] = v] on a value that came out of [json.loads]. *)
Definition setitem (obj : pyval) (key : string) (v : pyval) : M pyval :=
  match obj with
  | PDict d => ret (PDict (dict_set key v d))
  | PList _ => raise "list indices must be integers or slices, not str"
  | PStr _ => raise "'str' object does not support item assignment"
  | PInt _ => raise "'int' object does not support item assignment"
  | PFloat _ => raise "'float' object does not support item assignment"
  | PBool _ => raise "'bool' object does not support item assignment"
  | PNone => raise "'NoneType' object does not support item assignment"
  end.

(** Python truth value of an [Optional[str]] ([if not raw_text]). *)
Definition text_truthy (t : option string) : bool :=
  match t with
  | Some s => PyStr.truthy s
  | None => false
  end.

Definition po_prompt_head : string := PyStr.dq
"Analyze this Purchase Order document and extract structured data.
Return a JSON object with these fields (use null for missing values):

{
    'po_number': 'string or null',
    'vendor_name': 'string or null', 
    'date': 'YYYY-MM-DD or null',
    'total_value': number or null,
    'currency': '3-letter code like USD, EUR, KES or null',
    'scope': 'brief description of work scope or null',
    'payment_terms': 'e.g., Net 30, 50% advance or null',
    'incoterms': 'e.g., FOB, CIF, EXW or null',
    'retention_percentage': number (0-100) or null,
    'milestones': [
        {
            'title': 'string',
            'description': 'string or null',
            'expected_date': 'YYYY-MM-DD or null',
            'payment_percentage': number
        }
    ],
    'boq_items': [
        {
            'item_number': 'string',
            'description': 'string',
            'unit': 'string',
            'quantity': number,
            'unit_price': number,
            'total_price': number
        }
    ],
    'confidence': number between 0 and 1
}

Document text:
".

Definition invoice_prompt_head : string := PyStr.dq
"Analyze this Invoice document and extract structured data.
Return a JSON object with these fields (use null for missing values):

{
    'invoice_number': 'string or null',
    'vendor_name': 'string or null',
    'date': 'YYYY-MM-DD or null',
    'due_date': 'YYYY-MM-DD or null',
    'total_amount': number or null,
    'currency': '3-letter code or null',
    'subtotal': number or null,
    'tax_amount': number or null,
    'line_items': [
        {
            'description': 'string',
            'quantity': number or null,
            'unit_price': number or null,
            'amount': number
        }
    ],
    'confidence': number between 0 and 1
}

Document text:
".

Definition milestones_prompt_head : string := PyStr.dq
"Extract payment milestones from this document.
Return a JSON array of milestones:

[
    {
        'title': 'string',
        'description': 'string or null',
        'expected_date': 'YYYY-MM-DD or null',
        'payment_percentage': number (should sum to 100)
    }
]

Document text:
".

Definition po_system_prompt : string :=
  "You are a document extraction assistant. Always respond with valid JSON only. No explanations or markdown.".

Definition invoice_system_prompt : string :=
  "You are a document extraction assistant. Always respond with valid JSON only.".

Definition milestones_system_prompt : string :=
  "You are a document extraction assistant. Always respond with valid JSON array only.".

Definition gpt_model : string := "gpt-4-turbo-preview".

(* ===================================================================== *)
(** ** The service *)
(* ===================================================================== *)

Section AIExtractionService.

Variable rt : runtime.
Variable sv : services.

(** [self.s3_bucket = settings.aws_s3_bucket] *)
Definition s3_bucket : string := aws_s3_bucket rt.

(* ------------------------------------------------------------------- *)
(** *** Helper methods *)

Definition _get_extension (file_url : string) : string :=
  let clean_url := fst (PyStr.split_once "?" file_url) in
  PyStr.lower (PyPath.suffix clean_url).

(** The method returns the key, or raises what [urlparse] raises. *)
Definition _parse_s3_key (file_url : string) : answer string :=
  if PyStr.startswith "s3://" file_url then
    match PyStr.split_once "/" (PyStr.drop 5 file_url) with
    | (_, Some key) => Answer key
    | (_, None) => Answer ""
    end
  else if PyStr.contains "s3.amazonaws.com" file_url then
    match urlparse rt file_url with
    | Answer parsed => Answer (PyStr.lstrip_char "/" (url_path parsed))
    | Fault e => Fault e
    end
  else Answer file_url.

(** [parsed.hostname.split(".")[0]]; the host name is [None] for a
    locator without a network location. *)
Definition hostname_bucket (parsed : url_parts) : M string :=
  match url_hostname parsed with
  | Some host => ret (fst (PyStr.split_once "." host))
  | None => raise "'NoneType' object has no attribute 'split'"
  end.

Definition _download_file (file_url : string) : M bytes :=
  if PyStr.startswith "s3://" file_url then
    s3_key <- lift (_parse_s3_key file_url) ;;
    call (S3GetObject s3_bucket s3_key)
         (fun h => s3_get_object sv h s3_bucket s3_key)
  else if PyStr.contains "s3." file_url
          && PyStr.contains "amazonaws.com" file_url then
    parsed <- lift (urlparse rt file_url) ;;
    bucket <- hostname_bucket parsed ;;
    let s3_key := PyStr.lstrip_char "/" (url_path parsed) in
    call (S3GetObject bucket s3_key)
         (fun h => s3_get_object sv h bucket s3_key)
  else
    call (HttpGet file_url) (fun h => http_get sv h file_url).

(* ------------------------------------------------------------------- *)
(** *** Text extraction methods *)

Definition _extract_pdf_from_bytes (content : bytes) : option string :=
  match pdfplumber_pages rt content with
  | Answer pages =>
      let text_parts :=
        flat_map (fun page_text =>
                    match page_text with
                    | Some t => if PyStr.truthy t then [t] else []
                    | None => []
                    end) pages in
      Some (PyStr.join (nl ++ nl) text_parts)
  | Fault _ => None
  end.

Definition _extract_word_from_bytes (content : bytes) : option string :=
  match docx_paragraphs rt content with
  | Answer texts =>
      let paragraphs :=
        filter (fun t => PyStr.truthy (PyStr.strip t)) texts in
      Some (PyStr.join nl paragraphs)
  | Fault _ => None
  end.

(** [str(cell.value)] *)
Definition cell_str (v : cell_value) : string :=
  match v with
  | CNone => "None"
  | CStr s => s
  | CInt n => PyStr.of_Z n
  | CFloat x => float_str rt x
  | CBool true => "True"
  | CBool false => "False"
  | CDateTime d => datetime_str d
  | CDate d => isoformat_date (d_year d) (d_month d) (d_day d)
  | CTime t =>
      isoformat_time (t_hour t) (t_minute t) (t_second t) (t_microsecond t)
  | CTimedelta d => timedelta_str d
  end.

(** [[str(cell.value) if cell.value else "" for cell in row]] *)
Definition row_values (r : row) : list string :=
  map (fun v => if cell_truthy v then cell_str v else "") r.

(** The lines of one sheet: the marker, then the rows with a true
    value. *)
Definition sheet_lines (named : string * sheet) : list string :=
  ("=== Sheet: " ++ fst named ++ " ===")
    :: flat_map (fun r =>
                   let values := row_values r in
                   if existsb PyStr.truthy values
                   then [PyStr.join " | " values] else [])
                (snd named).

(** [sheet.iter_rows()]: a chart sheet has no such method, the call
    raises [AttributeError]. *)
Definition iter_rows (s : any_sheet) : answer sheet :=
  match s with
  | Worksheet rows => Answer rows
  | Chartsheet => Fault "'Chartsheet' object has no attribute 'iter_rows'"
  end.

(** [for sheet_name in wb.sheetnames: ...]: the lines of all sheets, or
    the exception of the first chart sheet. *)
Fixpoint workbook_lines (sheets : list (string * any_sheet))
  : answer (list string) :=
  match sheets with
  | [] => Answer []
  | (sheet_name, s) :: rest =>
      match iter_rows s with
      | Answer rows =>
          match workbook_lines rest with
          | Answer lines => Answer (sheet_lines (sheet_name, rows) ++ lines)%list
          | Fault e => Fault e
          end
      | Fault e => Fault e
      end
  end.

Definition _extract_excel_from_bytes (content : bytes) : option string :=
  match load_workbook rt content with
  | Answer wb =>
      match workbook_lines (wb_sheets wb) with
      | Answer text_parts => Some (PyStr.join nl text_parts)
      | Fault _ => None
      end
  | Fault _ => None
  end.

Definition _extract_word (file_url : string) : M (option string) :=
  try_except
    (content <- _download_file file_url ;;
     ret (_extract_word_from_bytes content))
    (fun _ => ret None).

Definition _extract_excel (file_url : string) : M (option string) :=
  try_except
    (content <- _download_file file_url ;;
     ret (_extract_excel_from_bytes content))
    (fun _ => ret None).

(** [block["Text"]] of every block with [block["BlockType"] == "LINE"];
    a LINE block without ["Text"] raises [KeyError]. *)
Fixpoint line_texts (blocks : list block) : M (list string) :=
  match blocks with
  | [] => ret []
  | b :: rest =>
      if String.eqb (BlockType b) "LINE" then
        match Text b with
        | Some t => ts <- line_texts rest ;; ret (t :: ts)
        | None => raise "'Text'"
        end
      else line_texts rest
  end.

(** The pagination loop [while next_token: ...]; [fuel] bounds the number
    of pages fetched. *)
Fixpoint collect_pages (fuel : nat) (job_id : string)
         (all_blocks : list block) (next_token : option string)
  : M (list block) :=
  if text_truthy next_token then
    match fuel with
    | O => diverge
    | S fuel' =>
        page_response <-
          call (GetDocumentTextDetection job_id next_token)
               (fun h => get_document_text_detection sv h job_id next_token) ;;
        collect_pages fuel' job_id
                      (all_blocks ++ Blocks page_response)%list
                      (NextToken page_response)
    end
  else ret all_blocks.

(** The polling loop [for attempt in range(max_attempts): ...] with
    [attempts] iterations left; falling out of the loop is the time-out. *)
Fixpoint poll_loop (fuel : nat) (job_id : string) (attempts : nat)
  : M (option string) :=
  match attempts with
  | O => ret None
  | S attempts' =>
      call (Sleep 2) (fun _ => Answer tt) ;;;
      get_response <-
        call (GetDocumentTextDetection job_id None)
             (fun h => get_document_text_detection sv h job_id None) ;;
      let status := JobStatus get_response in
      if String.eqb status "SUCCEEDED" then
        all_blocks <- collect_pages fuel job_id (Blocks get_response)
                                    (NextToken get_response) ;;
        lines <- line_texts all_blocks ;;
        ret (Some (PyStr.join nl lines))
      else if String.eqb status "FAILED" then ret None
      else poll_loop fuel job_id attempts'
  end.

Definition max_attempts : nat := 60.

Definition _extract_pdf_with_textract (fuel : nat) (file_url : string)
  : M (option string) :=
  try_except
    (parsed <- lift (urlparse rt file_url) ;;
     bucket <- hostname_bucket parsed ;;
     let s3_key := PyStr.lstrip_char "/" (url_path parsed) in
     job_id <-
       call (StartDocumentTextDetection bucket s3_key)
            (fun h => start_document_text_detection sv h bucket s3_key) ;;
     poll_loop fuel job_id max_attempts)
    (fun _ => ret None).

Definition _extract_pdf (fuel : nat) (file_url : string)
  : M (option string) :=
  try_except
    (content <- _download_file file_url ;;
     let text := _extract_pdf_from_bytes content in
     if text_truthy text
        && (500 <? String.length (PyStr.strip (match text with
                                              | Some t => t
                                              | None => ""
                                              end)))
     then ret text
     else _extract_pdf_with_textract fuel file_url)
    (fun _ => ret None).

Definition _extract_image (file_url : string) : M (option string) :=
  try_except
    (s3_key <- lift (_parse_s3_key file_url) ;;
     blocks <-
       call (DetectDocumentText s3_bucket s3_key)
            (fun h => detect_document_text sv h s3_bucket s3_key) ;;
     let lines :=
       flat_map (fun b =>
                   if String.eqb (BlockType b) "LINE"
                   then [match Text b with Some t => t | None => "" end]
                   else []) blocks in
     ret (Some (PyStr.join nl lines)))
    (fun _ => ret None).

(* ------------------------------------------------------------------- *)
(** *** GPT parsing methods *)

(** The fallback of [_parse_po_with_gpt]. *)
Definition po_fallback : pyval :=
  PDict [("po_number", PNone); ("vendor_name", PNone); ("date", PNone);
         ("total_value", PNone); ("currency", PNone);
         ("milestones", PList []); ("boq_items", PList []);
         ("confidence", PFloat 0)].

(** The fallback of [_parse_invoice_with_gpt]. *)
Definition invoice_fallback : pyval :=
  PDict [("invoice_number", PNone); ("vendor_name", PNone);
         ("total_amount", PNone); ("confidence", PFloat 0)].

(** The body of the [try] of the three parsing methods: one chat
    completion, the two [re.sub], [json.loads].  A completion without
    content makes [re.sub] raise. *)
Definition chat_json (system prompt : string) (max_tokens : Z) : M pyval :=
  content <-
    call (ChatCompletion gpt_model system prompt (1 # 10) max_tokens)
         (fun h => chat_completions_create sv h gpt_model system prompt
                                           (1 # 10) max_tokens) ;;
  match content with
  | Some c =>
      let c1 := strip_opening_fence c in
      let c2 := strip_closing_fence c1 in
      lift (json_loads rt c2)
  | None => raise "expected string or bytes-like object, got 'NoneType'"
  end.

Definition _parse_po_with_gpt (raw_text : string) : M pyval :=
  let prompt := po_prompt_head ++ PyStr.take 15000 raw_text ++ nl in
  try_except (chat_json po_system_prompt prompt 4000)
             (fun _ => ret po_fallback).

Definition _parse_invoice_with_gpt (raw_text : string) : M pyval :=
  let prompt := invoice_prompt_head ++ PyStr.take 15000 raw_text ++ nl in
  try_except (chat_json invoice_system_prompt prompt 4000)
             (fun _ => ret invoice_fallback).

(** [extract_milestones] hands over the result of [_extract_pdf] as it
    is, so the argument may be [None]; the prompt is built before the
    [try], and slicing [None] raises there. *)
Definition _parse_milestones_with_gpt (raw_text : option string) : M pyval :=
  match raw_text with
  | None => raise "'NoneType' object is not subscriptable"
  | Some t =>
      let prompt := milestones_prompt_head ++ PyStr.take 15000 t ++ nl in
      try_except (chat_json milestones_system_prompt prompt 2000)
                 (fun _ => ret (PList []))
  end.

(* ------------------------------------------------------------------- *)
(** *** The heuristic milestone parser *)

(** The header test on one row: some cell, lower-cased, contains one of
    the three tokens. *)
Definition is_header_row (r : row) : bool :=
  let values :=
    map (fun v => if cell_truthy v then PyStr.lower (cell_str v) else "") r in
  existsb (fun v => PyStr.contains "milestone" v
                    || PyStr.contains "payment" v
                    || PyStr.contains "description" v) values.

(** [for row_idx, row in enumerate(...)]: the number ([row_idx + 1]) of
    the first header row among [rows], counting from [row_idx]. *)
Fixpoint find_header_from (row_idx : nat) (rows : list row) : option nat :=
  match rows with
  | [] => None
  | r :: rows' =>
      if is_header_row r then Some (row_idx + 1)
      else find_header_from (S row_idx) rows'
  end.

(** [sheet.iter_rows(min_row=1, max_row=10)] *)
Definition find_header_row (sh : sheet) : option nat :=
  find_header_from 0 (firstn 10 sh).

(** The dictionary [milestone] that the loop over the cells of a row
    fills in; a key is [None] until it is set. *)
Record partial_milestone := {
  pm_title : option string;
  pm_payment_percentage : option Q;
  pm_expected_date : option string
}.

Definition empty_milestone : partial_milestone :=
  {| pm_title := None; pm_payment_percentage := None;
     pm_expected_date := None |}.

(** [isinstance(val, (int, float))] with the value as a [float]; a
    [bool] is an [int] in Python. *)
Definition int_or_float (val : cell_value) : option Q :=
  match val with
  | CInt n => Some (inject_Z n)
  | CFloat x => Some x
  | CBool b => Some (inject_Z (if b then 1 else 0))
  | _ => None
  end.

(** [isinstance(val, (int, float)) and 0 < val <= 100] *)
Definition is_percentage (val : cell_value) : bool :=
  match int_or_float val with
  | Some x => negb (Qle_bool x 0) && Qle_bool x (inject_Z 100)
  | None => false
  end.

(** One turn of [for idx, val in enumerate(values)]. *)
Definition classify_cell (m : partial_milestone) (val : cell_value)
  : partial_milestone :=
  match val with
  | CNone => m
  | _ =>
      let val_str := PyStr.strip (cell_str val) in
      if negb (text_truthy (pm_title m))
         && match val with
            | CStr s => 3 <? String.length s
            | _ => false
            end
      then
        {| pm_title := Some val_str;
           pm_payment_percentage := pm_payment_percentage m;
           pm_expected_date := pm_expected_date m |}
      else if is_percentage val then
        match pm_payment_percentage m, int_or_float val with
        | None, Some x =>
            {| pm_title := pm_title m;
               pm_payment_percentage := Some x;
               pm_expected_date := pm_expected_date m |}
        | _, _ => m
        end
      else
        match strftime_of val, pm_expected_date m with
        | Some text, None =>
            {| pm_title := pm_title m;
               pm_payment_percentage := pm_payment_percentage m;
               pm_expected_date := Some text |}
        | _, _ => m
        end
  end.

(** Python truth value of [milestone.get("payment_percentage")]. *)
Definition percentage_truthy (p : option Q) : bool :=
  match p with
  | Some x => negb (Qnum x =? 0)%Z
  | None => false
  end.

Definition opt_str (t : option string) : pyval :=
  match t with
  | Some s => PStr s
  | None => PNone
  end.

(** The body of [for row in sheet.iter_rows(min_row=header_row + 1)]:
    the milestones one row contributes (none or one). *)
Definition parse_data_row (values : row) : list pyval :=
  if negb (existsb cell_truthy values) then []
  else
    let milestone := fold_left classify_cell values empty_milestone in
    if text_truthy (pm_title milestone)
       && percentage_truthy (pm_payment_percentage milestone)
    then
      [PDict [("title", opt_str (pm_title milestone));
              ("description", PNone);
              ("expected_date", opt_str (pm_expected_date milestone));
              ("payment_percentage",
               match pm_payment_percentage milestone with
               | Some x => PFloat x
               | None => PInt 0
               end)]]
    else [].

Definition _extract_milestones_from_excel (file_url : string) : M pyval :=
  try_except
    (content <- _download_file file_url ;;
     wb <- lift (load_workbook rt content) ;;
     sh <- match nth_error (wb_sheets wb) (wb_active_index wb) with
           | Some named => lift (iter_rows (snd named))
           | None => raise "'NoneType' object has no attribute 'iter_rows'"
           end ;;
     match find_header_row sh with
     | None =>
         let raw_text := _extract_excel_from_bytes content in
         _parse_milestones_with_gpt raw_text
     | Some header_row =>
         ret (PList (flat_map parse_data_row (skipn header_row sh)))
     end)
    (fun _ => ret (PList [])).

(* ------------------------------------------------------------------- *)
(** *** Public methods *)

Definition unreadable : string := "Could not extract text from document".

(** The end of [extract_purchase_order], [extract_invoice] and
    [extract_from_bytes]: [parsed_data["raw_text"] = raw_text[:5000]] and
    the success envelope. *)
Definition attach_raw_text (parsed_data : pyval) (raw_text : string)
  : M envelope :=
  data <- setitem parsed_data "raw_text" (PStr (PyStr.take 5000 raw_text)) ;;
  ret (Success data).

Definition extract_purchase_order (fuel : nat) (file_url : string)
  : M envelope :=
  try_except
    (let ext := _get_extension file_url in
     let parse (raw_text : option string) : M envelope :=
       match raw_text with
       | Some t =>
           if PyStr.truthy t then
             parsed_data <- _parse_po_with_gpt t ;;
             attach_raw_text parsed_data t
           else ret (Failure unreadable)
       | None => ret (Failure unreadable)
       end in
     if in_list ext [".xlsx"; ".xls"] then
       raw_text <- _extract_excel file_url ;; parse raw_text
     else if in_list ext [".docx"; ".doc"] then
       raw_text <- _extract_word file_url ;; parse raw_text
     else if String.eqb ext ".pdf" then
       raw_text <- _extract_pdf fuel file_url ;; parse raw_text
     else if in_list ext [".png"; ".jpg"; ".jpeg"] then
       raw_text <- _extract_image file_url ;; parse raw_text
     else ret (Failure ("Unsupported file type: " ++ ext)))
    (fun e => ret (Failure e)).

Definition extract_invoice (fuel : nat) (file_url : string) : M envelope :=
  try_except
    (let ext := _get_extension file_url in
     let parse (raw_text : option string) : M envelope :=
       match raw_text with
       | Some t =>
           if PyStr.truthy t then
             parsed_data <- _parse_invoice_with_gpt t ;;
             attach_raw_text parsed_data t
           else ret (Failure unreadable)
       | None => ret (Failure unreadable)
       end in
     if in_list ext [".xlsx"; ".xls"] then
       raw_text <- _extract_excel file_url ;; parse raw_text
     else if in_list ext [".docx"; ".doc"] then
       raw_text <- _extract_word file_url ;; parse raw_text
     else if String.eqb ext ".pdf" then
       raw_text <- _extract_pdf fuel file_url ;; parse raw_text
     else if in_list ext [".png"; ".jpg"; ".jpeg"] then
       raw_text <- _extract_image file_url ;; parse raw_text
     else ret (Failure ("Unsupported file type: " ++ ext)))
    (fun e => ret (Failure e)).

Definition extract_milestones (fuel : nat) (file_url : string)
  : M envelope :=
  try_except
    (let ext := _get_extension file_url in
     if in_list ext [".xlsx"; ".xls"] then
       milestones <- _extract_milestones_from_excel file_url ;;
       ret (Success (PDict [("milestones", milestones)]))
     else if String.eqb ext ".pdf" then
       raw_text <- _extract_pdf fuel file_url ;;
       milestones <- _parse_milestones_with_gpt raw_text ;;
       ret (Success (PDict [("milestones", milestones)]))
     else ret (Failure ("Unsupported file type for milestones: " ++ ext)))
    (fun e => ret (Failure e)).

Definition extract_from_bytes (content : bytes) (filename : string)
           (document_type : string) : M envelope :=
  try_except
    (let ext := PyStr.lower (PyPath.suffix filename) in
     let parse (raw_text : option string) : M envelope :=
       match raw_text with
       | Some t =>
           if PyStr.truthy t then
             if String.eqb document_type "purchase_order" then
               parsed_data <- _parse_po_with_gpt t ;;
               attach_raw_text parsed_data t
             else if String.eqb document_type "invoice" then
               parsed_data <- _parse_invoice_with_gpt t ;;
               attach_raw_text parsed_data t
             else if String.eqb document_type "milestone" then
               milestones <- _parse_milestones_with_gpt (Some t) ;;
               attach_raw_text (PDict [("milestones", milestones)]) t
             else ret (Failure ("Unknown document type: " ++ document_type))
           else ret (Failure unreadable)
       | None => ret (Failure unreadable)
       end in
     if in_list ext [".xlsx"; ".xls"] then
       parse (_extract_excel_from_bytes content)
     else if in_list ext [".docx"; ".doc"] then
       parse (_extract_word_from_bytes content)
     else if String.eqb ext ".pdf" then
       parse (_extract_pdf_from_bytes content)
     else ret (Failure ("Unsupported file type: " ++ ext)))
    (fun e => ret (Failure e)).

End AIExtractionService.

(* ===================================================================== *)
(** ** Fixtures: concrete libraries and services for the examples *)
(* ===================================================================== *)

Module Fixtures.

Definition in_progress : get_response :=
  {| JobStatus := "IN_PROGRESS"; Blocks := []; NextToken := None |}.

Definition failed : get_response :=
  {| JobStatus := "FAILED"; Blocks := []; NextToken := None |}.

(** A finished job whose only block is the page itself. *)
Definition succeeded_blank : get_response :=
  {| JobStatus := "SUCCEEDED";
     Blocks := [{| BlockType := "PAGE"; Text := None |}];
     NextToken := None |}.

Definition line (t : string) : block := {| BlockType := "LINE"; Text := Some t |}.

Definition word (t : string) : block := {| BlockType := "WORD"; Text := Some t |}.

(** A finished job with two pages of results. *)
Definition first_page : get_response :=
  {| JobStatus := "SUCCEEDED";
     Blocks := [{| BlockType := "PAGE"; Text := None |};
                line "PURCHASE ORDER"; word "PURCHASE"; word "ORDER"];
     NextToken := Some "p2" |}.

Definition second_page : get_response :=
  {| JobStatus := "SUCCEEDED";
     Blocks := [line "Total: 100"; word "Total:"];
     NextToken := None |}.

(** An OCR service that finds the job running at the first poll and
    finished at the second. *)
Definition paged_ocr (h : log) (token : option string) : answer get_response :=
  match token with
  | None =>
      if 2 <=? List.length (filter (fun r => match r with
                                             | Sleep _ => true
                                             | _ => false
                                             end) h)
      then Answer first_page else Answer in_progress
  | Some _ => Answer second_page
  end.

(** A JSON reader that knows two documents. *)
Definition json_two (s : string) : answer pyval :=
  if String.eqb s "[]" then Answer (PList [])
  else if String.eqb s "{}" then Answer (PDict [])
  else Fault "Expecting value: line 1 column 1 (char 0)".

(** A locator with an opening bracket that is never closed is refused,
    every other one is parsed as
    [https://docs.s3.us-east-1.amazonaws.com/po/scan.pdf]. *)
Definition urlparse_docs (url : string) : answer url_parts :=
  if PyStr.contains "[" url && negb (PyStr.contains "]" url)
  then Fault "Invalid IPv6 URL"
  else Answer {| url_hostname := Some "docs.s3.us-east-1.amazonaws.com";
                 url_path := "/po/scan.pdf" |}.

(** Libraries that read every non-empty file as the given PDF pages,
    paragraphs and workbook, and reject the empty file. *)
Definition rt_with (pages : answer (list (option string)))
           (paragraphs : list string) (wb : workbook) : runtime :=
  {| pdfplumber_pages :=
       fun content =>
         match content with
         | [] => Fault "No /Root object! - Is this really a PDF?"
         | _ => pages
         end;
     docx_paragraphs :=
       fun content =>
         match content with
         | [] => Fault "File is not a zip file"
         | _ => Answer paragraphs
         end;
     load_workbook :=
       fun content =>
         match content with
         | [] => Fault "File is not a zip file"
         | _ => Answer wb
         end;
     json_loads := json_two;
     urlparse := urlparse_docs;
     float_str := fun _ => "0.0";
     aws_s3_bucket := "infradyn-files" |}.

Definition no_workbook : workbook :=
  {| wb_sheets := []; wb_active_index := 0 |}.

(** Libraries that reject every PDF. *)
Definition rt_reject : runtime :=
  rt_with (Fault "No /Root object! - Is this really a PDF?") [] no_workbook.

Definition some_file : bytes := [Byte.x50; Byte.x4b].

(** Services that deliver [content] for every file, answer the status
    polls and page requests of an OCR job with [ocr] and every prompt
    with [reply]. *)
Definition sv_with (content : bytes)
           (ocr : log -> option string -> answer get_response)
           (reply : answer (option string)) : services :=
  {| s3_get_object := fun _ _ _ => Answer content;
     http_get := fun _ _ => Answer content;
     start_document_text_detection := fun _ _ _ => Answer "job-1";
     get_document_text_detection := fun h _ token => ocr h token;
     detect_document_text := fun _ _ _ => Answer [];
     chat_completions_create := fun _ _ _ _ _ _ => reply |}.

(** Services that deliver an empty file, never finish an OCR job and
    answer every prompt with prose. *)
Definition sv_idle : services :=
  sv_with [] (fun _ _ => Answer in_progress)
          (Answer (Some "Sorry, I cannot read this.")).

(** [n] times the letter [x]. *)
Fixpoint filler (n : nat) : string :=
  match n with
  | O => EmptyString
  | S n' => String "x" (filler n')
  end.

Definition date (y m d : Z) : cell_value :=
  CDateTime {| dt_year := y; dt_month := m; dt_day := d;
               dt_hour := 0; dt_minute := 0; dt_second := 0;
               dt_microsecond := 0 |}.

(** Half past eight in the morning, as a time-of-day cell. *)
Definition half_past_eight : cell_value :=
  CTime {| t_hour := 8; t_minute := 30; t_second := 0; t_microsecond := 0 |}.

(** The milestone schedule of the specification. *)
Definition schedule : sheet :=
  [[CStr "Milestone Description"; CStr "Payment %"; CNone];
   [CStr "Mobilization"; CInt 10; date 2024 1 15];
   [CStr "Final Delivery"; CInt 90; date 2024 12 1]].

Definition schedule_wb : workbook :=
  {| wb_sheets := [("Schedule", Worksheet schedule)]; wb_active_index := 0 |}.

(** The same workbook with a chart sheet after the schedule. *)
Definition charted_wb : workbook :=
  {| wb_sheets := [("Schedule", Worksheet schedule); ("Chart1", Chartsheet)];
     wb_active_index := 0 |}.

End Fixtures.

(* ===================================================================== *)
(** ** Vocabulary: unsupported extensions (C8) *)
(* ===================================================================== *)

(** The extensions [extract_purchase_order] dispatches on. *)
Definition supported_extensions : list string :=
  [".xlsx"; ".xls"; ".docx"; ".doc"; ".pdf"; ".png"; ".jpg"; ".jpeg"].

(* ===================================================================== *)
(** ** Vocabulary: the purchase-order fallback (C3) *)
(* ===================================================================== *)

(** The prompt [_parse_po_with_gpt] sends for [raw_text]. *)
Definition po_prompt (raw_text : string) : string :=
  po_prompt_head ++ PyStr.take 15000 raw_text ++ nl.

(** The chat completion failed, came without content, or its content is
    not JSON once the code fences are stripped. *)
Definition malformed_reply (rt : runtime) (reply : answer (option string))
  : bool :=
  match reply with
  | Fault _ => true
  | Answer None => true
  | Answer (Some content) =>
      match json_loads rt (strip_closing_fence (strip_opening_fence content)) with
      | Fault _ => true
      | Answer _ => false
      end
  end.

(** The scalar fields of the purchase-order schema of the prompt. *)
Definition po_scalar_fields : list string :=
  ["po_number"; "vendor_name"; "date"; "total_value"; "currency"; "scope";
   "payment_terms"; "incoterms"; "retention_percentage"].

(** The scalar fields the fallback of the purchase-order parser holds, and
    the scalar fields of the schema it leaves out. *)
Definition po_fallback_scalars : list string :=
  ["po_number"; "vendor_name"; "date"; "total_value"; "currency"].

Definition po_missing_scalars : list string :=
  ["scope"; "payment_terms"; "incoterms"; "retention_percentage"].

(** An object holds [key] with the value [None]. *)
Definition is_null_field (key : string) (obj : pyval) : Prop :=
  match obj with
  | PDict d => dict_get key d = Some PNone
  | _ => False
  end.

(** [obj.get(key)], with [None] for a missing key. *)
Definition py_get (key : string) (obj : pyval) : pyval :=
  match obj with
  | PDict d => match dict_get key d with Some v => v | None => PNone end
  | _ => PNone
  end.

(** What the [try]/[except] around a chat completion returns: the parsed
    content, or the fallback; one call is logged. *)
Definition parsed_or (rt : runtime) (fallback : pyval)
           (reply : answer (option string)) : pyval :=
  match reply with
  | Answer (Some content) =>
      match json_loads rt (strip_closing_fence (strip_opening_fence content)) with
      | Answer v => v
      | Fault _ => fallback
      end
  | _ => fallback
  end.

(* ===================================================================== *)
(** ** Vocabulary: the raw text in the result (C9) *)
(* ===================================================================== *)

(** The data of a success carries [raw_text], the first 5,000 characters
    of [raw]. *)
Definition has_raw_text (data : pyval) (raw : string) : Prop :=
  exists d, data = PDict d
            /\ dict_get "raw_text" d = Some (PStr (PyStr.take 5000 raw)).

(** The extractor the URL entry points pick for a locator. *)
Definition raw_text_of_url (rt : runtime) (sv : services) (fuel : nat)
           (file_url : string) : M (option string) :=
  let ext := _get_extension file_url in
  if in_list ext [".xlsx"; ".xls"] then _extract_excel rt sv file_url
  else if in_list ext [".docx"; ".doc"] then _extract_word rt sv file_url
  else if String.eqb ext ".pdf" then _extract_pdf rt sv fuel file_url
  else if in_list ext [".png"; ".jpg"; ".jpeg"] then _extract_image rt sv file_url
  else ret None.

(** The extractor [extract_from_bytes] picks for a file name. *)
Definition raw_text_of_bytes (rt : runtime) (content : bytes)
           (filename : string) : option string :=
  let ext := PyStr.lower (PyPath.suffix filename) in
  if in_list ext [".xlsx"; ".xls"] then _extract_excel_from_bytes rt content
  else if in_list ext [".docx"; ".doc"] then _extract_word_from_bytes rt content
  else if String.eqb ext ".pdf" then _extract_pdf_from_bytes rt content
  else None.

(* ===================================================================== *)
(** ** Vocabulary: the OCR job client: polling (C6) *)
(* ===================================================================== *)

(** The calls of [n] turns of the polling loop: a sleep of 2, then a
    status poll. *)
Fixpoint polls (job_id : string) (n : nat) : log :=
  match n with
  | O => []
  | S n' => Sleep 2 :: GetDocumentTextDetection job_id None :: polls job_id n'
  end.

Definition is_submission (r : request) : bool :=
  match r with StartDocumentTextDetection _ _ => true | _ => false end.

Definition is_poll (r : request) : bool :=
  match r with GetDocumentTextDetection _ None => true | _ => false end.

Definition is_sleep (r : request) : bool :=
  match r with Sleep _ => true | _ => false end.

(** A request for a further page of the results of [job_id]. *)
Definition is_page_request (job_id : string) (r : request) : bool :=
  match r with
  | GetDocumentTextDetection j (Some _) => String.eqb j job_id
  | _ => false
  end.

Definition count (p : request -> bool) (evs : log) : nat :=
  List.length (filter p evs).

(** The calls of one run of the OCR job client: nothing, or one
    submission, at most 60 turns of sleep and poll, then page requests. *)
Inductive client_log : log -> Prop :=
| not_submitted : client_log []
| submitted (bucket key job_id : string) (n : nat) (pages : log) :
    n <= 60 ->
    forallb (is_page_request job_id) pages = true ->
    client_log (StartDocumentTextDetection bucket key
                  :: polls job_id n ++ pages)%list.

(** The first [k] polls of [job_id], made after the calls [h0], are
    answered with a status that is neither [SUCCEEDED] nor [FAILED]. *)
Definition still_running (sv : services) (job_id : string) (h0 : log)
           (k : nat) : Prop :=
  forall i, i < k ->
    exists r,
      get_document_text_detection sv (h0 ++ polls job_id i ++ [Sleep 2])%list
                                  job_id None = Answer r
      /\ String.eqb (JobStatus r) "SUCCEEDED" = false
      /\ String.eqb (JobStatus r) "FAILED" = false.

(* ===================================================================== *)
(** ** Vocabulary: the OCR job client: pagination and lines (C7) *)
(* ===================================================================== *)

(** Following the continuation cursor until it is exhausted:
    [pagination sv job_id h token blocks h'] holds when, after the calls
    [h] and with the cursor [token], the further pages carry [blocks], in
    the order returned, and the calls made are [h'] in the end. *)
Inductive pagination (sv : services) (job_id : string)
  : log -> option string -> list block -> log -> Prop :=
| cursor_exhausted h token :
    text_truthy token = false ->
    pagination sv job_id h token [] h
| next_page h token page blocks h' :
    text_truthy token = true ->
    get_document_text_detection sv h job_id token = Answer page ->
    pagination sv job_id
               (h ++ [GetDocumentTextDetection job_id token])%list
               (NextToken page) blocks h' ->
    pagination sv job_id h token (Blocks page ++ blocks)%list h'.

(** The [Text] of the blocks whose [BlockType] is [LINE], in order. *)
Definition line_text_list (blocks : list block) : list string :=
  flat_map (fun b =>
              if String.eqb (BlockType b) "LINE"
              then match Text b with Some t => [t] | None => [] end
              else []) blocks.

(* ===================================================================== *)
(** ** Vocabulary: the heuristic milestone parser (C4) *)
(* ===================================================================== *)

(** The first element of a list for which [f] gives something. *)
Fixpoint first_some {A B} (f : A -> option B) (l : list A) : option B :=
  match l with
  | [] => None
  | a :: l' => match f a with Some b => Some b | None => first_some f l' end
  end.

(** A numeric cell, with its value: an [int], a [float], or a [bool],
    which Python counts among the integers ([True] is 1, [False] is 0). *)
Definition numeric (v : cell_value) : option Q :=
  match v with
  | CInt n => Some (inject_Z n)
  | CFloat x => Some x
  | CBool true => Some (inject_Z 1)
  | CBool false => Some (inject_Z 0)
  | _ => None
  end.

(** A numeric cell with a value in (0, 100]. *)
Definition percentage_of (v : cell_value) : option Q :=
  match numeric v with
  | Some x => if negb (Qle_bool x 0) && Qle_bool x (inject_Z 100)
              then Some x else None
  | None => None
  end.

(** A date-typed cell, formatted with [%Y-%m-%d]: a [datetime] or a
    [date] gives its day; a time of day gives the day [strftime] takes it
    to be on, 1900-01-01. *)
Definition date_of (v : cell_value) : option string :=
  match v with
  | CDateTime d => Some (strftime_ymd (dt_year d) (dt_month d) (dt_day d))
  | CDate d => Some (strftime_ymd (d_year d) (d_month d) (d_day d))
  | CTime _ => Some "1900-01-01"
  | _ => None
  end.

(** A string cell longer than 3 characters, as it is. *)
Definition long_string_of (v : cell_value) : option string :=
  match v with
  | CStr s => if 3 <? String.length s then Some s else None
  | _ => None
  end.

(** A string cell longer than 3 characters that is not blank, trimmed. *)
Definition title_of (v : cell_value) : option string :=
  match v with
  | CStr s =>
      if (3 <? String.length s) && PyStr.truthy (PyStr.strip s)
      then Some (PyStr.strip s) else None
  | _ => None
  end.

Definition row_is_empty (values : row) : bool :=
  forallb (fun v => match v with CNone => true | _ => false end) values.

Definition milestone (title : string) (expected_date : option string)
           (payment_percentage : Q) : pyval :=
  PDict [("title", PStr title);
         ("description", PNone);
         ("expected_date", opt_str expected_date);
         ("payment_percentage", PFloat payment_percentage)].

(** The milestone of a data row as the specification words it: the first
    string cell longer than 3 characters is the title, the first numeric
    cell in (0, 100] the percentage, the first date-typed cell the date; a
    milestone is emitted when title and percentage were found. *)
Definition milestone_as_written (values : row) : list pyval :=
  if row_is_empty values then []
  else match first_some long_string_of values,
             first_some percentage_of values with
       | Some title, Some p =>
           [milestone title (first_some date_of values) p]
       | _, _ => []
       end.

(** The same with the title as the code takes it: the trimmed text of the
    first string cell longer than 3 characters that is not blank. *)
Definition milestone_of_row (values : row) : list pyval :=
  if row_is_empty values then []
  else match first_some title_of values,
             first_some percentage_of values with
       | Some title, Some p =>
           [milestone title (first_some date_of values) p]
       | _, _ => []
       end.

(** The years that [%Y] writes with four digits. *)
Definition four_digit_year (year : Z) : Prop := (1000 <= year <= 9999)%Z.

(** A request that fetches a file. *)
Definition is_fetch (r : request) : bool :=
  match r with
  | S3GetObject _ _ | HttpGet _ => true
  | _ => false
  end.

Definition header_tokens : list string := ["milestone"; "payment"; "description"].

(** The two milestones of the schedule of the specification. *)
Definition schedule_milestones : list pyval :=
  [milestone "Mobilization" (Some "2024-01-15") (inject_Z 10);
   milestone "Final Delivery" (Some "2024-12-01") (inject_Z 90)].

(* ===================================================================== *)
(** ** The extraction router (app/routers/extraction.py) *)
(* ===================================================================== *)

(** [class DocumentType(str, Enum)] *)
Inductive DocumentType :=
| PURCHASE_ORDER
| INVOICE
| MILESTONE.

(** [document_type.value] *)
Definition DocumentType_value (document_type : DocumentType) : string :=
  match document_type with
  | PURCHASE_ORDER => "purchase_order"
  | INVOICE => "invoice"
  | MILESTONE => "milestone"
  end.

Section ExtractionRouter.

Variable rt : runtime.
Variable sv : services.

(** [POST /document]; the enumeration leaves no other document type, and
    the result of the service is returned as the response. *)
Definition extract_document (fuel : nat) (file_url : string)
           (document_type : DocumentType) : M envelope :=
  try_except
    (match document_type with
     | PURCHASE_ORDER => extract_purchase_order rt sv fuel file_url
     | INVOICE => extract_invoice rt sv fuel file_url
     | MILESTONE => extract_milestones rt sv fuel file_url
     end)
    (fun e => ret (Failure e)).

(** [POST /upload]; [read] is what [await file.read()] gives and
    [filename] is [file.filename]. *)
Definition extract_uploaded_file (read : answer bytes)
           (filename : option string) (document_type : DocumentType)
  : M envelope :=
  try_except
    (content <- lift read ;;
     let filename := if text_truthy filename
                     then match filename with Some f => f | None => "" end
                     else "document" in
     extract_from_bytes rt sv content filename
                        (DocumentType_value document_type))
    (fun e => ret (Failure e)).

(** [POST /milestones] *)
Definition extract_milestones_only (fuel : nat) (file_url : string)
  : M envelope :=
  try_except (extract_milestones rt sv fuel file_url)
             (fun e => ret (Failure e)).

End ExtractionRouter.

(* ===================================================================== *)
(** ** Vocabulary: further properties of the service *)
(* ===================================================================== *)


(** A text of white space only. *)
Fixpoint all_space (s : string) : bool :=
  match s with
  | EmptyString => true
  | String c s' => PyStr.is_space c && all_space s'
  end.

Definition is_chat (r : request) : bool :=
  match r with ChatCompletion _ _ _ _ _ => true | _ => false end.

(** The prompts of the invoice and of the milestone parser. *)
Definition invoice_prompt (raw_text : string) : string :=
  invoice_prompt_head ++ PyStr.take 15000 raw_text ++ nl.

Definition milestones_prompt (raw_text : string) : string :=
  milestones_prompt_head ++ PyStr.take 15000 raw_text ++ nl.

(** The extensions [extract_from_bytes] dispatches on. *)
Definition bytes_extensions : list string :=
  [".xlsx"; ".xls"; ".docx"; ".doc"; ".pdf"].

(** The extensions [extract_milestones] dispatches on. *)
Definition milestone_extensions : list string := [".xlsx"; ".xls"; ".pdf"].

(** The workbook has a chart sheet. *)
Definition has_chartsheet (wb : workbook) : bool :=
  existsb (fun named : string * any_sheet =>
             match snd named with Chartsheet => true | Worksheet _ => false end)
          (wb_sheets wb).

(** The worksheets of a workbook, in order. *)
Definition worksheets (wb : workbook) : list (string * sheet) :=
  flat_map (fun named : string * any_sheet =>
              match snd named with
              | Worksheet rows => [(fst named, rows)]
              | Chartsheet => []
              end) (wb_sheets wb).

(** A percentage as the heuristic parser accepts it: in (0, 100]. *)
Definition in_percent_range (x : Q) : bool :=
  negb (Qle_bool x 0) && Qle_bool x (inject_Z 100).

(** What the loop over the cells keeps true of the dictionary it fills:
    a title is trimmed text, a percentage lies in (0, 100]. *)
Definition milestone_well_formed (m : partial_milestone) : Prop :=
  match pm_title m with
  | Some t => PyStr.strip t = t
  | None => True
  end
  /\ match pm_payment_percentage m with
     | Some x => in_percent_range x = true
     | None => True
     end.

(* ===================================================================== *)
(** ** Further fixtures *)
(* ===================================================================== *)

Module MoreFixtures.

(** Services that deliver a file, never finish an OCR job and do not
    answer prompts. *)
Definition sv_with_file : services :=
  Fixtures.sv_with Fixtures.some_file
                   (fun _ _ => Answer Fixtures.in_progress) (Answer None).

(** Libraries that read every file as a two-paragraph Word document and
    every JSON text as a purchase order that brings a [raw_text] of its
    own. *)
Definition rt_po : runtime :=
  {| pdfplumber_pages := fun _ => Answer [];
     docx_paragraphs := fun _ => Answer ["PO 17"; "  "; "ACME"];
     load_workbook := fun _ => Answer Fixtures.schedule_wb;
     json_loads :=
       fun _ => Answer (PDict [("po_number", PStr "PO-17");
                               ("raw_text", PStr "made up");
                               ("confidence", PFloat (9 # 10))]);
     urlparse := Fixtures.urlparse_docs;
     float_str := fun _ => "0.0";
     aws_s3_bucket := "infradyn-files" |}.

(** Services that deliver a file and answer every prompt with [reply]. *)
Definition sv_reply (reply : string) : services :=
  Fixtures.sv_with Fixtures.some_file
                   (fun _ _ => Answer Fixtures.in_progress)
                   (Answer (Some reply)).

(** Libraries that read every file as a two-paragraph Word document. *)
Definition rt_docx : runtime :=
  Fixtures.rt_with (Answer []) ["PO 17"; "  "; "ACME"] Fixtures.schedule_wb.

End MoreFixtures.

(* ===================================================================== *)
(** ** Reasoning about the monad *)
(* ===================================================================== *)

Lemma bind_ret_l {A B} (a : A) (k : A -> M B) h : bind (ret a) k h = k a h.
Proof. reflexivity. Qed.

Lemma bind_eq_ret {A B} (m : M A) (k : A -> M B) h b h' :
  bind m k h = (Ret b, h') ->
  exists a h1, m h = (Ret a, h1) /\ k a h1 = (Ret b, h').
Proof.
  unfold bind. destruct (m h) as [[a | e |] h1]; intros H; try discriminate.
  eauto.
Qed.

(* ===================================================================== *)
(** ** Unsupported extensions (C8) *)
(* ===================================================================== *)

(** C8.  A locator whose extension (query string stripped, lower-cased) is
    not a supported one makes [extract_purchase_order] answer
    [{success: False, error: "Unsupported file type: <ext>"}] with the log
    of calls unchanged: nothing was fetched, extracted, sent to OCR or to
    the language model.  For the extension [.txt] the message is
    ["Unsupported file type: .txt"]. *)
Theorem extract_purchase_order_unsupported :
  forall rt sv fuel file_url h,
    in_list (_get_extension file_url) supported_extensions = false ->
    extract_purchase_order rt sv fuel file_url h
    = (Ret (Failure ("Unsupported file type: " ++ _get_extension file_url)), h)
    /\ (_get_extension file_url = ".txt" ->
        extract_purchase_order rt sv fuel file_url h
        = (Ret (Failure "Unsupported file type: .txt"), h)).
Proof.
  intros rt sv fuel file_url h Hext.
  assert (E : extract_purchase_order rt sv fuel file_url h
              = (Ret (Failure ("Unsupported file type: "
                               ++ _get_extension file_url)), h)).
  { unfold extract_purchase_order, supported_extensions, in_list in *.
    simpl in Hext.
    repeat (apply orb_false_elim in Hext; destruct Hext as [?Hx Hext]).
    unfold try_except, in_list. simpl.
    now rewrite Hx, Hx0, Hx1, Hx2, Hx3, Hx4, Hx5, Hx6. }
  split; [exact E|]. intros Htxt. rewrite E, Htxt. reflexivity.
Qed.

Lemma extract_purchase_order_unsupported_witness :
  _get_extension "https://files.example.com/orders/PO-17.TXT?sig=abc" = ".txt"
  /\ extract_purchase_order Fixtures.rt_reject Fixtures.sv_idle 0
       "https://files.example.com/orders/PO-17.TXT?sig=abc" []
     = (Ret (Failure "Unsupported file type: .txt"), []).
Proof.
  split; [reflexivity|].
  apply (extract_purchase_order_unsupported
           Fixtures.rt_reject Fixtures.sv_idle 0
           "https://files.example.com/orders/PO-17.TXT?sig=abc" []);
    reflexivity.
Defined.

(* ===================================================================== *)
(** ** [s3://] locators (C10) *)
(* ===================================================================== *)

Lemma prefix_char (a c : ascii) (s : string) :
  String.prefix (String a EmptyString) (String c s) = Ascii.eqb a c.
Proof.
  cbn [String.prefix].
  destruct (ascii_dec a c) as [E|N], (Ascii.eqb_spec a c) as [E'|N'];
    try congruence.
  now destruct s.
Qed.

Lemma prefix_append (p s : string) : String.prefix p (p ++ s) = true.
Proof.
  induction p as [|c p IH]; cbn [String.prefix append].
  - now destruct s.
  - destruct (ascii_dec c c) as [_|N]; [exact IH | now destruct N].
Qed.

Lemma contains_char_cons (ch c : ascii) (s : string) :
  PyStr.contains (String ch EmptyString) (String c s)
  = Ascii.eqb ch c || PyStr.contains (String ch EmptyString) s.
Proof.
  cbn [PyStr.contains]. rewrite prefix_char.
  now destruct (Ascii.eqb ch c).
Qed.

(** Splitting [bucket/key] at the first slash, for a bucket name without a
    slash. *)
Lemma split_once_bucket_key (bucket key : string) :
  PyStr.contains "/" bucket = false ->
  PyStr.split_once "/" (bucket ++ "/" ++ key) = (bucket, Some key).
Proof.
  change ("/" ++ key) with (String "/" key).
  induction bucket as [|c b IH]; intros H.
  - reflexivity.
  - rewrite contains_char_cons in H. apply orb_false_elim in H.
    destruct H as [Hc Hb].
    cbn [append PyStr.split_once].
    rewrite Ascii.eqb_sym, Hc, (IH Hb). reflexivity.
Qed.

Lemma _parse_s3_key_s3_scheme rt (bucket key : string) :
  PyStr.contains "/" bucket = false ->
  _parse_s3_key rt ("s3://" ++ bucket ++ "/" ++ key) = Answer key.
Proof.
  intros H. unfold _parse_s3_key.
  change (PyStr.startswith "s3://" ("s3://" ++ bucket ++ "/" ++ key))
    with (String.prefix "s3://" ("s3://" ++ (bucket ++ "/" ++ key))).
  rewrite prefix_append.
  change (PyStr.drop 5 ("s3://" ++ bucket ++ "/" ++ key))
    with (bucket ++ "/" ++ key).
  now rewrite split_once_bucket_key.
Qed.

(** C10.  For a locator [s3://bucket/key], [_parse_s3_key] is the key,
    [_download_file] makes one [get_object] call and [_extract_image] one
    [detect_document_text] call, both on the configured bucket
    [settings.aws_s3_bucket] and that key; the bucket written in the
    locator appears in neither call nor result. *)
Theorem s3_locator_uses_configured_bucket :
  forall rt sv bucket key h,
    PyStr.contains "/" bucket = false ->
    let file_url := "s3://" ++ bucket ++ "/" ++ key in
    _parse_s3_key rt file_url = Answer key
    /\ _download_file rt sv file_url h
       = (match s3_get_object sv h (aws_s3_bucket rt) key with
          | Answer content => Ret content
          | Fault e => Raise e
          end,
          (h ++ [S3GetObject (aws_s3_bucket rt) key])%list)
    /\ _extract_image rt sv file_url h
       = (match detect_document_text sv h (aws_s3_bucket rt) key with
          | Answer blocks =>
              Ret (Some (PyStr.join nl
                           (flat_map
                              (fun b =>
                                 if String.eqb (BlockType b) "LINE"
                                 then [match Text b with
                                       | Some t => t
                                       | None => ""
                                       end]
                                 else []) blocks)))
          | Fault _ => Ret None
          end,
          (h ++ [DetectDocumentText (aws_s3_bucket rt) key])%list).
Proof.
  intros rt sv bucket key h H file_url.
  pose proof (_parse_s3_key_s3_scheme rt bucket key H) as K.
  fold file_url in K.
  split; [exact K|]. split.
  - unfold _download_file.
    replace (PyStr.startswith "s3://" file_url) with true
      by (symmetry; apply (prefix_append "s3://")).
    rewrite K. unfold lift. rewrite bind_ret_l. unfold call, s3_bucket.
    now destruct (s3_get_object sv h (aws_s3_bucket rt) key).
  - unfold _extract_image. rewrite K. unfold try_except, lift.
    rewrite bind_ret_l. unfold bind, call, ret, s3_bucket.
    now destruct (detect_document_text sv h (aws_s3_bucket rt) key).
Qed.

Lemma s3_locator_uses_configured_bucket_witness :
  _parse_s3_key Fixtures.rt_reject "s3://other-bucket/scans/po 17.png"
  = Answer "scans/po 17.png"
  /\ _download_file Fixtures.rt_reject Fixtures.sv_idle
       "s3://other-bucket/scans/po 17.png" []
     = (Ret [], [S3GetObject "infradyn-files" "scans/po 17.png"])
  /\ _extract_image Fixtures.rt_reject Fixtures.sv_idle
       "s3://other-bucket/scans/po 17.png" []
     = (Ret (Some ""), [DetectDocumentText "infradyn-files" "scans/po 17.png"]).
Proof.
  exact (s3_locator_uses_configured_bucket
           Fixtures.rt_reject Fixtures.sv_idle
           "other-bucket" "scans/po 17.png" [] eq_refl).
Defined.

(* ===================================================================== *)
(** ** The purchase-order fallback (C3) *)
(* ===================================================================== *)

Lemma try_chat_json rt sv (system prompt : string) (max_tokens : Z)
      (fallback : pyval) h :
  try_except (chat_json rt sv system prompt max_tokens)
             (fun _ => ret fallback) h
  = (Ret (parsed_or rt fallback
            (chat_completions_create sv h gpt_model system prompt
                                     (1 # 10) max_tokens)),
     (h ++ [ChatCompletion gpt_model system prompt (1 # 10) max_tokens])%list).
Proof.
  unfold chat_json, try_except, bind, call, lift, parsed_or.
  destruct (chat_completions_create sv h gpt_model system prompt
              (1 # 10) max_tokens) as [[c|]|e]; try reflexivity.
  now destruct (json_loads rt (strip_closing_fence (strip_opening_fence c))).
Qed.

Lemma parsed_or_malformed rt fallback reply :
  malformed_reply rt reply = true -> parsed_or rt fallback reply = fallback.
Proof.
  unfold malformed_reply, parsed_or.
  destruct reply as [[c|]|e]; try reflexivity.
  now destruct (json_loads rt (strip_closing_fence (strip_opening_fence c))).
Qed.

(** [_parse_po_with_gpt] always returns, after one chat completion. *)
Lemma _parse_po_with_gpt_returns rt sv raw_text h :
  _parse_po_with_gpt rt sv raw_text h
  = (Ret (parsed_or rt po_fallback
            (chat_completions_create sv h gpt_model po_system_prompt
                                     (po_prompt raw_text) (1 # 10) 4000)),
     (h ++ [ChatCompletion gpt_model po_system_prompt
                           (po_prompt raw_text) (1 # 10) 4000])%list).
Proof. apply try_chat_json. Qed.

(** C3, as the code has it.  When the chat completion for a purchase
    order fails or its content is not JSON after the code fences are
    stripped, [_parse_po_with_gpt] returns (it does not raise), after that
    one call, the dictionary with exactly these entries: [po_number],
    [vendor_name], [date], [total_value] and [currency] set to [None],
    [milestones] and [boq_items] set to the empty list and [confidence]
    set to [0.0].  The scalar fields [scope], [payment_terms],
    [incoterms] and [retention_percentage] of the schema are not in the
    dictionary. *)
Theorem _parse_po_with_gpt_malformed :
  forall rt sv raw_text h,
    malformed_reply rt
      (chat_completions_create sv h gpt_model po_system_prompt
                               (po_prompt raw_text) (1 # 10) 4000) = true ->
    exists entries,
      _parse_po_with_gpt rt sv raw_text h
      = (Ret (PDict entries),
         (h ++ [ChatCompletion gpt_model po_system_prompt
                               (po_prompt raw_text) (1 # 10) 4000])%list)
      /\ entries = [("po_number", PNone); ("vendor_name", PNone);
                    ("date", PNone); ("total_value", PNone);
                    ("currency", PNone); ("milestones", PList []);
                    ("boq_items", PList []); ("confidence", PFloat 0)]
      /\ (forall key, In key po_fallback_scalars ->
                      dict_get key entries = Some PNone)
      /\ (forall key, In key po_missing_scalars ->
                      dict_get key entries = None)
      /\ dict_get "milestones" entries = Some (PList [])
      /\ dict_get "boq_items" entries = Some (PList [])
      /\ dict_get "confidence" entries = Some (PFloat 0).
Proof.
  intros rt sv raw_text h Hbad.
  eexists. split.
  - rewrite _parse_po_with_gpt_returns, (@parsed_or_malformed rt po_fallback _ Hbad).
    reflexivity.
  - split; [reflexivity|]. repeat split.
    + intros key Hin. cbn in Hin.
      repeat (destruct Hin as [Hin|Hin]; [subst key; reflexivity|]).
      contradiction.
    + intros key Hin. cbn in Hin.
      repeat (destruct Hin as [Hin|Hin]; [subst key; reflexivity|]).
      contradiction.
Qed.

Lemma _parse_po_with_gpt_malformed_witness :
  exists entries,
    _parse_po_with_gpt Fixtures.rt_reject Fixtures.sv_idle "PO 17" []
    = (Ret (PDict entries),
       [ChatCompletion gpt_model po_system_prompt (po_prompt "PO 17")
                       (1 # 10) 4000])
    /\ dict_get "po_number" entries = Some PNone
    /\ dict_get "incoterms" entries = None
    /\ dict_get "confidence" entries = Some (PFloat 0).
Proof.
  destruct (_parse_po_with_gpt_malformed
              Fixtures.rt_reject Fixtures.sv_idle "PO 17" [] eq_refl)
    as (entries & Hrun & _ & Hnull & Hmissing & _ & _ & Hconf).
  exists entries. split; [exact Hrun|]. split; [|split; [|exact Hconf]].
  - apply Hnull. cbn. auto.
  - apply Hmissing. cbn. auto.
Defined.

(** The reading "the scalar fields of the purchase-order object are all
    null" fails on the fields the fallback leaves out: for a reply that is
    not JSON the returned object has no [scope] (nor [payment_terms],
    [incoterms], [retention_percentage]), where the schema of the prompt
    asks for [null] in a field without a value. *)
Lemma _parse_po_with_gpt_fallback_lacks_scope :
  let reply := "Sorry, I cannot read this." in
  let sv := MoreFixtures.sv_reply reply in
  malformed_reply Fixtures.rt_reject (Answer (Some reply)) = true
  /\ In "scope" po_scalar_fields
  /\ exists entries,
      fst (_parse_po_with_gpt Fixtures.rt_reject sv "PO 17" [])
      = Ret (PDict entries)
      /\ dict_get "scope" entries = None
      /\ dict_get "payment_terms" entries = None
      /\ dict_get "incoterms" entries = None
      /\ dict_get "retention_percentage" entries = None
      /\ ~ (forall key, In key po_scalar_fields ->
                        is_null_field key (PDict entries)).
Proof.
  intros reply sv. split; [reflexivity|]. split; [cbn; auto 10|].
  eexists. split; [reflexivity|]. repeat split.
  intros Hall. specialize (Hall "scope"). cbn in Hall.
  assert (H : @None pyval = Some PNone) by (apply Hall; auto 10).
  discriminate H.
Qed.

(* ===================================================================== *)
(** ** The raw text in the result (C9) *)
(* ===================================================================== *)

Lemma dict_get_set (key : string) (v : pyval) (d : list (string * pyval)) :
  dict_get key (dict_set key v d) = Some v.
Proof.
  induction d as [|[k v0] d IH]; cbn [dict_set dict_get].
  - now rewrite String.eqb_refl.
  - destruct (String.eqb k key) eqn:E; cbn [dict_get]; rewrite E;
      [reflexivity | exact IH].
Qed.

Lemma attach_raw_text_success parsed_data raw h data h' :
  attach_raw_text parsed_data raw h = (Ret (Success data), h') ->
  has_raw_text data raw.
Proof.
  unfold attach_raw_text, setitem, bind, ret, raise.
  destruct parsed_data; intros H; try discriminate.
  inversion H; subst. eexists. split; [reflexivity | apply dict_get_set].
Qed.

(** A [try] whose handler answers a failure envelope succeeded only if its
    body did. *)
Lemma try_failure_success (m : M envelope) h data h' :
  try_except m (fun e => ret (Failure e)) h = (Ret (Success data), h') ->
  m h = (Ret (Success data), h').
Proof.
  unfold try_except, ret.
  destruct (m h) as [[a | e |] h1]; intros H; try discriminate; exact H.
Qed.

Ltac split_bind H :=
  let raw := fresh "raw" in
  let h1 := fresh "h1" in
  let Hx := fresh "Hextract" in
  apply bind_eq_ret in H; destruct H as (raw & h1 & Hx & H).

(** C9, as the code has it.  A success of [extract_purchase_order],
    [extract_invoice] or [extract_from_bytes] carries in its data the field
    [raw_text], the first 5,000 characters of the text that the extractor
    picked for the document returned. *)
Theorem raw_text_attached :
  forall rt sv,
    (forall fuel file_url h data h',
        extract_purchase_order rt sv fuel file_url h = (Ret (Success data), h') ->
        exists raw h1,
          raw_text_of_url rt sv fuel file_url h = (Ret (Some raw), h1)
          /\ has_raw_text data raw)
    /\ (forall fuel file_url h data h',
        extract_invoice rt sv fuel file_url h = (Ret (Success data), h') ->
        exists raw h1,
          raw_text_of_url rt sv fuel file_url h = (Ret (Some raw), h1)
          /\ has_raw_text data raw)
    /\ (forall content filename document_type h data h',
        extract_from_bytes rt sv content filename document_type h
        = (Ret (Success data), h') ->
        exists raw,
          raw_text_of_bytes rt content filename = Some raw
          /\ has_raw_text data raw).
Proof.
  intros rt sv. split; [|split].
  - intros fuel file_url h data h' H.
    apply try_failure_success in H. unfold raw_text_of_url.
    cbv zeta in H.
    repeat match type of H with
           | (if ?c then _ else _) _ = _ => destruct c
           end;
      try discriminate H; split_bind H;
      (destruct raw as [t|]; [destruct (PyStr.truthy t)|]; try discriminate H);
      split_bind H; apply attach_raw_text_success in H; eauto.
  - intros fuel file_url h data h' H.
    apply try_failure_success in H. unfold raw_text_of_url.
    cbv zeta in H.
    repeat match type of H with
           | (if ?c then _ else _) _ = _ => destruct c
           end;
      try discriminate H; split_bind H;
      (destruct raw as [t|]; [destruct (PyStr.truthy t)|]; try discriminate H);
      split_bind H; apply attach_raw_text_success in H; eauto.
  - intros content filename document_type h data h' H.
    apply try_failure_success in H. unfold raw_text_of_bytes.
    cbv zeta in H.
    repeat match type of H with
           | (if ?c then _ else _) _ = _ => destruct c
           end;
      try discriminate H;
      match type of H with
      | match ?x with _ => _ end _ = _ =>
          destruct x as [t|]; [destruct (PyStr.truthy t)|]; try discriminate H
      end;
      repeat match type of H with
             | (if ?c then _ else _) _ = _ => destruct c
             end;
      try discriminate H;
      split_bind H; apply attach_raw_text_success in H; eauto.
Qed.

Lemma raw_text_attached_witness :
  let rt := Fixtures.rt_with (Answer [Some "PO 17"]) ["PO 17"; "  "; "ACME"]
                             Fixtures.schedule_wb in
  let sv := Fixtures.sv_with Fixtures.some_file
                             (fun _ _ => Answer Fixtures.in_progress)
                             (Answer (Some "{}")) in
  let data := PDict [("raw_text", PStr ("PO 17" ++ nl ++ "ACME"))] in
  (exists raw h1,
      raw_text_of_url rt sv 0 "https://files.example.com/po.doc?v=2" []
      = (Ret (Some raw), h1)
      /\ has_raw_text data raw)
  /\ (exists raw h1,
         raw_text_of_url rt sv 0 "https://files.example.com/po.docx" []
         = (Ret (Some raw), h1)
         /\ has_raw_text data raw)
  /\ (exists raw,
         raw_text_of_bytes rt Fixtures.some_file "po.DOCX" = Some raw
         /\ has_raw_text data raw).
Proof.
  intros rt sv data.
  destruct (raw_text_attached rt sv) as (Hpo & Hinv & Hbytes).
  split; [|split].
  - apply (Hpo 0 "https://files.example.com/po.doc?v=2" [] data
               [HttpGet "https://files.example.com/po.doc?v=2";
                ChatCompletion gpt_model po_system_prompt
                  (po_prompt ("PO 17" ++ nl ++ "ACME")) (1 # 10) 4000]).
    reflexivity.
  - apply (Hinv 0 "https://files.example.com/po.docx" [] data
                [HttpGet "https://files.example.com/po.docx";
                 ChatCompletion gpt_model invoice_system_prompt
                   (invoice_prompt_head ++ ("PO 17" ++ nl ++ "ACME") ++ nl)
                   (1 # 10) 4000]).
    reflexivity.
  - apply (Hbytes Fixtures.some_file "po.DOCX" "purchase_order" [] data
                  [ChatCompletion gpt_model po_system_prompt
                     (po_prompt ("PO 17" ++ nl ++ "ACME")) (1 # 10) 4000]).
    reflexivity.
Defined.

(** The data of a success of [extract_milestones] is the list of
    milestones and nothing else. *)
Lemma extract_milestones_data rt sv fuel file_url h data h' :
  extract_milestones rt sv fuel file_url h = (Ret (Success data), h') ->
  exists milestones, data = PDict [("milestones", milestones)].
Proof.
  intros H. apply try_failure_success in H. cbv zeta in H.
  repeat match type of H with
         | (if ?c then _ else _) _ = _ => destruct c
         end;
    try discriminate H; split_bind H; try split_bind H;
    inversion H; eauto.
Qed.

(** The same does not hold of [extract_milestones]: on the milestone
    schedule it succeeds with data that has the key [milestones] only. *)
Lemma extract_milestones_without_raw_text :
  let rt := Fixtures.rt_with (Answer []) [] Fixtures.schedule_wb in
  let sv := Fixtures.sv_with Fixtures.some_file
                             (fun _ _ => Answer Fixtures.in_progress)
                             (Answer None) in
  exists data h',
    extract_milestones rt sv 0 "s3://docs/schedule.xlsx" []
    = (Ret (Success data), h')
    /\ forall raw, ~ has_raw_text data raw.
Proof.
  intros rt sv. eexists. eexists. split; [reflexivity|].
  intros raw (d & Hd & Hget). inversion Hd; subst d. discriminate Hget.
Qed.

(* ===================================================================== *)
(** ** The OCR fallback of [_extract_pdf] (C1) *)
(* ===================================================================== *)

(** A locator has a host name only if [urlparse] accepted it. *)
Lemma urlparse_hostname_some rt file_url host :
  urlparse_hostname rt file_url = Some host ->
  exists parsed,
    urlparse rt file_url = Answer parsed
    /\ url_hostname parsed = Some host
    /\ url_path parsed = urlparse_path rt file_url.
Proof.
  unfold urlparse_hostname, urlparse_path.
  destruct (urlparse rt file_url) as [parsed|e]; [eauto | discriminate].
Qed.

(** With a host name in the locator, the OCR job client submits the job
    for the first label of the host name and the path without its leading
    slashes, then polls. *)
Lemma _extract_pdf_with_textract_submits rt sv fuel file_url h host :
  urlparse_hostname rt file_url = Some host ->
  let bucket := fst (PyStr.split_once "." host) in
  let key := PyStr.lstrip_char "/" (urlparse_path rt file_url) in
  _extract_pdf_with_textract rt sv fuel file_url h
  = try_except
      (job_id <-
         call (StartDocumentTextDetection bucket key)
              (fun h => start_document_text_detection sv h bucket key) ;;
       poll_loop sv fuel job_id max_attempts)
      (fun _ => ret None) h.
Proof.
  intros Hhost bucket key.
  destruct (@urlparse_hostname_some rt file_url host Hhost)
    as (parsed & Hparsed & Hname & Hpath).
  unfold _extract_pdf_with_textract, try_except, lift.
  rewrite Hparsed, bind_ret_l. unfold hostname_bucket.
  rewrite Hname, bind_ret_l, Hpath. reflexivity.
Qed.

(** Without one (the locator has no network location, or [urlparse]
    refuses it) the client answers [None] and calls nothing. *)
Lemma _extract_pdf_with_textract_no_host rt sv fuel file_url h :
  urlparse_hostname rt file_url = None ->
  _extract_pdf_with_textract rt sv fuel file_url h = (Ret None, h).
Proof.
  unfold urlparse_hostname, _extract_pdf_with_textract, try_except, lift.
  destruct (urlparse rt file_url) as [parsed|e]; [|reflexivity].
  intros Hname. rewrite bind_ret_l. unfold hostname_bucket.
  now rewrite Hname.
Qed.

(** [_extract_pdf_with_textract] catches every exception. *)
Lemma _extract_pdf_with_textract_no_raise rt sv fuel file_url h e h' :
  _extract_pdf_with_textract rt sv fuel file_url h <> (Raise e, h').
Proof.
  unfold _extract_pdf_with_textract, try_except, ret.
  destruct (bind _ _ h) as [[a | e0 |] h1]; discriminate.
Qed.

(** Direct text with more than 500 characters after trimming is returned
    as it is; the only call made is the download. *)
Lemma _extract_pdf_direct rt sv fuel file_url h content h1 text :
  _download_file rt sv file_url h = (Ret content, h1) ->
  _extract_pdf_from_bytes rt content = Some text ->
  500 < String.length (PyStr.strip text) ->
  _extract_pdf rt sv fuel file_url h = (Ret (Some text), h1).
Proof.
  intros Hd Ht Hlen. unfold _extract_pdf, try_except, bind.
  rewrite Hd, Ht. cbn [text_truthy].
  apply Nat.ltb_lt in Hlen. rewrite Hlen.
  destruct text; [discriminate Hlen | reflexivity].
Qed.

(** Direct text with at most 500 characters after trimming, or none at
    all, hands the locator to the OCR job client. *)
Lemma _extract_pdf_fallback rt sv fuel file_url h content h1 :
  _download_file rt sv file_url h = (Ret content, h1) ->
  match _extract_pdf_from_bytes rt content with
  | Some text => String.length (PyStr.strip text) <= 500
  | None => True
  end ->
  _extract_pdf rt sv fuel file_url h
  = _extract_pdf_with_textract rt sv fuel file_url h1.
Proof.
  intros Hd Hshort. unfold _extract_pdf, try_except at 1, bind.
  rewrite Hd.
  assert (Hcond : text_truthy (_extract_pdf_from_bytes rt content)
                  && (500 <? String.length
                                (PyStr.strip
                                   match _extract_pdf_from_bytes rt content with
                                   | Some t => t
                                   | None => ""
                                   end)) = false).
  { destruct (_extract_pdf_from_bytes rt content) as [t|]; [|reflexivity].
    apply andb_false_intro2. now apply Nat.ltb_ge. }
  rewrite Hcond.
  destruct (_extract_pdf_with_textract rt sv fuel file_url h1)
    as [[a | e |] h2] eqn:E; try reflexivity.
  now apply _extract_pdf_with_textract_no_raise in E.
Qed.

(** C1, at the threshold.  A PDF whose direct text has exactly 500
    characters after trimming is not returned as it is: [_extract_pdf]
    submits an OCR job and answers with the outcome of that job (here
    [None], the job failed). *)
Theorem _extract_pdf_at_500_runs_ocr :
  let text := Fixtures.filler 500 in
  let rt := Fixtures.rt_with (Answer [Some text]) [] Fixtures.no_workbook in
  let sv := Fixtures.sv_with Fixtures.some_file
                             (fun _ _ => Answer Fixtures.failed)
                             (Answer None) in
  let file_url := "https://docs.s3.us-east-1.amazonaws.com/po/scan.pdf" in
  _extract_pdf_from_bytes rt Fixtures.some_file = Some text
  /\ String.length (PyStr.strip text) = 500
  /\ _extract_pdf rt sv 0 file_url []
     = (Ret None,
        [S3GetObject "docs" "po/scan.pdf";
         StartDocumentTextDetection "docs" "po/scan.pdf";
         Sleep 2;
         GetDocumentTextDetection "job-1" None]).
Proof. vm_compute. repeat split. Qed.

(* ===================================================================== *)
(** ** Empty text in [extract_milestones] (C2) *)
(* ===================================================================== *)

(** The three other entry points do answer
    ["Could not extract text from document"] when the text is empty or
    absent. *)
Lemma extract_purchase_order_unreadable rt sv fuel file_url h raw h1 :
  in_list (_get_extension file_url) supported_extensions = true ->
  raw_text_of_url rt sv fuel file_url h = (Ret raw, h1) ->
  text_truthy raw = false ->
  extract_purchase_order rt sv fuel file_url h = (Ret (Failure unreadable), h1).
Proof.
  unfold in_list, supported_extensions, raw_text_of_url,
    extract_purchase_order, try_except, in_list.
  cbn [existsb]. intros Hext Hraw Hfalsy. cbv zeta.
  destruct (String.eqb (_get_extension file_url) ".xlsx"),
    (String.eqb (_get_extension file_url) ".xls"),
    (String.eqb (_get_extension file_url) ".docx"),
    (String.eqb (_get_extension file_url) ".doc"),
    (String.eqb (_get_extension file_url) ".pdf"),
    (String.eqb (_get_extension file_url) ".png"),
    (String.eqb (_get_extension file_url) ".jpg"),
    (String.eqb (_get_extension file_url) ".jpeg");
    cbn [orb] in *; try discriminate Hext;
    unfold bind; rewrite Hraw;
    (destruct raw as [t|]; [cbn in Hfalsy; rewrite Hfalsy|]); reflexivity.
Qed.

Lemma extract_invoice_unreadable rt sv fuel file_url h raw h1 :
  in_list (_get_extension file_url) supported_extensions = true ->
  raw_text_of_url rt sv fuel file_url h = (Ret raw, h1) ->
  text_truthy raw = false ->
  extract_invoice rt sv fuel file_url h = (Ret (Failure unreadable), h1).
Proof.
  unfold in_list, supported_extensions, raw_text_of_url,
    extract_invoice, try_except, in_list.
  cbn [existsb]. intros Hext Hraw Hfalsy. cbv zeta.
  destruct (String.eqb (_get_extension file_url) ".xlsx"),
    (String.eqb (_get_extension file_url) ".xls"),
    (String.eqb (_get_extension file_url) ".docx"),
    (String.eqb (_get_extension file_url) ".doc"),
    (String.eqb (_get_extension file_url) ".pdf"),
    (String.eqb (_get_extension file_url) ".png"),
    (String.eqb (_get_extension file_url) ".jpg"),
    (String.eqb (_get_extension file_url) ".jpeg");
    cbn [orb] in *; try discriminate Hext;
    unfold bind; rewrite Hraw;
    (destruct raw as [t|]; [cbn in Hfalsy; rewrite Hfalsy|]); reflexivity.
Qed.

Lemma extract_from_bytes_unreadable rt sv content filename document_type h :
  in_list (PyStr.lower (PyPath.suffix filename))
          [".xlsx"; ".xls"; ".docx"; ".doc"; ".pdf"] = true ->
  text_truthy (raw_text_of_bytes rt content filename) = false ->
  extract_from_bytes rt sv content filename document_type h
  = (Ret (Failure unreadable), h).
Proof.
  unfold in_list, raw_text_of_bytes, extract_from_bytes, try_except, in_list.
  cbn [existsb]. intros Hext Hfalsy. cbv zeta in *.
  destruct (String.eqb (PyStr.lower (PyPath.suffix filename)) ".xlsx"),
    (String.eqb (PyStr.lower (PyPath.suffix filename)) ".xls"),
    (String.eqb (PyStr.lower (PyPath.suffix filename)) ".docx"),
    (String.eqb (PyStr.lower (PyPath.suffix filename)) ".doc"),
    (String.eqb (PyStr.lower (PyPath.suffix filename)) ".pdf");
    cbn [orb] in *; try discriminate Hext;
    match goal with
    | |- context [match ?x with Some _ => _ | None => _ end] =>
        destruct x as [t|]; [cbn in Hfalsy; rewrite Hfalsy|]
    end; reflexivity.
Qed.

(** A Word reader that rejects the empty file makes [extract_from_bytes]
    answer ["Could not extract text from document"] for empty content
    under a [.docx] name. *)
Lemma extract_from_bytes_empty_docx rt sv stem document_type h e :
  docx_paragraphs rt [] = Fault e ->
  PyStr.lower (PyPath.suffix (stem ++ ".docx")) = ".docx" ->
  extract_from_bytes rt sv [] (stem ++ ".docx") document_type h
  = (Ret (Failure "Could not extract text from document"), h).
Proof.
  intros Hdocx Hsuffix. apply extract_from_bytes_unreadable.
  - now rewrite Hsuffix.
  - unfold raw_text_of_bytes, _extract_word_from_bytes.
    now rewrite Hsuffix, Hdocx.
Qed.

(** C2, for [extract_milestones].  On a PDF without text whose OCR job
    finishes without a line, the extracted text is empty and the call is a
    success with the milestones the language model answered (none); when
    the OCR job fails the text is absent and the error is the message of
    the [TypeError] raised while the prompt was built.  On the same
    documents [extract_purchase_order] answers
    ["Could not extract text from document"]. *)
Theorem extract_milestones_empty_text :
  let rt := Fixtures.rt_with (Answer []) [] Fixtures.no_workbook in
  let sv_blank := Fixtures.sv_with Fixtures.some_file
                                   (fun _ _ => Answer Fixtures.succeeded_blank)
                                   (Answer (Some "[]")) in
  let sv_failed := Fixtures.sv_with Fixtures.some_file
                                    (fun _ _ => Answer Fixtures.failed)
                                    (Answer (Some "[]")) in
  let file_url := "https://docs.s3.us-east-1.amazonaws.com/po/scan.pdf" in
  fst (_extract_pdf rt sv_blank 0 file_url []) = Ret (Some "")
  /\ fst (extract_milestones rt sv_blank 0 file_url [])
     = Ret (Success (PDict [("milestones", PList [])]))
  /\ fst (extract_purchase_order rt sv_blank 0 file_url [])
     = Ret (Failure "Could not extract text from document")
  /\ fst (_extract_pdf rt sv_failed 0 file_url []) = Ret None
  /\ fst (extract_milestones rt sv_failed 0 file_url [])
     = Ret (Failure "'NoneType' object is not subscriptable")
  /\ fst (extract_purchase_order rt sv_failed 0 file_url [])
     = Ret (Failure "Could not extract text from document").
Proof. vm_compute. repeat split. Qed.

(* ===================================================================== *)
(** ** The spreadsheet extractor (C5) *)
(* ===================================================================== *)

Lemma contains_empty (hay : string) : PyStr.contains "" hay = true.
Proof. now destruct hay. Qed.

Lemma contains_cons (needle : string) (c : ascii) (hay : string) :
  PyStr.contains needle hay = true ->
  PyStr.contains needle (String c hay) = true.
Proof.
  intros H. cbn [PyStr.contains]. rewrite H.
  now destruct (String.prefix needle (String c hay)).
Qed.

Lemma contains_app_r (needle a b : string) :
  PyStr.contains needle b = true -> PyStr.contains needle (a ++ b) = true.
Proof.
  intros H. induction a as [|c a IH]; [exact H|].
  cbn [append]. now apply contains_cons.
Qed.

Lemma prefix_app (needle a b : string) :
  String.prefix needle a = true -> String.prefix needle (a ++ b) = true.
Proof.
  revert a. induction needle as [|c needle IH]; intros a H.
  - now destruct (a ++ b).
  - destruct a as [|c' a]; [discriminate H|].
    cbn [append String.prefix] in H |- *.
    destruct (ascii_dec c c'); [now apply IH | discriminate H].
Qed.

Lemma contains_app_l (needle a b : string) :
  PyStr.contains needle a = true -> PyStr.contains needle (a ++ b) = true.
Proof.
  induction a as [|c a IH]; intros H.
  - cbn [PyStr.contains] in H.
    destruct needle; [apply contains_empty | discriminate H].
  - cbn [PyStr.contains] in H.
    destruct (String.prefix needle (String c a)) eqn:Hp.
    + change (String c a ++ b) with (String c (a ++ b)).
      cbn [PyStr.contains].
      change (String c (a ++ b)) with (String c a ++ b).
      now rewrite (prefix_app _ _ b Hp).
    + cbn [append]. apply contains_cons. now apply IH.
Qed.

Lemma prefix_refl (s : string) : String.prefix s s = true.
Proof.
  induction s as [|c s IH]; [reflexivity|].
  cbn [String.prefix]. destruct (ascii_dec c c) as [_|N]; [exact IH | now destruct N].
Qed.

Lemma contains_self (s : string) : PyStr.contains s s = true.
Proof.
  destruct s as [|c s]; [reflexivity|].
  cbn [PyStr.contains]. now rewrite prefix_refl.
Qed.

Lemma contains_join (needle sep x : string) (parts : list string) :
  In x parts ->
  PyStr.contains needle x = true ->
  PyStr.contains needle (PyStr.join sep parts) = true.
Proof.
  intros Hin Hx. induction parts as [|p parts IH]; [contradiction|].
  cbn [PyStr.join]. destruct Hin as [E|Hin].
  - subst p. destruct parts; [exact Hx | now apply contains_app_l].
  - destruct parts as [|q parts]; [contradiction|].
    apply contains_app_r, contains_app_r. now apply IH.
Qed.

(** The loop over the sheets of a workbook without a chart sheet collects
    the lines of its worksheets. *)
Lemma workbook_lines_worksheets rt wb :
  has_chartsheet wb = false ->
  workbook_lines rt (wb_sheets wb)
  = Answer (flat_map (sheet_lines rt) (worksheets wb)).
Proof.
  unfold has_chartsheet, worksheets.
  induction (wb_sheets wb) as [|[name [rows|]] sheets IH];
    cbn [existsb flat_map workbook_lines iter_rows snd fst app];
    intros H; [reflexivity | | discriminate H].
  now rewrite (IH H).
Qed.

(** A chart sheet makes the loop raise, whatever the other sheets hold. *)
Lemma workbook_lines_chartsheet rt wb :
  has_chartsheet wb = true ->
  exists e, workbook_lines rt (wb_sheets wb) = Fault e.
Proof.
  unfold has_chartsheet.
  induction (wb_sheets wb) as [|[name [rows|]] sheets IH];
    cbn [existsb workbook_lines iter_rows snd orb];
    intros H; [discriminate H | | eauto].
  destruct (IH H) as (e & He). rewrite He. eauto.
Qed.

Lemma in_worksheets wb name sh :
  In (name, Worksheet sh) (wb_sheets wb) -> In (name, sh) (worksheets wb).
Proof.
  intros H. unfold worksheets. apply in_flat_map.
  exists (name, Worksheet sh). split; [exact H | now left].
Qed.

(** In a workbook without a chart sheet, every cell whose value is true (a
    non-empty text, a number other than zero, [True], a date or time) has
    its text in the output; the marker line of every sheet is in the
    output too. *)
Lemma _extract_excel_from_bytes_contains rt content wb name sh :
  load_workbook rt content = Answer wb ->
  has_chartsheet wb = false ->
  In (name, Worksheet sh) (wb_sheets wb) ->
  exists text,
    _extract_excel_from_bytes rt content = Some text
    /\ PyStr.contains ("=== Sheet: " ++ name ++ " ===") text = true
    /\ forall r v, In r sh -> In v r -> cell_truthy v = true ->
                   PyStr.contains (cell_str rt v) text = true.
Proof.
  intros Hwb Hcharts Hsheet. apply in_worksheets in Hsheet.
  unfold _extract_excel_from_bytes.
  rewrite Hwb, (@workbook_lines_worksheets rt wb Hcharts).
  eexists. split; [reflexivity|]. split.
  - apply contains_join with ("=== Sheet: " ++ name ++ " ===");
      [|apply contains_self].
    apply in_flat_map. exists (name, sh). split; [exact Hsheet|]. now left.
  - intros r v Hr Hv Htruthy.
    assert (Hvalue : In (cell_str rt v) (row_values rt r)).
    { unfold row_values. apply in_map_iff. exists v. now rewrite Htruthy. }
    destruct (existsb PyStr.truthy (row_values rt r)) eqn:Hany.
    + apply contains_join with (PyStr.join " | " (row_values rt r)).
      * apply in_flat_map. exists (name, sh). split; [exact Hsheet|].
        right. apply in_flat_map. exists r. split; [exact Hr|].
        cbv zeta. rewrite Hany. now left.
      * apply contains_join with (cell_str rt v);
          [exact Hvalue | apply contains_self].
    + assert (Hempty : cell_str rt v = "").
      { destruct (cell_str rt v) eqn:E; [reflexivity|].
        assert (Hex : existsb PyStr.truthy (row_values rt r) = true).
        { apply existsb_exists. exists (String a s). now split. }
        congruence. }
      rewrite Hempty. apply contains_empty.
Qed.

(** C5, on a cell that holds zero.  The sheet [Orders] with the one row
    [("Qty", 0)] is extracted as the marker line and the line ["Qty | "]:
    the text of the cell with value [0] is not in the output. *)
Theorem _extract_excel_from_bytes_drops_zero :
  let wb := {| wb_sheets := [("Orders", Worksheet [[CStr "Qty"; CInt 0]])];
               wb_active_index := 0 |} in
  let rt := Fixtures.rt_with (Answer []) [] wb in
  cell_str rt (CInt 0) = "0"
  /\ _extract_excel_from_bytes rt Fixtures.some_file
     = Some ("=== Sheet: Orders ===" ++ nl ++ "Qty | ")
  /\ PyStr.contains (cell_str rt (CInt 0))
                    ("=== Sheet: Orders ===" ++ nl ++ "Qty | ") = false.
Proof. vm_compute. repeat split. Qed.

(* ===================================================================== *)
(** ** The OCR job client: polling (C6) *)
(* ===================================================================== *)

Lemma polls_snoc job_id n :
  (polls job_id n ++ [Sleep 2; GetDocumentTextDetection job_id None])%list
  = polls job_id (S n).
Proof. induction n as [|n IH]; cbn [polls app]; [reflexivity | now rewrite IH]. Qed.

Lemma count_polls p job_id n :
  count p (polls job_id n)
  = n * ((if p (Sleep 2) then 1 else 0)
         + (if p (GetDocumentTextDetection job_id None) then 1 else 0)).
Proof.
  unfold count. induction n as [|n IH]; [reflexivity|].
  cbn [polls filter].
  destruct (p (Sleep 2)), (p (GetDocumentTextDetection job_id None));
    cbn [List.length]; rewrite IH; lia.
Qed.

Lemma count_pages p job_id pages :
  forallb (is_page_request job_id) pages = true ->
  (forall r, is_page_request job_id r = true -> p r = false) ->
  count p pages = 0.
Proof.
  unfold count. intros Hall Hp.
  induction pages as [|r pages IH]; [reflexivity|].
  cbn [forallb] in Hall. apply andb_prop in Hall. destruct Hall as [Hr Hall].
  cbn [filter]. rewrite (Hp r Hr). now apply IH.
Qed.

Lemma count_app p (l1 l2 : log) :
  count p (l1 ++ l2)%list = count p l1 + count p l2.
Proof. unfold count. now rewrite filter_app, length_app. Qed.

(** What the shape says in numbers: at most one submission, at most 60
    polls, and as many sleeps as polls. *)
Lemma client_log_counts evs :
  client_log evs ->
  count is_submission evs <= 1
  /\ count is_poll evs <= 60
  /\ count is_sleep evs = count is_poll evs.
Proof.
  intros [|bucket key job_id n pages Hn Hpages].
  - cbn. lia.
  - change (StartDocumentTextDetection bucket key :: polls job_id n ++ pages)%list
      with ([StartDocumentTextDetection bucket key] ++ polls job_id n ++ pages)%list.
    assert (Hnone : forall p, (forall j t, p (GetDocumentTextDetection j (Some t)) = false) ->
                              count p pages = 0).
    { intros p Hp. apply (@count_pages p job_id pages Hpages).
      intros [] Hr; try discriminate Hr.
      destruct next_token; [apply Hp | discriminate Hr]. }
    rewrite !count_app, !count_polls, !Hnone by reflexivity.
    cbn. lia.
Qed.

(** The pagination loop only adds page requests for the job. *)
Lemma collect_pages_log sv fuel job_id : forall all_blocks next_token h,
  exists pages,
    forallb (is_page_request job_id) pages = true
    /\ snd (collect_pages sv fuel job_id all_blocks next_token h)
       = (h ++ pages)%list.
Proof.
  induction fuel as [|fuel IH]; intros all_blocks next_token h;
    cbn [collect_pages]; destruct (text_truthy next_token) eqn:Htok;
    try (exists []; split; [reflexivity | now rewrite app_nil_r]).
  unfold bind, call.
  destruct (get_document_text_detection sv h job_id next_token) as [r|e].
  - destruct (IH (all_blocks ++ Blocks r)%list (NextToken r)
                 (h ++ [GetDocumentTextDetection job_id next_token])%list)
      as (pages & Hpages & Hlog).
    exists (GetDocumentTextDetection job_id next_token :: pages). split.
    + cbn [forallb is_page_request].
      destruct next_token; [|discriminate Htok].
      now rewrite String.eqb_refl, Hpages.
    + rewrite Hlog, <- app_assoc. reflexivity.
  - exists [GetDocumentTextDetection job_id next_token]. split; [|reflexivity].
    cbn [forallb is_page_request].
    destruct next_token; [|discriminate Htok].
    now rewrite String.eqb_refl.
Qed.

Lemma line_texts_log blocks h : snd (line_texts blocks h) = h.
Proof.
  induction blocks as [|b blocks IH]; cbn [line_texts]; [reflexivity|].
  destruct (String.eqb (BlockType b) "LINE"); [|exact IH].
  destruct (Text b); [|reflexivity].
  unfold bind, ret. destruct (line_texts blocks h) as [[ts | e |] h1];
    cbn in IH |- *; exact IH.
Qed.

(** The polling loop makes at most [attempts] turns, then page
    requests. *)
Lemma poll_loop_log sv fuel job_id : forall attempts h,
  exists n pages,
    n <= attempts
    /\ forallb (is_page_request job_id) pages = true
    /\ snd (poll_loop sv fuel job_id attempts h)
       = (h ++ polls job_id n ++ pages)%list.
Proof.
  induction attempts as [|attempts IH]; intros h; cbn [poll_loop].
  - exists 0, []. cbn. rewrite app_nil_r. auto.
  - unfold bind at 1, call at 1. unfold bind at 1, call at 1.
    destruct (get_document_text_detection sv (h ++ [Sleep 2])%list job_id None)
      as [r|e].
    + destruct (String.eqb (JobStatus r) "SUCCEEDED").
      * destruct (collect_pages_log sv fuel job_id (Blocks r) (NextToken r)
                    ((h ++ [Sleep 2]) ++ [GetDocumentTextDetection job_id None])%list)
          as (pages & Hpages & Hlog).
        exists 1, pages. split; [lia|]. split; [exact Hpages|].
        unfold bind.
        destruct (collect_pages sv fuel job_id (Blocks r) (NextToken r) _)
          as [[bs | e |] h1]; cbn [snd] in Hlog |- *; subst h1;
          try (rewrite <- !app_assoc; reflexivity).
        pose proof (line_texts_log bs
                      (((h ++ [Sleep 2])
                          ++ [GetDocumentTextDetection job_id None]) ++ pages)%list)
          as Hlines.
        destruct (line_texts bs _) as [[ts | e |] h1];
          cbn [snd] in Hlines |- *; subst h1; unfold ret; cbn [snd];
          rewrite <- !app_assoc; reflexivity.
      * destruct (String.eqb (JobStatus r) "FAILED").
        -- exists 1, []. split; [lia|]. split; [reflexivity|].
           unfold ret. cbn [snd]. rewrite <- !app_assoc. reflexivity.
        -- destruct (IH ((h ++ [Sleep 2])
                           ++ [GetDocumentTextDetection job_id None])%list)
             as (n & pages & Hn & Hpages & Hlog).
           exists (S n), pages. split; [lia|]. split; [exact Hpages|].
           rewrite Hlog, <- !app_assoc. reflexivity.
    + exists 1, []. split; [lia|]. split; [reflexivity|].
      cbn [snd]. rewrite <- !app_assoc. reflexivity.
Qed.

Lemma still_running_step sv job_id h k :
  still_running sv job_id h (S k) ->
  still_running sv job_id
                (h ++ [Sleep 2; GetDocumentTextDetection job_id None])%list k.
Proof.
  intros H i Hi. destruct (H (S i)) as (r & Hr & Hs & Hf); [lia|].
  exists r. split; [|auto].
  rewrite <- Hr. f_equal. rewrite <- !app_assoc. reflexivity.
Qed.

(** While the job is still running the loop goes on: after [k] turns
    without a final status, [attempts - k] turns remain. *)
Lemma poll_loop_skip sv fuel job_id : forall k attempts h,
  still_running sv job_id h k ->
  k <= attempts ->
  poll_loop sv fuel job_id attempts h
  = poll_loop sv fuel job_id (attempts - k) (h ++ polls job_id k)%list.
Proof.
  induction k as [|k IH]; intros attempts h Hrun Hk.
  - cbn [polls]. now rewrite app_nil_r, Nat.sub_0_r.
  - destruct attempts as [|attempts]; [lia|].
    destruct (Hrun 0) as (r & Hr & Hs & Hf); [lia|].
    cbn [polls app] in Hr.
    cbn [poll_loop]. unfold bind at 1, call at 1. unfold bind at 1, call at 1.
    rewrite Hr, Hs, Hf.
    rewrite (IH attempts) by (try lia; rewrite <- app_assoc;
                              now apply still_running_step).
    cbn [Nat.sub polls]. f_equal. rewrite <- !app_assoc. reflexivity.
Qed.

Lemma try_none_log {A} (m : M (option A)) h :
  snd (try_except m (fun _ => ret None) h) = snd (m h).
Proof. unfold try_except, ret. now destruct (m h) as [[a | e |] h1]. Qed.

(** C6.  One run of the OCR job client logs nothing, or one job
    submission followed by at most 60 turns, each a sleep of 2 and then
    one status poll, followed by page requests only: at most one
    submission, at most 60 polls, one sleep per poll.  When the job was
    submitted and none of 60 polls finds the status [SUCCEEDED] or
    [FAILED], the client returns [None] after exactly 60 turns and the one
    submission. *)
Theorem ocr_job_polling :
  forall rt sv fuel file_url h,
    (exists evs,
        snd (_extract_pdf_with_textract rt sv fuel file_url h) = (h ++ evs)%list
        /\ client_log evs
        /\ count is_submission evs <= 1
        /\ count is_poll evs <= 60
        /\ count is_sleep evs = count is_poll evs)
    /\ (forall host job_id,
           urlparse_hostname rt file_url = Some host ->
           let bucket := fst (PyStr.split_once "." host) in
           let key := PyStr.lstrip_char "/" (urlparse_path rt file_url) in
           start_document_text_detection sv h bucket key = Answer job_id ->
           still_running sv job_id
                         (h ++ [StartDocumentTextDetection bucket key])%list 60 ->
           _extract_pdf_with_textract rt sv fuel file_url h
           = (Ret None,
              (h ++ StartDocumentTextDetection bucket key
                 :: polls job_id 60)%list)).
Proof.
  intros rt sv fuel file_url h. split.
  - assert (Hshape : exists evs,
               snd (_extract_pdf_with_textract rt sv fuel file_url h)
               = (h ++ evs)%list /\ client_log evs).
    { destruct (urlparse_hostname rt file_url) as [host|] eqn:Hhost.
      - rewrite (@_extract_pdf_with_textract_submits
                   rt sv fuel file_url h host Hhost).
        rewrite try_none_log. unfold bind, call.
        set (bucket := fst (PyStr.split_once "." host)).
        set (key := PyStr.lstrip_char "/" (urlparse_path rt file_url)).
        destruct (start_document_text_detection sv h bucket key) as [job_id|e].
        + destruct (poll_loop_log sv fuel job_id max_attempts
                      (h ++ [StartDocumentTextDetection bucket key])%list)
            as (n & pages & Hn & Hpages & Hlog).
          exists (StartDocumentTextDetection bucket key
                    :: polls job_id n ++ pages)%list.
          split; [|now apply submitted].
          rewrite Hlog, <- app_assoc. reflexivity.
        + exists [StartDocumentTextDetection bucket key]. split; [reflexivity|].
          apply (submitted bucket key "" (n := 0) []); [lia | reflexivity].
      - rewrite (@_extract_pdf_with_textract_no_host
                   rt sv fuel file_url h Hhost).
        exists []. split; [cbn; now rewrite app_nil_r | apply not_submitted]. }
    destruct Hshape as (evs & Hlog & Hshape).
    exists evs. split; [exact Hlog|]. split; [exact Hshape|].
    now apply client_log_counts.
  - intros host job_id Hhost bucket key Hstart Hrun.
    rewrite (@_extract_pdf_with_textract_submits
               rt sv fuel file_url h host Hhost).
    unfold try_except. unfold bind at 1, call.
    fold bucket key. rewrite Hstart.
    rewrite (@poll_loop_skip sv fuel job_id 60 max_attempts _ Hrun)
      by (unfold max_attempts; lia).
    unfold max_attempts. rewrite Nat.sub_diag. cbn [poll_loop]. unfold ret.
    rewrite <- app_assoc. reflexivity.
Qed.

Lemma ocr_job_polling_witness :
  _extract_pdf_with_textract Fixtures.rt_reject Fixtures.sv_idle 0
    "https://docs.s3.us-east-1.amazonaws.com/po/scan.pdf" []
  = (Ret None,
     StartDocumentTextDetection "docs" "po/scan.pdf" :: polls "job-1" 60).
Proof.
  apply (proj2 (ocr_job_polling Fixtures.rt_reject Fixtures.sv_idle 0
                  "https://docs.s3.us-east-1.amazonaws.com/po/scan.pdf" [])
               "docs.s3.us-east-1.amazonaws.com" "job-1");
    try reflexivity.
  intros i _. exists Fixtures.in_progress. repeat split.
Defined.

(* ===================================================================== *)
(** ** The OCR job client: pagination and lines (C7) *)
(* ===================================================================== *)

Lemma collect_pages_exhausts sv job_id h token blocks h' :
  pagination sv job_id h token blocks h' ->
  exists fuel0, forall fuel, fuel0 <= fuel ->
    forall all_blocks,
      collect_pages sv fuel job_id all_blocks token h
      = (Ret (all_blocks ++ blocks)%list, h').
Proof.
  induction 1 as [h token Htok | h token page blocks h' Htok Hpage _ IH].
  - exists 0. intros fuel _ all_blocks.
    destruct fuel; cbn [collect_pages]; rewrite Htok, app_nil_r; reflexivity.
  - destruct IH as (fuel0 & IH). exists (S fuel0).
    intros fuel Hfuel all_blocks.
    destruct fuel as [|fuel]; [lia|].
    cbn [collect_pages]. rewrite Htok. unfold bind, call. rewrite Hpage.
    rewrite IH by lia. now rewrite <- app_assoc.
Qed.

Lemma line_texts_line_text_list blocks h :
  (forall b, In b blocks -> BlockType b = "LINE" -> Text b <> None) ->
  line_texts blocks h = (Ret (line_text_list blocks), h).
Proof.
  induction blocks as [|b blocks IH]; intros Htext; [reflexivity|].
  cbn [line_texts line_text_list flat_map].
  fold (line_text_list blocks).
  destruct (String.eqb_spec (BlockType b) "LINE") as [Hline|_].
  - destruct (Text b) as [t|] eqn:Ht.
    + unfold bind, ret. rewrite IH; [reflexivity|].
      intros b' Hin. apply Htext. now right.
    + exfalso. apply (Htext b); [now left | exact Hline | exact Ht].
  - apply IH. intros b' Hin. apply Htext. now right.
Qed.

(** C7.  When the job was submitted, the first [k] polls ([k < 60]) found
    it running and the next one finds [SUCCEEDED], and following the
    continuation cursor from that answer ends after finitely many pages,
    the client (given fuel for at least that many pages) returns the text
    of the LINE blocks of the first answer and of every further page,
    joined with line feeds in the order returned, having requested every
    page.  A LINE block is taken to carry its [Text]. *)
Theorem ocr_job_collects_lines :
  forall rt sv file_url h host job_id k first rest h_end,
    urlparse_hostname rt file_url = Some host ->
    let bucket := fst (PyStr.split_once "." host) in
    let key := PyStr.lstrip_char "/" (urlparse_path rt file_url) in
    let h0 := (h ++ [StartDocumentTextDetection bucket key])%list in
    start_document_text_detection sv h bucket key = Answer job_id ->
    k < 60 ->
    still_running sv job_id h0 k ->
    get_document_text_detection sv (h0 ++ polls job_id k ++ [Sleep 2])%list
                                job_id None = Answer first ->
    JobStatus first = "SUCCEEDED" ->
    pagination sv job_id (h0 ++ polls job_id (S k))%list
               (NextToken first) rest h_end ->
    (forall b, In b (Blocks first ++ rest)%list ->
               BlockType b = "LINE" -> Text b <> None) ->
    exists fuel0, forall fuel, fuel0 <= fuel ->
      _extract_pdf_with_textract rt sv fuel file_url h
      = (Ret (Some (PyStr.join nl (line_text_list (Blocks first ++ rest)%list))),
         h_end).
Proof.
  intros rt sv file_url h host job_id k first rest h_end Hhost bucket key h0
         Hstart Hk Hrun Hfirst Hstatus Hpages Htext.
  destruct (collect_pages_exhausts Hpages) as (fuel0 & Hcollect).
  exists fuel0. intros fuel Hfuel.
  rewrite (@_extract_pdf_with_textract_submits
             rt sv fuel file_url h host Hhost).
  unfold try_except. unfold bind at 1, call.
  fold bucket key. rewrite Hstart. fold h0.
  rewrite (@poll_loop_skip sv fuel job_id k max_attempts h0 Hrun)
    by (unfold max_attempts; lia).
  unfold max_attempts.
  replace (60 - k) with (S (59 - k)) by lia.
  cbn [poll_loop]. unfold bind at 1, call at 1. unfold bind at 1, call at 1.
  rewrite <- app_assoc, Hfirst, Hstatus. cbn [String.eqb Ascii.eqb Bool.eqb].
  unfold bind at 1.
  replace ((h0 ++ polls job_id k ++ [Sleep 2])
             ++ [GetDocumentTextDetection job_id None])%list
    with (h0 ++ polls job_id (S k))%list
    by (rewrite <- polls_snoc, <- !app_assoc; reflexivity).
  rewrite (Hcollect fuel Hfuel).
  unfold bind. rewrite (@line_texts_line_text_list _ h_end Htext). reflexivity.
Qed.

Lemma ocr_job_collects_lines_witness :
  let sv := Fixtures.sv_with Fixtures.some_file Fixtures.paged_ocr (Answer None) in
  exists fuel0, forall fuel, fuel0 <= fuel ->
    _extract_pdf_with_textract Fixtures.rt_reject sv fuel
      "https://docs.s3.us-east-1.amazonaws.com/po/scan.pdf" []
    = (Ret (Some ("PURCHASE ORDER" ++ nl ++ "Total: 100")),
       [StartDocumentTextDetection "docs" "po/scan.pdf";
        Sleep 2; GetDocumentTextDetection "job-1" None;
        Sleep 2; GetDocumentTextDetection "job-1" None;
        GetDocumentTextDetection "job-1" (Some "p2")]).
Proof.
  intros sv.
  refine (@ocr_job_collects_lines
            Fixtures.rt_reject sv
            "https://docs.s3.us-east-1.amazonaws.com/po/scan.pdf" []
            "docs.s3.us-east-1.amazonaws.com" "job-1" 1
            Fixtures.first_page (Blocks Fixtures.second_page ++ [])%list
            [StartDocumentTextDetection "docs" "po/scan.pdf";
             Sleep 2; GetDocumentTextDetection "job-1" None;
             Sleep 2; GetDocumentTextDetection "job-1" None;
             GetDocumentTextDetection "job-1" (Some "p2")]
            eq_refl eq_refl _ _ eq_refl eq_refl _ _).
  - lia.
  - intros i Hi. assert (i = 0) by lia. subst i.
    exists Fixtures.in_progress. repeat split.
  - eapply next_page; [reflexivity | reflexivity |].
    apply cursor_exhausted. reflexivity.
  - intros b Hin Hline. cbn in Hin.
    repeat (destruct Hin as [Hin|Hin];
            [subst b; try discriminate Hline; discriminate|]).
    contradiction.
Defined.

(* ===================================================================== *)
(** ** The heuristic milestone parser (C4) *)
(* ===================================================================== *)

Lemma in_range_nonzero (x : Q) :
  negb (Qle_bool x 0) = true -> negb (Qnum x =? 0)%Z = true.
Proof.
  unfold Qle_bool. cbn [Qnum Qden].
  destruct (Z.eqb_spec (Qnum x) 0) as [E|_]; [|reflexivity].
  rewrite E. cbn. intros H. discriminate H.
Qed.

Lemma percentage_of_truthy v x :
  percentage_of v = Some x -> percentage_truthy (Some x) = true.
Proof.
  unfold percentage_of. destruct (numeric v) as [y|]; [|discriminate].
  destruct (negb (Qle_bool y 0)) eqn:Hpos; [|discriminate].
  destruct (Qle_bool y (inject_Z 100)); [|discriminate].
  intros H. inversion H; subst. now apply in_range_nonzero.
Qed.

Lemma first_some_percentage_truthy values x :
  first_some percentage_of values = Some x -> percentage_truthy (Some x) = true.
Proof.
  induction values as [|v values IH]; cbn [first_some]; [discriminate|].
  destruct (percentage_of v) as [y|] eqn:E; [|exact IH].
  intros H. inversion H; subst. now apply percentage_of_truthy with v.
Qed.

Lemma title_of_truthy v t : title_of v = Some t -> PyStr.truthy t = true.
Proof.
  destruct v; try discriminate. cbn [title_of].
  destruct (3 <? String.length s); [|discriminate].
  destruct (PyStr.truthy (PyStr.strip s)) eqn:E; [|discriminate].
  intros H. inversion H; subst. exact E.
Qed.

Ltac cell_cases m :=
  repeat match goal with
         | |- context [if ?c then _ else _] => destruct c eqn:?
         | |- context [match pm_payment_percentage m with _ => _ end] =>
             destruct (pm_payment_percentage m) eqn:?
         | |- context [match pm_expected_date m with _ => _ end] =>
             destruct (pm_expected_date m) eqn:?
         end;
  cbn [pm_title pm_payment_percentage pm_expected_date] in *;
  try congruence.

(** One cell, the percentage: the key is set by the first numeric cell in
    range. *)
Lemma classify_cell_percentage rt m v :
  pm_payment_percentage (classify_cell rt m v)
  = match pm_payment_percentage m with
    | Some x => Some x
    | None => percentage_of v
    end.
Proof.
  destruct v as [| s | n | x | [|] | d | d | t | d];
    unfold classify_cell, is_percentage, percentage_of;
    cbn [int_or_float numeric strftime_of]; rewrite ?andb_false_r;
    cell_cases m.
Qed.

(** One cell, the date: the key is set by the first date-typed cell. *)
Lemma classify_cell_date rt m v :
  pm_expected_date (classify_cell rt m v)
  = match pm_expected_date m with
    | Some d => Some d
    | None => date_of v
    end.
Proof.
  destruct v as [| s | n | x | [|] | d | d | t | d];
    unfold classify_cell, is_percentage, date_of;
    cbn [int_or_float strftime_of]; rewrite ?andb_false_r;
    cell_cases m.
Qed.

(** One cell, the title: once the title is true it stays; until then a
    string cell longer than 3 characters sets it to its trimmed text, which
    is true unless the cell is blank. *)
Lemma classify_cell_title rt m v :
  if text_truthy (pm_title m)
  then pm_title (classify_cell rt m v) = pm_title m
  else match title_of v with
       | Some t => pm_title (classify_cell rt m v) = Some t
       | None => text_truthy (pm_title (classify_cell rt m v)) = false
       end.
Proof.
  destruct (text_truthy (pm_title m)) eqn:Htitle;
    destruct v as [| s | n | x | b | d | d | t | d];
    unfold classify_cell, title_of; rewrite ?Htitle;
    cbn [negb andb strftime_of];
    try (cell_cases m; try reflexivity; exact Htitle).
  destruct (3 <? String.length s); cbn [andb].
  - cbn [pm_title]. now destruct (PyStr.truthy (PyStr.strip s)) eqn:E.
  - cell_cases m; exact Htitle.
Qed.

(** The loop over the cells of a row. *)
Lemma fold_classify_percentage rt : forall values m,
  pm_payment_percentage (fold_left (classify_cell rt) values m)
  = match pm_payment_percentage m with
    | Some x => Some x
    | None => first_some percentage_of values
    end.
Proof.
  induction values as [|v values IH]; intros m; cbn [fold_left first_some].
  - now destruct (pm_payment_percentage m).
  - rewrite IH, classify_cell_percentage.
    now destruct (pm_payment_percentage m), (percentage_of v).
Qed.

Lemma fold_classify_date rt : forall values m,
  pm_expected_date (fold_left (classify_cell rt) values m)
  = match pm_expected_date m with
    | Some d => Some d
    | None => first_some date_of values
    end.
Proof.
  induction values as [|v values IH]; intros m; cbn [fold_left first_some].
  - now destruct (pm_expected_date m).
  - rewrite IH, classify_cell_date.
    now destruct (pm_expected_date m), (date_of v).
Qed.

Lemma fold_classify_title rt : forall values m,
  if text_truthy (pm_title m)
  then pm_title (fold_left (classify_cell rt) values m) = pm_title m
  else match first_some title_of values with
       | Some t => pm_title (fold_left (classify_cell rt) values m) = Some t
       | None =>
           text_truthy (pm_title (fold_left (classify_cell rt) values m)) = false
       end.
Proof.
  induction values as [|v values IH]; intros m; cbn [fold_left first_some].
  - now destruct (text_truthy (pm_title m)).
  - pose proof (classify_cell_title rt m v) as Hstep.
    pose proof (IH (classify_cell rt m v)) as Hrest.
    destruct (text_truthy (pm_title m)) eqn:E.
    + rewrite Hstep, E in Hrest. exact Hrest.
    + destruct (title_of v) as [t|] eqn:Ht.
      * rewrite Hstep in Hrest. cbn [text_truthy] in Hrest.
        rewrite (title_of_truthy _ Ht) in Hrest. exact Hrest.
      * rewrite Hstep in Hrest. exact Hrest.
Qed.

Lemma falsy_row_has_no_title values :
  existsb cell_truthy values = false -> first_some title_of values = None.
Proof.
  induction values as [|v values IH]; cbn [existsb first_some];
    [reflexivity|].
  intros H. apply orb_false_elim in H. destruct H as [Hv Hvs].
  rewrite (IH Hvs).
  destruct (title_of v) as [t|] eqn:Ht; [|reflexivity].
  destruct v; try discriminate Ht. cbn [title_of cell_truthy] in *.
  destruct s; [discriminate Ht | discriminate Hv].
Qed.

Lemma empty_row_is_falsy values :
  row_is_empty values = true -> existsb cell_truthy values = false.
Proof.
  induction values as [|v values IH]; cbn [row_is_empty forallb existsb];
    [reflexivity|].
  intros H. apply andb_prop in H. destruct H as [Hv Hvs].
  destruct v; try discriminate Hv. exact (IH Hvs).
Qed.

(** The milestone of one data row. *)
Lemma parse_data_row_milestone rt values :
  parse_data_row rt values = milestone_of_row values.
Proof.
  unfold parse_data_row, milestone_of_row.
  destruct (existsb cell_truthy values) eqn:Hany; cbn [negb].
  - assert (Hrow : row_is_empty values = false).
    { destruct (row_is_empty values) eqn:E; [|reflexivity].
      apply empty_row_is_falsy in E. congruence. }
    rewrite Hrow.
    pose proof (fold_classify_title rt values empty_milestone) as Ht.
    pose proof (fold_classify_percentage rt values empty_milestone) as Hp.
    pose proof (fold_classify_date rt values empty_milestone) as Hd.
    cbn [empty_milestone pm_title pm_payment_percentage pm_expected_date
         text_truthy] in Ht, Hp, Hd.
    rewrite Hp, Hd.
    destruct (first_some title_of values) as [t|] eqn:Etitle.
    + rewrite Ht. cbn [text_truthy opt_str].
      assert (Htrue : PyStr.truthy t = true).
      { clear - Etitle. induction values as [|v values IH];
          cbn [first_some] in Etitle; [discriminate|].
        destruct (title_of v) as [t'|] eqn:E; [|auto].
        inversion Etitle; subst. now apply title_of_truthy with v. }
      rewrite Htrue. cbn [andb].
      destruct (first_some percentage_of values) as [x|] eqn:Epct;
        [|reflexivity].
      now rewrite (first_some_percentage_truthy _ Epct).
    + rewrite Ht. reflexivity.
  - rewrite (falsy_row_has_no_title _ Hany).
    now destruct (row_is_empty values).
Qed.

(** The header test, in words. *)
Lemma is_header_row_iff rt r :
  is_header_row rt r = true
  <-> exists v token,
      In v r /\ cell_truthy v = true /\ In token header_tokens
      /\ PyStr.contains token (PyStr.lower (cell_str rt v)) = true.
Proof.
  unfold is_header_row. rewrite existsb_exists. split.
  - intros (text & Hin & Htok). apply in_map_iff in Hin.
    destruct Hin as (v & Hv & Hin). exists v.
    destruct (cell_truthy v) eqn:Htruthy.
    + subst text. apply orb_prop in Htok. destruct Htok as [Htok|Htok];
        [apply orb_prop in Htok; destruct Htok as [Htok|Htok]|].
      * exists "milestone". repeat split; auto. now left.
      * exists "payment". repeat split; auto. right. now left.
      * exists "description". repeat split; auto. right. right. now left.
    + subst text. discriminate Htok.
  - intros (v & token & Hin & Htruthy & Htoken & Hcontains).
    exists (PyStr.lower (cell_str rt v)). split.
    + apply in_map_iff. exists v. now rewrite Htruthy.
    + cbn in Htoken.
      destruct Htoken as [E|[E|[E|[]]]]; subst token; rewrite Hcontains;
        rewrite ?orb_true_r; reflexivity.
Qed.

Lemma find_header_from_spec rt : forall rows row_idx,
  match find_header_from rt row_idx rows with
  | Some n =>
      row_idx < n <= row_idx + List.length rows
      /\ (exists r, nth_error rows (n - 1 - row_idx) = Some r
                    /\ is_header_row rt r = true)
      /\ (forall i r, i < n - 1 - row_idx ->
                      nth_error rows i = Some r -> is_header_row rt r = false)
  | None =>
      forall i r, nth_error rows i = Some r -> is_header_row rt r = false
  end.
Proof.
  induction rows as [|r0 rows IH]; intros row_idx; cbn [find_header_from].
  - intros [|i] r H; discriminate H.
  - destruct (is_header_row rt r0) eqn:Hr0.
    + cbn [List.length]. split; [lia|]. split.
      * exists r0. replace (row_idx + 1 - 1 - row_idx) with 0 by lia. auto.
      * intros i r Hi. lia.
    + specialize (IH (S row_idx)).
      destruct (find_header_from rt (S row_idx) rows) as [n|].
      * destruct IH as (Hn & (r & Hr & Hhead) & Hbefore).
        cbn [List.length]. split; [lia|]. split.
        -- exists r. replace (n - 1 - row_idx) with (S (n - 1 - S row_idx)) by lia.
           auto.
        -- intros [|i] r' Hi Hnth.
           ++ cbn in Hnth. inversion Hnth; subst. exact Hr0.
           ++ apply (Hbefore i); [lia | exact Hnth].
      * intros [|i] r Hnth.
        -- cbn in Hnth. inversion Hnth; subst. exact Hr0.
        -- now apply (IH i).
Qed.

Lemma find_header_row_spec rt sh :
  match find_header_row rt sh with
  | Some n =>
      1 <= n <= 10
      /\ (exists r, nth_error sh (n - 1) = Some r /\ is_header_row rt r = true)
      /\ (forall i r, i < n - 1 ->
                      nth_error sh i = Some r -> is_header_row rt r = false)
  | None =>
      forall i r, i < 10 ->
                  nth_error sh i = Some r -> is_header_row rt r = false
  end.
Proof.
  unfold find_header_row.
  pose proof (find_header_from_spec rt (firstn 10 sh) 0) as H.
  pose proof (firstn_le_length 10 sh) as Hlen.
  destruct (find_header_from rt 0 (firstn 10 sh)) as [n|].
  - destruct H as (Hn & (r & Hr & Hhead) & Hbefore).
    rewrite Nat.sub_0_r in Hr, Hbefore.
    split; [lia|]. split.
    + exists r. split; [|exact Hhead].
      rewrite nth_error_firstn in Hr.
      destruct (n - 1 <? 10); [exact Hr | discriminate Hr].
    + intros i r' Hi Hnth. apply (Hbefore i r' Hi).
      rewrite nth_error_firstn.
      destruct (Nat.ltb_spec i 10); [exact Hnth | lia].
  - intros i r Hi Hnth. apply (H i r).
    rewrite nth_error_firstn.
    destruct (Nat.ltb_spec i 10); [exact Hnth | lia].
Qed.

(** A download that returns logged one fetch. *)
Lemma _download_file_log rt sv file_url h content h1 :
  _download_file rt sv file_url h = (Ret content, h1) ->
  exists r, is_fetch r = true /\ h1 = (h ++ [r])%list.
Proof.
  assert (Hcall : forall (r : request) (f : log -> answer bytes),
             is_fetch r = true ->
             call r f h = (Ret content, h1) ->
             exists r', is_fetch r' = true /\ h1 = (h ++ [r'])%list).
  { intros r f Hr. unfold call. destruct (f h); intros H; inversion H; eauto. }
  unfold _download_file, lift.
  destruct (PyStr.startswith "s3://" file_url).
  { destruct (_parse_s3_key rt file_url); [|discriminate].
    rewrite bind_ret_l. now apply Hcall. }
  destruct (PyStr.contains "s3." file_url
            && PyStr.contains "amazonaws.com" file_url); [|now apply Hcall].
  destruct (urlparse rt file_url) as [parsed|e]; [|discriminate].
  rewrite bind_ret_l. unfold hostname_bucket.
  destruct (url_hostname parsed); [|discriminate].
  rewrite bind_ret_l. now apply Hcall.
Qed.

(** With a header row found, the parser returns the milestones of the
    rows below it; nothing is called after the download. *)
Lemma _extract_milestones_from_excel_heuristic
      rt sv file_url h content h1 wb name sh n :
  _download_file rt sv file_url h = (Ret content, h1) ->
  load_workbook rt content = Answer wb ->
  nth_error (wb_sheets wb) (wb_active_index wb) = Some (name, Worksheet sh) ->
  find_header_row rt sh = Some n ->
  _extract_milestones_from_excel rt sv file_url h
  = (Ret (PList (flat_map milestone_of_row (skipn n sh))), h1).
Proof.
  intros Hd Hwb Hactive Hheader.
  unfold _extract_milestones_from_excel, try_except, bind, lift.
  rewrite Hd, Hwb. unfold ret at 1. rewrite Hactive.
  cbn [snd iter_rows]. unfold ret at 1. rewrite Hheader.
  unfold ret. do 3 f_equal.
  apply flat_map_ext. intros values. apply parse_data_row_milestone.
Qed.

(** The years from 1000 to 9999, one by one. *)
Lemma four_digit_years :
  forallb (fun n => String.length (PyStr.of_Z (Z.of_nat n)) =? 4)
          (seq 1000 (9 * 1000)) = true.
Proof. vm_compute. reflexivity. Qed.

(** For a year of four digits, [%Y-%m-%d] is YYYY-MM-DD. *)
Lemma strftime_ymd_isoformat year month day :
  four_digit_year year ->
  strftime_ymd year month day = isoformat_date year month day.
Proof.
  intros Hyear. unfold four_digit_year in Hyear.
  unfold strftime_ymd, isoformat_date, PyStr.zfill.
  pose proof four_digit_years as Hall.
  rewrite forallb_forall in Hall.
  specialize (Hall (Z.to_nat year)).
  rewrite Z2Nat.id in Hall by lia.
  rewrite in_seq in Hall.
  assert (Hlen : String.length (PyStr.of_Z year) = 4)
    by (apply Nat.eqb_eq, Hall; lia).
  rewrite Hlen. reflexivity.
Qed.

(** C4, as the code has it.  The header row is the first of the first 10
    rows of the active sheet in which some cell, lower-cased, contains
    "milestone", "payment" or "description".  A data row gives nothing
    when it is empty, and otherwise one milestone when it has a title and
    a percentage, where the title is the trimmed text of the first string
    cell longer than 3 characters that is not blank, the percentage the
    first numeric cell in (0, 100] (a boolean counts as a number, [True]
    as 1) and the date the first date-typed cell formatted with
    [%Y-%m-%d] (a time of day counts as date-typed and gives 1900-01-01);
    the format is YYYY-MM-DD for the years 1000 to 9999, and a year below
    1000 is written without padding.  With a header row found in the
    active worksheet, the parser returns, having called nothing but the
    download, the milestones of the rows below it.  On the schedule of
    the specification the result is its two milestones. *)
Theorem heuristic_milestone_parser :
  forall rt sv,
    (forall r,
        is_header_row rt r = true
        <-> exists v token,
          In v r /\ cell_truthy v = true /\ In token header_tokens
          /\ PyStr.contains token (PyStr.lower (cell_str rt v)) = true)
    /\ (forall sh,
           match find_header_row rt sh with
           | Some n =>
               1 <= n <= 10
               /\ (exists r, nth_error sh (n - 1) = Some r
                             /\ is_header_row rt r = true)
               /\ (forall i r, i < n - 1 -> nth_error sh i = Some r ->
                               is_header_row rt r = false)
           | None =>
               forall i r, i < 10 -> nth_error sh i = Some r ->
                           is_header_row rt r = false
           end)
    /\ (forall values, parse_data_row rt values = milestone_of_row values)
    /\ (forall year month day,
           four_digit_year year ->
           strftime_ymd year month day = isoformat_date year month day)
    /\ parse_data_row rt [CStr "Mobilization"; CBool true; CInt 50;
                          Fixtures.half_past_eight; Fixtures.date 999 3 7]
       = [milestone "Mobilization" (Some "1900-01-01") (inject_Z 1)]
    /\ parse_data_row rt [CStr "Mobilization"; CInt 50; CBool true;
                          Fixtures.date 999 3 7; Fixtures.half_past_eight]
       = [milestone "Mobilization" (Some "999-03-07") (inject_Z 50)]
    /\ (forall file_url h content h1 wb name sh n,
           _download_file rt sv file_url h = (Ret content, h1) ->
           load_workbook rt content = Answer wb ->
           nth_error (wb_sheets wb) (wb_active_index wb)
           = Some (name, Worksheet sh) ->
           find_header_row rt sh = Some n ->
           _extract_milestones_from_excel rt sv file_url h
           = (Ret (PList (flat_map milestone_of_row (skipn n sh))), h1)
           /\ exists r, is_fetch r = true /\ h1 = (h ++ [r])%list)
    /\ (forall file_url h content h1,
           _download_file rt sv file_url h = (Ret content, h1) ->
           load_workbook rt content = Answer Fixtures.schedule_wb ->
           _extract_milestones_from_excel rt sv file_url h
           = (Ret (PList schedule_milestones), h1)
           /\ exists r, is_fetch r = true /\ h1 = (h ++ [r])%list).
Proof.
  intros rt sv.
  split; [apply is_header_row_iff|].
  split; [apply find_header_row_spec|].
  split; [apply parse_data_row_milestone|].
  split; [apply strftime_ymd_isoformat|].
  split; [rewrite parse_data_row_milestone; reflexivity|].
  split; [rewrite parse_data_row_milestone; reflexivity|].
  split.
  - intros file_url h content h1 wb name sh n Hd Hwb Hactive Hheader. split.
    + now apply _extract_milestones_from_excel_heuristic
        with content wb name.
    + now apply _download_file_log with rt sv file_url content.
  - intros file_url h content h1 Hd Hwb. split.
    + rewrite (@_extract_milestones_from_excel_heuristic
                 rt sv file_url h content h1 Fixtures.schedule_wb
                 "Schedule" Fixtures.schedule 1 Hd Hwb eq_refl eq_refl).
      reflexivity.
    + now apply _download_file_log with rt sv file_url content.
Qed.

Lemma heuristic_milestone_parser_witness :
  let rt := Fixtures.rt_with (Answer []) [] Fixtures.schedule_wb in
  let sv := Fixtures.sv_with Fixtures.some_file
                             (fun _ _ => Answer Fixtures.in_progress)
                             (Answer None) in
  parse_data_row rt [CStr "    "; CStr " Final Delivery "; CInt 0; CInt 90]
  = [milestone "Final Delivery" None (inject_Z 90)]
  /\ strftime_ymd 2024 12 1 = isoformat_date 2024 12 1
  /\ _extract_milestones_from_excel rt sv "s3://docs/schedule.xlsx" []
     = (Ret (PList schedule_milestones),
        [S3GetObject "infradyn-files" "schedule.xlsx"]).
Proof.
  intros rt sv.
  destruct (heuristic_milestone_parser rt sv)
    as (_ & _ & Hrow & Hyear & _ & _ & _ & Hschedule).
  split; [|split].
  - exact (Hrow [CStr "    "; CStr " Final Delivery "; CInt 0; CInt 90]).
  - apply Hyear. unfold four_digit_year. lia.
  - exact (proj1 (Hschedule "s3://docs/schedule.xlsx" [] Fixtures.some_file
                            [S3GetObject "infradyn-files" "schedule.xlsx"]
                            eq_refl eq_refl)).
Defined.

(** The reading "the first string cell longer than 3 characters is the
    title" fails on a cell with spaces around its text: the title is the
    trimmed text, not the cell. *)
Lemma heuristic_title_is_trimmed :
  let sh := [[CStr "Milestone"; CStr "Payment %"];
             [CStr " Mobilization "; CInt 10]] in
  let wb := {| wb_sheets := [("Schedule", Worksheet sh)];
               wb_active_index := 0 |} in
  let rt := Fixtures.rt_with (Answer []) [] wb in
  let sv := Fixtures.sv_with Fixtures.some_file
                             (fun _ _ => Answer Fixtures.in_progress)
                             (Answer None) in
  fst (_extract_milestones_from_excel rt sv "s3://docs/schedule.xlsx" [])
  = Ret (PList [milestone "Mobilization" None (inject_Z 10)])
  /\ flat_map milestone_as_written (skipn 1 sh)
     = [milestone " Mobilization " None (inject_Z 10)]
  /\ fst (_extract_milestones_from_excel rt sv "s3://docs/schedule.xlsx" [])
     <> Ret (PList (flat_map milestone_as_written (skipn 1 sh))).
Proof.
  intros sh wb rt sv.
  split; [reflexivity|]. split; [reflexivity|].
  intros H. vm_compute in H. discriminate H.
Qed.

(* ===================================================================== *)
(** ** Further properties: locators and downloads *)
(* ===================================================================== *)

Lemma split_once_without (ch : ascii) (s : string) :
  PyStr.contains (String ch EmptyString) s = false ->
  PyStr.split_once ch s = (s, None).
Proof.
  induction s as [|c s IH]; intros H; [reflexivity|].
  rewrite contains_char_cons in H. apply orb_false_elim in H.
  destruct H as [Hc Hs]. cbn [PyStr.split_once].
  rewrite Ascii.eqb_sym, Hc, (IH Hs). reflexivity.
Qed.

Lemma split_once_at (ch : ascii) (s t : string) :
  PyStr.contains (String ch EmptyString) s = false ->
  PyStr.split_once ch (s ++ String ch t) = (s, Some t).
Proof.
  induction s as [|c s IH]; intros H.
  - cbn. now rewrite Ascii.eqb_refl.
  - rewrite contains_char_cons in H. apply orb_false_elim in H.
    destruct H as [Hc Hs]. cbn [append PyStr.split_once].
    rewrite Ascii.eqb_sym, Hc, (IH Hs). reflexivity.
Qed.

Lemma lower_char_idempotent (c : ascii) :
  PyStr.lower_char (PyStr.lower_char c) = PyStr.lower_char c.
Proof. destruct c as [[] [] [] [] [] [] [] []]; reflexivity. Qed.

Lemma lower_idempotent (s : string) : PyStr.lower (PyStr.lower s) = PyStr.lower s.
Proof.
  induction s as [|c s IH]; [reflexivity|].
  cbn [PyStr.lower]. now rewrite lower_char_idempotent, IH.
Qed.

(** X1.  [_get_extension] does not see the query string: what follows the
    first question mark of a locator has no influence on the extension.
    The extension it returns is in lower case. *)
Theorem _get_extension_ignores_query :
  forall file_url query,
    PyStr.contains "?" file_url = false ->
    _get_extension (file_url ++ "?" ++ query) = _get_extension file_url
    /\ PyStr.lower (_get_extension (file_url ++ "?" ++ query))
       = _get_extension file_url.
Proof.
  intros file_url query H. unfold _get_extension.
  change ("?" ++ query) with (String "?" query).
  rewrite (split_once_at "?" file_url query H), (split_once_without "?" file_url H).
  cbn [fst]. split; [reflexivity | apply lower_idempotent].
Qed.

Lemma _get_extension_ignores_query_witness :
  _get_extension ("https://files.example.com/PO.Pdf" ++ "?" ++ "sig=a.b/c.txt")
  = ".pdf"
  /\ PyStr.lower (_get_extension ("https://files.example.com/PO.Pdf"
                                    ++ "?" ++ "sig=a.b/c.txt")) = ".pdf".
Proof.
  exact (_get_extension_ignores_query
           "https://files.example.com/PO.Pdf" "sig=a.b/c.txt" eq_refl).
Defined.


(* ===================================================================== *)
(** ** Further properties: the text extractors *)
(* ===================================================================== *)

Lemma truthy_append_l (a b : string) :
  PyStr.truthy a = true -> PyStr.truthy (a ++ b) = true.
Proof. destruct a; [discriminate | reflexivity]. Qed.

(** Joining non-empty parts gives an empty text only for no part. *)
Lemma join_truthy (sep : string) (parts : list string) :
  (forall p, In p parts -> PyStr.truthy p = true) ->
  PyStr.truthy (PyStr.join sep parts)
  = match parts with [] => false | _ => true end.
Proof.
  destruct parts as [|p parts]; intros H; [reflexivity|].
  assert (Hp : PyStr.truthy p = true) by (apply H; now left).
  cbn [PyStr.join]. destruct parts; [exact Hp | now apply truthy_append_l].
Qed.

(** The page texts [_extract_pdf_from_bytes] keeps. *)
Lemma pdf_text_parts (pages : list (option string)) (t : string) :
  In t (flat_map (fun page_text : option string =>
                    match page_text with
                    | Some t => if PyStr.truthy t then [t] else []
                    | None => []
                    end) pages)
  <-> In (Some t) pages /\ PyStr.truthy t = true.
Proof.
  rewrite in_flat_map. split.
  - intros ([t'|] & Hin & Ht); [|contradiction].
    destruct (PyStr.truthy t') eqn:E; [|contradiction].
    destruct Ht as [Ht|[]]. subst t'. auto.
  - intros (Hin & Ht). exists (Some t). split; [exact Hin|].
    rewrite Ht. now left.
Qed.

(** X3.  [_extract_pdf_from_bytes] answers [None] exactly when pdfplumber
    cannot read the bytes.  Otherwise the text is empty exactly when no
    page has text (a PDF of scanned images), and the text of every page
    is part of it. *)
Theorem _extract_pdf_from_bytes_text :
  forall rt content,
    match pdfplumber_pages rt content with
    | Fault _ => _extract_pdf_from_bytes rt content = None
    | Answer pages =>
        exists text,
          _extract_pdf_from_bytes rt content = Some text
          /\ PyStr.truthy text = existsb (@text_truthy) pages
          /\ forall t, In (Some t) pages -> PyStr.contains t text = true
    end.
Proof.
  intros rt content. unfold _extract_pdf_from_bytes.
  destruct (pdfplumber_pages rt content) as [pages|e]; [|reflexivity].
  eexists. split; [reflexivity|]. split.
  - rewrite join_truthy by (intros p Hp; now apply pdf_text_parts in Hp).
    induction pages as [|[t|] pages IH]; cbn [flat_map existsb text_truthy];
      [reflexivity | | exact IH].
    destruct (PyStr.truthy t); [reflexivity | exact IH].
  - intros t Hin. destruct (PyStr.truthy t) eqn:Ht.
    + apply contains_join with t; [|apply contains_self].
      apply pdf_text_parts. auto.
    + destruct t; [apply contains_empty | discriminate Ht].
Qed.

(** X4.  [_extract_word_from_bytes] answers [None] exactly when python-docx
    cannot read the bytes.  Otherwise the text is empty exactly when every
    paragraph is blank, and every paragraph that is not blank is part of
    the text as it is. *)
Theorem _extract_word_from_bytes_text :
  forall rt content,
    match docx_paragraphs rt content with
    | Fault _ => _extract_word_from_bytes rt content = None
    | Answer texts =>
        exists text,
          _extract_word_from_bytes rt content = Some text
          /\ PyStr.truthy text
             = existsb (fun t => PyStr.truthy (PyStr.strip t)) texts
          /\ forall t, In t texts -> PyStr.truthy (PyStr.strip t) = true ->
                       PyStr.contains t text = true
    end.
Proof.
  intros rt content. unfold _extract_word_from_bytes.
  destruct (docx_paragraphs rt content) as [texts|e]; [|reflexivity].
  assert (Hnonempty : forall t, PyStr.truthy (PyStr.strip t) = true ->
                                PyStr.truthy t = true).
  { intros [|c t] H; [discriminate H | reflexivity]. }
  eexists. split; [reflexivity|]. split.
  - rewrite join_truthy
      by (intros p Hp; apply filter_In in Hp; now apply Hnonempty).
    induction texts as [|t texts IH]; cbn [filter existsb]; [reflexivity|].
    destruct (PyStr.truthy (PyStr.strip t)); [reflexivity | exact IH].
  - intros t Hin Ht. apply contains_join with t; [|apply contains_self].
    apply filter_In. auto.
Qed.

(** X5.  For a workbook that openpyxl reads: with a chart sheet among its
    sheets [_extract_excel_from_bytes] answers [None], whatever the
    worksheets hold; without one, and with at least one sheet, the text is
    never empty, whatever the cells hold: it starts with the marker line
    of the first sheet. *)
Theorem _extract_excel_from_bytes_chart_or_text :
  forall rt content wb,
    load_workbook rt content = Answer wb ->
    if has_chartsheet wb
    then _extract_excel_from_bytes rt content = None
    else wb_sheets wb <> [] ->
         exists text,
           _extract_excel_from_bytes rt content = Some text
           /\ PyStr.truthy text = true
           /\ match wb_sheets wb with
              | named :: _ =>
                  PyStr.startswith ("=== Sheet: " ++ fst named ++ " ===") text
                  = true
              | [] => True
              end.
Proof.
  intros rt content wb Hwb. unfold _extract_excel_from_bytes. rewrite Hwb.
  destruct (has_chartsheet wb) eqn:Hcharts.
  - destruct (@workbook_lines_chartsheet rt wb Hcharts) as (e & He).
    now rewrite He.
  - intros Hsheets. rewrite (@workbook_lines_worksheets rt wb Hcharts).
    eexists. split; [reflexivity|].
    unfold has_chartsheet, worksheets in *.
    destruct (wb_sheets wb) as [|[name [rows|]] sheets];
      [now destruct Hsheets | | discriminate Hcharts].
    cbn [flat_map sheet_lines app fst snd].
    set (marker := "=== Sheet: " ++ name ++ " ===").
    match goal with
    | |- context [PyStr.join nl (marker :: ?rest)] => generalize rest
    end.
    intros lines. cbn [PyStr.join]. destruct lines.
    + split; [reflexivity | apply prefix_refl].
    + split; [reflexivity | apply prefix_append].
Qed.

Lemma _extract_excel_from_bytes_chart_or_text_witness :
  let wb := {| wb_sheets := [("Blank", Worksheet [[CNone; CInt 0]; [CStr ""]])];
               wb_active_index := 0 |} in
  (exists text,
      _extract_excel_from_bytes (Fixtures.rt_with (Answer []) [] wb)
                                Fixtures.some_file = Some text
      /\ PyStr.truthy text = true
      /\ PyStr.startswith ("=== Sheet: " ++ "Blank" ++ " ===") text = true)
  /\ _extract_excel_from_bytes
       (Fixtures.rt_with (Answer []) [] Fixtures.charted_wb) Fixtures.some_file
     = None.
Proof.
  intros wb. split.
  - apply (@_extract_excel_from_bytes_chart_or_text
             (Fixtures.rt_with (Answer []) [] wb) Fixtures.some_file wb eq_refl).
    discriminate.
  - exact (@_extract_excel_from_bytes_chart_or_text
             (Fixtures.rt_with (Answer []) [] Fixtures.charted_wb)
             Fixtures.some_file Fixtures.charted_wb eq_refl).
Defined.

(** X6.  For a workbook that openpyxl reads and that has no chart sheet,
    the text of [_extract_excel_from_bytes] contains the marker line of
    every sheet and the text of every cell whose value is true in Python's
    sense (a non-empty string, a number other than zero, [True], a date,
    a time of day, a duration other than zero). *)
Theorem _extract_excel_from_bytes_keeps_true_cells :
  forall rt content wb name sh,
    load_workbook rt content = Answer wb ->
    has_chartsheet wb = false ->
    In (name, Worksheet sh) (wb_sheets wb) ->
    exists text,
      _extract_excel_from_bytes rt content = Some text
      /\ PyStr.contains ("=== Sheet: " ++ name ++ " ===") text = true
      /\ forall r v, In r sh -> In v r -> cell_truthy v = true ->
                     PyStr.contains (cell_str rt v) text = true.
Proof.
  intros rt content wb name sh Hwb Hcharts Hsheet.
  now apply _extract_excel_from_bytes_contains with wb.
Qed.

Lemma _extract_excel_from_bytes_keeps_true_cells_witness :
  exists text,
    _extract_excel_from_bytes
      (Fixtures.rt_with (Answer []) [] Fixtures.schedule_wb) Fixtures.some_file
    = Some text
    /\ PyStr.contains ("=== Sheet: " ++ "Schedule" ++ " ===") text = true
    /\ PyStr.contains "90" text = true.
Proof.
  destruct (@_extract_excel_from_bytes_keeps_true_cells
              (Fixtures.rt_with (Answer []) [] Fixtures.schedule_wb)
              Fixtures.some_file Fixtures.schedule_wb "Schedule"
              Fixtures.schedule eq_refl eq_refl (or_introl eq_refl))
    as (text & Htext & Hmarker & Hcells).
  exists text. split; [exact Htext|]. split; [exact Hmarker|].
  apply (Hcells [CStr "Final Delivery"; CInt 90; Fixtures.date 2024 12 1]
                (CInt 90)); cbn; auto.
Defined.

(** X7.  [_extract_image] never downloads the image and never raises.
    When the object key can be read off the locator it makes exactly one
    [detect_document_text] call, on the configured bucket and that key,
    and answers [None] exactly when that call fails; when it cannot (the
    locator contains [s3.amazonaws.com] and [urlparse] refuses it) it
    answers [None] and calls nothing.  A locator that neither starts with
    [s3://] nor contains [s3.amazonaws.com] is used as the object key as
    it is. *)
Theorem _extract_image_at_most_one_call :
  forall rt sv file_url h,
    match _parse_s3_key rt file_url with
    | Answer key =>
        exists text,
          _extract_image rt sv file_url h
          = (Ret text,
             (h ++ [DetectDocumentText (aws_s3_bucket rt) key])%list)
          /\ (text = None
              <-> exists e,
                detect_document_text sv h (aws_s3_bucket rt) key = Fault e)
    | Fault _ =>
        _extract_image rt sv file_url h = (Ret None, h)
        /\ PyStr.startswith "s3://" file_url = false
        /\ PyStr.contains "s3.amazonaws.com" file_url = true
        /\ exists e, urlparse rt file_url = Fault e
    end
    /\ (PyStr.startswith "s3://" file_url = false ->
        PyStr.contains "s3.amazonaws.com" file_url = false ->
        _parse_s3_key rt file_url = Answer file_url).
Proof.
  intros rt sv file_url h. split.
  - unfold _extract_image.
    destruct (_parse_s3_key rt file_url) as [key|e0] eqn:Hkey.
    + unfold try_except, lift. rewrite bind_ret_l.
      unfold bind, call, ret, s3_bucket.
      destruct (detect_document_text sv h (aws_s3_bucket rt) key)
        as [blocks|e].
      * eexists. split; [reflexivity|]. split; [discriminate|].
        intros (e & He). discriminate He.
      * exists None. split; [reflexivity|]. split; eauto.
    + split; [reflexivity|]. unfold _parse_s3_key in Hkey.
      destruct (PyStr.startswith "s3://" file_url).
      { destruct (PyStr.split_once "/" (PyStr.drop 5 file_url)) as [? [?|]];
          discriminate Hkey. }
      destruct (PyStr.contains "s3.amazonaws.com" file_url);
        [|discriminate Hkey].
      destruct (urlparse rt file_url) as [parsed|e]; [discriminate Hkey|].
      eauto.
  - intros Hscheme Hhost. unfold _parse_s3_key. now rewrite Hscheme, Hhost.
Qed.

Lemma _extract_image_at_most_one_call_witness :
  _parse_s3_key Fixtures.rt_reject "https://cdn.example.com/scans/po.png"
  = Answer "https://cdn.example.com/scans/po.png"
  /\ _extract_image Fixtures.rt_reject Fixtures.sv_idle
       "https://[s3.amazonaws.com/po.png" []
     = (Ret None, []).
Proof.
  split.
  - exact (proj2 (_extract_image_at_most_one_call
                    Fixtures.rt_reject Fixtures.sv_idle
                    "https://cdn.example.com/scans/po.png" [])
                 eq_refl eq_refl).
  - exact (proj1 (proj1 (_extract_image_at_most_one_call
                           Fixtures.rt_reject Fixtures.sv_idle
                           "https://[s3.amazonaws.com/po.png" []))).
Defined.

(* ===================================================================== *)
(** ** Further properties: PDF extraction and the OCR job client *)
(* ===================================================================== *)

(** X8.  When the download fails, [_extract_pdf] answers [None] and no OCR
    job is submitted: nothing is called after the failed download. *)
Theorem _extract_pdf_download_failure :
  forall rt sv fuel file_url h e h1,
    _download_file rt sv file_url h = (Raise e, h1) ->
    _extract_pdf rt sv fuel file_url h = (Ret None, h1).
Proof.
  intros rt sv fuel file_url h e h1 Hd.
  unfold _extract_pdf, try_except, bind. now rewrite Hd.
Qed.

Lemma _extract_pdf_download_failure_witness :
  let sv := {| s3_get_object := fun _ _ _ => Fault "NoSuchKey";
               http_get := fun _ _ => Fault "404 Not Found";
               start_document_text_detection := fun _ _ _ => Answer "job-1";
               get_document_text_detection :=
                 fun _ _ _ => Answer Fixtures.first_page;
               detect_document_text := fun _ _ _ => Answer [];
               chat_completions_create := fun _ _ _ _ _ _ => Answer None |} in
  _extract_pdf Fixtures.rt_reject sv 0 "https://files.example.com/po.pdf" []
  = (Ret None, [HttpGet "https://files.example.com/po.pdf"]).
Proof.
  intros sv.
  exact (@_extract_pdf_download_failure
           Fixtures.rt_reject sv 0 "https://files.example.com/po.pdf" []
           "404 Not Found" [HttpGet "https://files.example.com/po.pdf"]
           eq_refl).
Defined.

(** X9.  Direct text of more than 500 characters after trimming is
    returned as pdfplumber gave it, white space at its ends included; the
    download is the only call and no OCR job is submitted. *)
Theorem _extract_pdf_long_text_direct :
  forall rt sv fuel file_url h content h1 text,
    _download_file rt sv file_url h = (Ret content, h1) ->
    _extract_pdf_from_bytes rt content = Some text ->
    500 < String.length (PyStr.strip text) ->
    _extract_pdf rt sv fuel file_url h = (Ret (Some text), h1).
Proof.
  intros rt sv fuel file_url h content h1 text Hd Ht Hlen.
  now apply _extract_pdf_direct with content.
Qed.

Lemma _extract_pdf_long_text_direct_witness :
  let text := " " ++ Fixtures.filler 501 ++ nl in
  let rt := Fixtures.rt_with (Answer [Some text]) [] Fixtures.no_workbook in
  _extract_pdf rt MoreFixtures.sv_with_file 0 "https://files.example.com/po.pdf" []
  = (Ret (Some text), [HttpGet "https://files.example.com/po.pdf"]).
Proof.
  intros text rt.
  apply (@_extract_pdf_long_text_direct rt MoreFixtures.sv_with_file 0
           "https://files.example.com/po.pdf" [] Fixtures.some_file
           [HttpGet "https://files.example.com/po.pdf"] text);
    [reflexivity | reflexivity | vm_compute; lia].
Defined.

(** X10.  When pdfplumber cannot read the PDF, or its text has fewer than
    500 characters after trimming, the result of [_extract_pdf] is the
    result of the OCR job client run after the download; the direct text
    is dropped. *)
Theorem _extract_pdf_short_text_runs_ocr :
  forall rt sv fuel file_url h content h1,
    _download_file rt sv file_url h = (Ret content, h1) ->
    match _extract_pdf_from_bytes rt content with
    | Some text => String.length (PyStr.strip text) < 500
    | None => True
    end ->
    _extract_pdf rt sv fuel file_url h
    = _extract_pdf_with_textract rt sv fuel file_url h1.
Proof.
  intros rt sv fuel file_url h content h1 Hd Hshort.
  apply _extract_pdf_fallback with content; [exact Hd|].
  destruct (_extract_pdf_from_bytes rt content); [lia | exact I].
Qed.

Lemma _extract_pdf_short_text_runs_ocr_witness :
  let text := Fixtures.filler 499 in
  let rt := Fixtures.rt_with (Answer [Some text]) [] Fixtures.no_workbook in
  _extract_pdf rt MoreFixtures.sv_with_file 0 "https://files.example.com/po.pdf" []
  = _extract_pdf_with_textract rt MoreFixtures.sv_with_file 0
      "https://files.example.com/po.pdf"
      [HttpGet "https://files.example.com/po.pdf"].
Proof.
  intros text rt.
  apply (@_extract_pdf_short_text_runs_ocr rt MoreFixtures.sv_with_file 0
           "https://files.example.com/po.pdf" [] Fixtures.some_file
           [HttpGet "https://files.example.com/po.pdf"]);
    [reflexivity | vm_compute; lia].
Defined.

(** One turn of the polling loop. *)
Lemma poll_loop_turn sv fuel job_id attempts h :
  poll_loop sv fuel job_id (S attempts) h
  = match get_document_text_detection sv (h ++ [Sleep 2])%list job_id None with
    | Fault e =>
        (Raise e, (h ++ [Sleep 2; GetDocumentTextDetection job_id None])%list)
    | Answer r =>
        let h1 := (h ++ [Sleep 2; GetDocumentTextDetection job_id None])%list in
        if String.eqb (JobStatus r) "SUCCEEDED" then
          (all_blocks <- collect_pages sv fuel job_id (Blocks r) (NextToken r) ;;
           lines <- line_texts all_blocks ;;
           ret (Some (PyStr.join nl lines))) h1
        else if String.eqb (JobStatus r) "FAILED" then (Ret None, h1)
        else poll_loop sv fuel job_id attempts h1
    end.
Proof.
  cbn [poll_loop]. unfold bind at 1, call at 1. unfold bind at 1, call at 1.
  rewrite <- app_assoc. cbn [app].
  destruct (get_document_text_detection sv (h ++ [Sleep 2])%list job_id None)
    as [r|e]; [|reflexivity].
  cbv zeta. destruct (String.eqb (JobStatus r) "SUCCEEDED"); [reflexivity|].
  now destruct (String.eqb (JobStatus r) "FAILED").
Qed.

(** The run of the client once the job is submitted and [k] polls found it
    running: the loop goes on with [60 - k] attempts, and an exception is
    turned into [None]. *)
Lemma _extract_pdf_with_textract_after rt sv fuel file_url h host job_id k :
  urlparse_hostname rt file_url = Some host ->
  let bucket := fst (PyStr.split_once "." host) in
  let key := PyStr.lstrip_char "/" (urlparse_path rt file_url) in
  let h0 := (h ++ [StartDocumentTextDetection bucket key])%list in
  start_document_text_detection sv h bucket key = Answer job_id ->
  k <= 60 ->
  still_running sv job_id h0 k ->
  _extract_pdf_with_textract rt sv fuel file_url h
  = try_except (poll_loop sv fuel job_id (60 - k)) (fun _ => ret None)
               (h0 ++ polls job_id k)%list.
Proof.
  intros Hhost bucket key h0 Hstart Hk Hrun.
  rewrite (@_extract_pdf_with_textract_submits
             rt sv fuel file_url h host Hhost).
  unfold try_except. unfold bind at 1, call.
  fold bucket key. rewrite Hstart. fold h0.
  now rewrite (@poll_loop_skip sv fuel job_id k max_attempts h0 Hrun Hk).
Qed.

(** X11.  A poll that finds the status [FAILED] ends the run at once: the
    client answers [None], polls no more and requests no page. *)
Theorem ocr_job_failed :
  forall rt sv fuel file_url h host job_id k r,
    urlparse_hostname rt file_url = Some host ->
    let bucket := fst (PyStr.split_once "." host) in
    let key := PyStr.lstrip_char "/" (urlparse_path rt file_url) in
    let h0 := (h ++ [StartDocumentTextDetection bucket key])%list in
    start_document_text_detection sv h bucket key = Answer job_id ->
    k < 60 ->
    still_running sv job_id h0 k ->
    get_document_text_detection sv (h0 ++ polls job_id k ++ [Sleep 2])%list
                                job_id None = Answer r ->
    JobStatus r = "FAILED" ->
    _extract_pdf_with_textract rt sv fuel file_url h
    = (Ret None, (h0 ++ polls job_id (S k))%list).
Proof.
  intros rt sv fuel file_url h host job_id k r Hhost bucket key h0
         Hstart Hk Hrun Hpoll Hstatus.
  rewrite (@_extract_pdf_with_textract_after
             rt sv fuel file_url h host job_id k Hhost Hstart)
    by (try lia; exact Hrun).
  fold bucket key h0. replace (60 - k) with (S (59 - k)) by lia.
  unfold try_except. rewrite poll_loop_turn, <- app_assoc, Hpoll, Hstatus.
  cbn [String.eqb Ascii.eqb Bool.eqb]. cbv zeta.
  rewrite <- polls_snoc, <- !app_assoc. reflexivity.
Qed.

Lemma ocr_job_failed_witness :
  let sv := Fixtures.sv_with Fixtures.some_file
                             (fun _ _ => Answer Fixtures.failed) (Answer None) in
  _extract_pdf_with_textract Fixtures.rt_reject sv 0
    "https://docs.s3.us-east-1.amazonaws.com/po/scan.pdf" []
  = (Ret None,
     [StartDocumentTextDetection "docs" "po/scan.pdf";
      Sleep 2; GetDocumentTextDetection "job-1" None]).
Proof.
  intros sv.
  refine (@ocr_job_failed Fixtures.rt_reject sv 0
            "https://docs.s3.us-east-1.amazonaws.com/po/scan.pdf" []
            "docs.s3.us-east-1.amazonaws.com" "job-1" 0 Fixtures.failed
            eq_refl eq_refl _ _ eq_refl eq_refl).
  - lia.
  - intros i Hi. lia.
Defined.

(** X12.  A transport error is not retried: when the submission raises,
    or when a poll raises after [k] polls that found the job running, the
    client answers [None] and calls nothing further. *)
Theorem ocr_job_transport_error :
  forall rt sv fuel file_url h host,
    urlparse_hostname rt file_url = Some host ->
    let bucket := fst (PyStr.split_once "." host) in
    let key := PyStr.lstrip_char "/" (urlparse_path rt file_url) in
    let h0 := (h ++ [StartDocumentTextDetection bucket key])%list in
    (forall e,
        start_document_text_detection sv h bucket key = Fault e ->
        _extract_pdf_with_textract rt sv fuel file_url h = (Ret None, h0))
    /\ (forall job_id k e,
           start_document_text_detection sv h bucket key = Answer job_id ->
           k < 60 ->
           still_running sv job_id h0 k ->
           get_document_text_detection
             sv (h0 ++ polls job_id k ++ [Sleep 2])%list job_id None = Fault e ->
           _extract_pdf_with_textract rt sv fuel file_url h
           = (Ret None, (h0 ++ polls job_id (S k))%list)).
Proof.
  intros rt sv fuel file_url h host Hhost bucket key h0. split.
  - intros e Hstart.
    rewrite (@_extract_pdf_with_textract_submits
               rt sv fuel file_url h host Hhost).
    unfold try_except, bind, call.
    fold bucket key. now rewrite Hstart.
  - intros job_id k e Hstart Hk Hrun Hpoll.
    rewrite (@_extract_pdf_with_textract_after
               rt sv fuel file_url h host job_id k Hhost Hstart)
      by (try lia; exact Hrun).
    fold bucket key h0. replace (60 - k) with (S (59 - k)) by lia.
    unfold try_except. rewrite poll_loop_turn, <- app_assoc, Hpoll.
    unfold ret. rewrite <- polls_snoc, <- !app_assoc. reflexivity.
Qed.

Lemma ocr_job_transport_error_witness :
  let flaky h (token : option string) :=
    if 2 <=? count is_sleep h
    then Fault "Connection reset" else Answer Fixtures.in_progress in
  let sv := Fixtures.sv_with Fixtures.some_file flaky (Answer None) in
  _extract_pdf_with_textract Fixtures.rt_reject sv 0
    "https://docs.s3.us-east-1.amazonaws.com/po/scan.pdf" []
  = (Ret None,
     [StartDocumentTextDetection "docs" "po/scan.pdf";
      Sleep 2; GetDocumentTextDetection "job-1" None;
      Sleep 2; GetDocumentTextDetection "job-1" None]).
Proof.
  intros flaky sv.
  refine (proj2 (@ocr_job_transport_error Fixtures.rt_reject sv 0
                   "https://docs.s3.us-east-1.amazonaws.com/po/scan.pdf" []
                   "docs.s3.us-east-1.amazonaws.com" eq_refl)
                "job-1" 1 "Connection reset" eq_refl _ _ eq_refl).
  - lia.
  - intros i Hi. assert (i = 0) by lia. subst i.
    exists Fixtures.in_progress. repeat split.
Defined.

(** A LINE block without [Text] makes the list comprehension raise. *)
Lemma line_texts_missing_text blocks h :
  (exists b, In b blocks /\ BlockType b = "LINE" /\ Text b = None) ->
  line_texts blocks h = (Raise "'Text'", h).
Proof.
  induction blocks as [|b0 blocks IH]; intros (b & Hin & Hline & Htext);
    [contradiction|].
  cbn [line_texts]. destruct Hin as [E|Hin].
  - subst b0. now rewrite Hline, Htext.
  - assert (Hrest : line_texts blocks h = (Raise "'Text'", h)) by eauto.
    destruct (String.eqb (BlockType b0) "LINE"); [|exact Hrest].
    destruct (Text b0); [|reflexivity].
    unfold bind. now rewrite Hrest.
Qed.

(** X13.  A finished job loses all its text over one LINE block without
    [Text]: all pages are requested, then the client answers [None]. *)
Theorem ocr_job_line_without_text :
  forall rt sv file_url h host job_id k first rest h_end,
    urlparse_hostname rt file_url = Some host ->
    let bucket := fst (PyStr.split_once "." host) in
    let key := PyStr.lstrip_char "/" (urlparse_path rt file_url) in
    let h0 := (h ++ [StartDocumentTextDetection bucket key])%list in
    start_document_text_detection sv h bucket key = Answer job_id ->
    k < 60 ->
    still_running sv job_id h0 k ->
    get_document_text_detection sv (h0 ++ polls job_id k ++ [Sleep 2])%list
                                job_id None = Answer first ->
    JobStatus first = "SUCCEEDED" ->
    pagination sv job_id (h0 ++ polls job_id (S k))%list
               (NextToken first) rest h_end ->
    (exists b, In b (Blocks first ++ rest)%list
               /\ BlockType b = "LINE" /\ Text b = None) ->
    exists fuel0, forall fuel, fuel0 <= fuel ->
      _extract_pdf_with_textract rt sv fuel file_url h = (Ret None, h_end).
Proof.
  intros rt sv file_url h host job_id k first rest h_end Hhost bucket key h0
         Hstart Hk Hrun Hfirst Hstatus Hpages Hbad.
  destruct (collect_pages_exhausts Hpages) as (fuel0 & Hcollect).
  exists fuel0. intros fuel Hfuel.
  rewrite (@_extract_pdf_with_textract_after
             rt sv fuel file_url h host job_id k Hhost Hstart)
    by (try lia; exact Hrun).
  fold bucket key h0. replace (60 - k) with (S (59 - k)) by lia.
  unfold try_except. rewrite poll_loop_turn, <- !app_assoc, Hfirst, Hstatus.
  cbn [String.eqb Ascii.eqb Bool.eqb]. cbv zeta. rewrite polls_snoc.
  unfold bind at 1. rewrite (Hcollect fuel Hfuel).
  unfold bind. rewrite (@line_texts_missing_text _ h_end Hbad). reflexivity.
Qed.

Lemma ocr_job_line_without_text_witness :
  let broken : get_response :=
    {| JobStatus := "SUCCEEDED";
       Blocks := [Fixtures.line "PURCHASE ORDER";
                  {| BlockType := "LINE"; Text := None |}];
       NextToken := None |} in
  let sv := Fixtures.sv_with Fixtures.some_file
                             (fun _ _ => Answer broken) (Answer None) in
  exists fuel0, forall fuel, fuel0 <= fuel ->
    _extract_pdf_with_textract Fixtures.rt_reject sv fuel
      "https://docs.s3.us-east-1.amazonaws.com/po/scan.pdf" []
    = (Ret None,
       [StartDocumentTextDetection "docs" "po/scan.pdf";
        Sleep 2; GetDocumentTextDetection "job-1" None]).
Proof.
  intros broken sv.
  refine (@ocr_job_line_without_text Fixtures.rt_reject sv
            "https://docs.s3.us-east-1.amazonaws.com/po/scan.pdf" []
            "docs.s3.us-east-1.amazonaws.com" "job-1" 0 broken []
            [StartDocumentTextDetection "docs" "po/scan.pdf";
             Sleep 2; GetDocumentTextDetection "job-1" None]
            eq_refl eq_refl _ _ eq_refl eq_refl _ _).
  - lia.
  - intros i Hi. lia.
  - apply cursor_exhausted. reflexivity.
  - exists {| BlockType := "LINE"; Text := None |}.
    split; [right; now left | split; reflexivity].
Defined.

(* ===================================================================== *)
(** ** Further properties: the GPT parsers *)
(* ===================================================================== *)

Lemma _parse_invoice_with_gpt_returns rt sv raw_text h :
  _parse_invoice_with_gpt rt sv raw_text h
  = (Ret (parsed_or rt invoice_fallback
            (chat_completions_create sv h gpt_model invoice_system_prompt
                                     (invoice_prompt raw_text) (1 # 10) 4000)),
     (h ++ [ChatCompletion gpt_model invoice_system_prompt
                           (invoice_prompt raw_text) (1 # 10) 4000])%list).
Proof. apply try_chat_json. Qed.

Lemma _parse_milestones_with_gpt_returns rt sv raw_text h :
  _parse_milestones_with_gpt rt sv (Some raw_text) h
  = (Ret (parsed_or rt (PList [])
            (chat_completions_create sv h gpt_model milestones_system_prompt
                                     (milestones_prompt raw_text) (1 # 10) 2000)),
     (h ++ [ChatCompletion gpt_model milestones_system_prompt
                           (milestones_prompt raw_text) (1 # 10) 2000])%list).
Proof. apply try_chat_json. Qed.

(** X14.  On a failed chat completion or a reply that is not JSON,
    [_parse_invoice_with_gpt] returns a dictionary with [invoice_number],
    [vendor_name] and [total_amount] set to [None] and [confidence] 0.0,
    and no other key (no [line_items]); [_parse_milestones_with_gpt]
    returns the empty list.  Neither raises. *)
Theorem invoice_and_milestone_fallbacks :
  forall rt sv raw_text h,
    (malformed_reply rt
       (chat_completions_create sv h gpt_model invoice_system_prompt
                                (invoice_prompt raw_text) (1 # 10) 4000) = true ->
     _parse_invoice_with_gpt rt sv raw_text h
     = (Ret (PDict [("invoice_number", PNone); ("vendor_name", PNone);
                    ("total_amount", PNone); ("confidence", PFloat 0)]),
        (h ++ [ChatCompletion gpt_model invoice_system_prompt
                              (invoice_prompt raw_text) (1 # 10) 4000])%list))
    /\ (malformed_reply rt
          (chat_completions_create sv h gpt_model milestones_system_prompt
                                   (milestones_prompt raw_text) (1 # 10) 2000)
        = true ->
        _parse_milestones_with_gpt rt sv (Some raw_text) h
        = (Ret (PList []),
           (h ++ [ChatCompletion gpt_model milestones_system_prompt
                                 (milestones_prompt raw_text) (1 # 10) 2000])%list)).
Proof.
  intros rt sv raw_text h. split; intros Hbad.
  - rewrite _parse_invoice_with_gpt_returns.
    now rewrite (@parsed_or_malformed rt invoice_fallback _ Hbad).
  - rewrite _parse_milestones_with_gpt_returns.
    now rewrite (@parsed_or_malformed rt (PList []) _ Hbad).
Qed.

Lemma invoice_and_milestone_fallbacks_witness :
  _parse_invoice_with_gpt Fixtures.rt_reject Fixtures.sv_idle "INV 9" []
  = (Ret (PDict [("invoice_number", PNone); ("vendor_name", PNone);
                 ("total_amount", PNone); ("confidence", PFloat 0)]),
     [ChatCompletion gpt_model invoice_system_prompt (invoice_prompt "INV 9")
                     (1 # 10) 4000])
  /\ _parse_milestones_with_gpt Fixtures.rt_reject Fixtures.sv_idle
       (Some "Schedule") []
     = (Ret (PList []),
        [ChatCompletion gpt_model milestones_system_prompt
                        (milestones_prompt "Schedule") (1 # 10) 2000]).
Proof.
  destruct (invoice_and_milestone_fallbacks
              Fixtures.rt_reject Fixtures.sv_idle "INV 9" []) as (Hinv & _).
  destruct (invoice_and_milestone_fallbacks
              Fixtures.rt_reject Fixtures.sv_idle "Schedule" []) as (_ & Hms).
  split; [exact (Hinv eq_refl) | exact (Hms eq_refl)].
Defined.

(** X15.  The parsers do not validate what the model answers: whatever
    JSON value the reply holds once the code fences are stripped (an
    object with other keys, a list, a number) is returned as it is, by
    each of the three parsers. *)
Theorem parsers_return_any_json :
  forall rt sv raw_text h content v,
    json_loads rt (strip_closing_fence (strip_opening_fence content)) = Answer v ->
    (chat_completions_create sv h gpt_model po_system_prompt
                             (po_prompt raw_text) (1 # 10) 4000
     = Answer (Some content) ->
     fst (_parse_po_with_gpt rt sv raw_text h) = Ret v)
    /\ (chat_completions_create sv h gpt_model invoice_system_prompt
                                (invoice_prompt raw_text) (1 # 10) 4000
        = Answer (Some content) ->
        fst (_parse_invoice_with_gpt rt sv raw_text h) = Ret v)
    /\ (chat_completions_create sv h gpt_model milestones_system_prompt
                                (milestones_prompt raw_text) (1 # 10) 2000
        = Answer (Some content) ->
        fst (_parse_milestones_with_gpt rt sv (Some raw_text) h) = Ret v).
Proof.
  intros rt sv raw_text h content v Hjson.
  split; [|split]; intros Hreply.
  - rewrite _parse_po_with_gpt_returns, Hreply. cbn. now rewrite Hjson.
  - rewrite _parse_invoice_with_gpt_returns, Hreply. cbn. now rewrite Hjson.
  - rewrite _parse_milestones_with_gpt_returns, Hreply. cbn. now rewrite Hjson.
Qed.

Lemma parsers_return_any_json_witness :
  let sv := Fixtures.sv_with Fixtures.some_file
                             (fun _ _ => Answer Fixtures.in_progress)
                             (Answer (Some "[]")) in
  fst (_parse_po_with_gpt Fixtures.rt_reject sv "PO 17" []) = Ret (PList [])
  /\ fst (_parse_invoice_with_gpt Fixtures.rt_reject sv "PO 17" [])
     = Ret (PList [])
  /\ fst (_parse_milestones_with_gpt Fixtures.rt_reject sv (Some "PO 17") [])
     = Ret (PList []).
Proof.
  intros sv.
  destruct (@parsers_return_any_json Fixtures.rt_reject sv "PO 17" [] "[]"
              (PList []) eq_refl) as (Hpo & Hinv & Hms).
  split; [exact (Hpo eq_refl) | split; [exact (Hinv eq_refl) | exact (Hms eq_refl)]].
Defined.

Lemma length_append (a b : string) :
  String.length (a ++ b) = String.length a + String.length b.
Proof. induction a as [|c a IH]; cbn; [reflexivity | now rewrite IH]. Qed.

Lemma lstrip_all_space (ws t : string) :
  all_space ws = true -> PyStr.lstrip (ws ++ t) = PyStr.lstrip t.
Proof.
  induction ws as [|c ws IH]; intros H; [reflexivity|].
  cbn [all_space] in H. apply andb_prop in H. destruct H as [Hc Hws].
  cbn [append PyStr.lstrip]. rewrite Hc. now apply IH.
Qed.

(** Text without leading white space keeps its front when more text
    follows. *)
Lemma lstrip_append (s t : string) :
  s <> "" -> PyStr.lstrip s = s -> PyStr.lstrip (s ++ t) = s ++ t.
Proof.
  destruct s as [|c s]; [congruence|]. intros _ H.
  cbn [append PyStr.lstrip] in H |- *.
  destruct (PyStr.is_space c); [|reflexivity].
  exfalso. assert (Hlen : forall u, String.length (PyStr.lstrip u) <= String.length u).
  { induction u as [|d u IHu]; cbn; [lia|].
    destruct (PyStr.is_space d); cbn; lia. }
  specialize (Hlen s). rewrite H in Hlen. cbn in Hlen. lia.
Qed.

(** In front of text that does not end in white space, the rest of the
    text never is white space followed by the closing fence alone. *)
Lemma lstrip_not_fence (s t : string) :
  s <> "" -> PyStr.rstrip s = s ->
  exists u, u <> "" /\ PyStr.lstrip (s ++ t) = u ++ t.
Proof.
  induction s as [|c s IH]; [congruence|]. intros _ H.
  cbn [append PyStr.lstrip]. destruct (PyStr.is_space c) eqn:Hc.
  - cbn [PyStr.rstrip] in H. rewrite Hc in H.
    destruct (PyStr.rstrip s) as [|d r] eqn:Hr; [discriminate H|].
    injection H as Hs.
    apply IH; [rewrite <- Hs; discriminate | congruence].
  - exists (String c s). split; [discriminate | reflexivity].
Qed.

Lemma rstrip_tail (c : ascii) (s : string) :
  PyStr.rstrip (String c s) = String c s -> PyStr.rstrip s = s.
Proof.
  cbn [PyStr.rstrip]. destruct (PyStr.rstrip s) as [|d r] eqn:Hr.
  - destruct (PyStr.is_space c); intros H; inversion H. reflexivity.
  - intros H. now inversion H.
Qed.

Lemma strip_closing_fence_eq (content : string) :
  strip_closing_fence content
  = if String.eqb (PyStr.lstrip content) "```" then EmptyString
    else if String.eqb (PyStr.lstrip content) ("```" ++ nl) then nl
    else match content with
         | EmptyString => EmptyString
         | String c content' => String c (strip_closing_fence content')
         end.
Proof. now destruct content. Qed.

Lemma strip_closing_fence_after (body ws : string) :
  PyStr.rstrip body = body ->
  all_space ws = true ->
  strip_closing_fence (body ++ ws ++ "```") = body.
Proof.
  intros Hbody Hws. induction body as [|c body IH].
  - rewrite strip_closing_fence_eq. cbn [append].
    now rewrite (lstrip_all_space ws "```" Hws).
  - rewrite strip_closing_fence_eq.
    destruct (@lstrip_not_fence (String c body) (ws ++ "```"))
      as (u & Hu & Hrest); [discriminate | exact Hbody |].
    rewrite Hrest.
    assert (Hlen : 4 <= String.length (u ++ ws ++ "```")).
    { rewrite !length_append. destruct u; [congruence | cbn; lia]. }
    destruct (String.eqb_spec (u ++ ws ++ "```") "```") as [E|_].
    { rewrite E in Hlen. cbn in Hlen. lia. }
    destruct (String.eqb_spec (u ++ ws ++ "```") ("```" ++ nl)) as [E|_].
    { exfalso. destruct u as [|a [|a' u]]; [congruence | |].
      - destruct ws as [|w ws']; cbn in E.
        + inversion E.
        + apply (f_equal String.length) in E. cbn in E.
          rewrite length_append in E. cbn in E. lia.
      - apply (f_equal String.length) in E. cbn in E.
        rewrite !length_append in E. cbn in E. lia. }
    cbn [append]. f_equal. apply IH. now apply rstrip_tail with c.
Qed.

(** X16.  The two [re.sub] calls undo a Markdown fence: a reply of the
    form [```json], white space, a body, white space, [```] is reduced to
    the body, for every body without white space at its ends (so the
    fenced reply is read by [json.loads] as the bare one would be). *)
Theorem code_fence_round_trip :
  forall body ws1 ws2,
    all_space ws1 = true ->
    all_space ws2 = true ->
    PyStr.lstrip body = body ->
    PyStr.rstrip body = body ->
    strip_closing_fence
      (strip_opening_fence ("```json" ++ ws1 ++ body ++ ws2 ++ "```"))
    = body.
Proof.
  intros body ws1 ws2 H1 H2 Hl Hr.
  unfold strip_opening_fence.
  replace (PyStr.startswith "```json" ("```json" ++ ws1 ++ body ++ ws2 ++ "```"))
    with true by (symmetry; apply (prefix_append "```json")).
  change (PyStr.drop 7 ("```json" ++ ws1 ++ body ++ ws2 ++ "```"))
    with (ws1 ++ body ++ ws2 ++ "```").
  rewrite (lstrip_all_space ws1 _ H1).
  destruct body as [|c body].
  - cbn [append]. rewrite (lstrip_all_space ws2 "```" H2).
    reflexivity.
  - rewrite (@lstrip_append (String c body) (ws2 ++ "```"))
      by (discriminate || exact Hl).
    now apply strip_closing_fence_after.
Qed.

Lemma code_fence_round_trip_witness :
  strip_closing_fence
    (strip_opening_fence
       ("```json" ++ nl ++ "{ 'po_number': 'PO-17' }" ++ (nl ++ " ") ++ "```"))
  = "{ 'po_number': 'PO-17' }".
Proof.
  apply (@code_fence_round_trip "{ 'po_number': 'PO-17' }" nl (nl ++ " "));
    reflexivity.
Defined.

(* ===================================================================== *)
(** ** Further properties: the entry points *)
(* ===================================================================== *)

Lemma dict_get_set_other (key k : string) (v : pyval)
      (d : list (string * pyval)) :
  key <> k -> dict_get key (dict_set k v d) = dict_get key d.
Proof.
  intros Hneq. induction d as [|[k0 v0] d IH]; cbn [dict_set dict_get].
  - destruct (String.eqb_spec k key); [congruence | reflexivity].
  - destruct (String.eqb_spec k0 k) as [E|_]; cbn [dict_get].
    + subst k0. destruct (String.eqb_spec k key); [congruence | reflexivity].
    + now rewrite IH.
Qed.

Lemma take_length (n : nat) (s : string) :
  String.length (PyStr.take n s) = Nat.min n (String.length s).
Proof.
  unfold PyStr.take. revert s.
  induction n as [|n IH]; intros [|c s]; cbn; try reflexivity.
  now rewrite IH.
Qed.

Lemma take_prefix (n : nat) (s : string) :
  String.prefix (PyStr.take n s) s = true.
Proof.
  unfold PyStr.take. revert s.
  induction n as [|n IH]; intros [|c s]; cbn [substring String.prefix];
    try reflexivity.
  destruct (ascii_dec c c) as [_|N]; [apply IH | now destruct N].
Qed.

(** [extract_purchase_order] once the text is there: the parser runs on
    it and the raw text is attached to what the parser returns. *)
Lemma extract_purchase_order_after_text rt sv fuel file_url h raw h1 :
  in_list (_get_extension file_url) supported_extensions = true ->
  raw_text_of_url rt sv fuel file_url h = (Ret (Some raw), h1) ->
  PyStr.truthy raw = true ->
  extract_purchase_order rt sv fuel file_url h
  = try_except
      (attach_raw_text
         (parsed_or rt po_fallback
            (chat_completions_create sv h1 gpt_model po_system_prompt
                                     (po_prompt raw) (1 # 10) 4000)) raw)
      (fun e => ret (Failure e))
      (h1 ++ [ChatCompletion gpt_model po_system_prompt (po_prompt raw)
                             (1 # 10) 4000])%list.
Proof.
  unfold in_list, supported_extensions, raw_text_of_url,
    extract_purchase_order, in_list.
  cbn [existsb]. intros Hext Hraw Htruthy. cbv zeta.
  destruct (String.eqb (_get_extension file_url) ".xlsx"),
    (String.eqb (_get_extension file_url) ".xls"),
    (String.eqb (_get_extension file_url) ".docx"),
    (String.eqb (_get_extension file_url) ".doc"),
    (String.eqb (_get_extension file_url) ".pdf"),
    (String.eqb (_get_extension file_url) ".png"),
    (String.eqb (_get_extension file_url) ".jpg"),
    (String.eqb (_get_extension file_url) ".jpeg");
    cbn [orb] in *; try discriminate Hext;
    unfold try_except at 1; unfold bind at 1; rewrite Hraw, Htruthy;
    unfold bind at 1; rewrite _parse_po_with_gpt_returns; reflexivity.
Qed.

(** X17.  When the text was extracted and the model answers a JSON
    object, [extract_purchase_order] succeeds with that object plus
    [raw_text]: every other field of the answer is in the data unchanged,
    and [raw_text] is the start of the extracted text, cut at 5,000
    characters (a [raw_text] of the model's own is overwritten). *)
Theorem extract_purchase_order_keeps_fields :
  forall rt sv fuel file_url h raw h1 d,
    in_list (_get_extension file_url) supported_extensions = true ->
    raw_text_of_url rt sv fuel file_url h = (Ret (Some raw), h1) ->
    PyStr.truthy raw = true ->
    parsed_or rt po_fallback
      (chat_completions_create sv h1 gpt_model po_system_prompt
                               (po_prompt raw) (1 # 10) 4000) = PDict d ->
    exists data attached,
      extract_purchase_order rt sv fuel file_url h
      = (Ret (Success data),
         (h1 ++ [ChatCompletion gpt_model po_system_prompt (po_prompt raw)
                                (1 # 10) 4000])%list)
      /\ py_get "raw_text" data = PStr attached
      /\ String.prefix attached raw = true
      /\ String.length attached = Nat.min 5000 (String.length raw)
      /\ forall key, key <> "raw_text" -> py_get key data = py_get key (PDict d).
Proof.
  intros rt sv fuel file_url h raw h1 d Hext Hraw Htruthy Hparsed.
  rewrite (@extract_purchase_order_after_text rt sv fuel file_url h raw h1
             Hext Hraw Htruthy), Hparsed.
  exists (PDict (dict_set "raw_text" (PStr (PyStr.take 5000 raw)) d)),
    (PyStr.take 5000 raw).
  split; [reflexivity|]. split.
  - cbn [py_get]. now rewrite dict_get_set.
  - split; [apply take_prefix|]. split; [apply take_length|].
    intros key Hkey. cbn [py_get]. now rewrite dict_get_set_other.
Qed.

(** X18.  A failure of the language model is masked: when the text was
    extracted and the chat completion fails or does not answer JSON,
    [extract_purchase_order] still reports success, with the fallback
    object ([confidence] 0.0, no field filled) and the raw text. *)
Theorem extract_purchase_order_masks_llm_failure :
  forall rt sv fuel file_url h raw h1,
    in_list (_get_extension file_url) supported_extensions = true ->
    raw_text_of_url rt sv fuel file_url h = (Ret (Some raw), h1) ->
    PyStr.truthy raw = true ->
    malformed_reply rt
      (chat_completions_create sv h1 gpt_model po_system_prompt
                               (po_prompt raw) (1 # 10) 4000) = true ->
    fst (extract_purchase_order rt sv fuel file_url h)
    = Ret (Success
             (PDict [("po_number", PNone); ("vendor_name", PNone);
                     ("date", PNone); ("total_value", PNone);
                     ("currency", PNone); ("milestones", PList []);
                     ("boq_items", PList []); ("confidence", PFloat 0);
                     ("raw_text", PStr (PyStr.take 5000 raw))])).
Proof.
  intros rt sv fuel file_url h raw h1 Hext Hraw Htruthy Hbad.
  rewrite (@extract_purchase_order_after_text rt sv fuel file_url h raw h1
             Hext Hraw Htruthy).
  now rewrite (@parsed_or_malformed rt po_fallback _ Hbad).
Qed.

(** X19.  A reply that is JSON but not an object (a list, a string, a
    number, [null]) makes [extract_purchase_order] fail, with the message
    of the exception that attaching [raw_text] raises; it never reports
    success for it. *)
Theorem extract_purchase_order_non_object :
  forall rt sv fuel file_url h raw h1,
    in_list (_get_extension file_url) supported_extensions = true ->
    raw_text_of_url rt sv fuel file_url h = (Ret (Some raw), h1) ->
    PyStr.truthy raw = true ->
    (forall d,
        parsed_or rt po_fallback
          (chat_completions_create sv h1 gpt_model po_system_prompt
                                   (po_prompt raw) (1 # 10) 4000) <> PDict d) ->
    exists e,
      extract_purchase_order rt sv fuel file_url h
      = (Ret (Failure e),
         (h1 ++ [ChatCompletion gpt_model po_system_prompt (po_prompt raw)
                                (1 # 10) 4000])%list).
Proof.
  intros rt sv fuel file_url h raw h1 Hext Hraw Htruthy Hother.
  rewrite (@extract_purchase_order_after_text rt sv fuel file_url h raw h1
             Hext Hraw Htruthy).
  destruct (parsed_or rt po_fallback _) as [| | | | | |d];
    try (eexists; reflexivity).
  now destruct (Hother d).
Qed.

Lemma extract_purchase_order_keeps_fields_witness :
  exists data attached,
    extract_purchase_order MoreFixtures.rt_po (MoreFixtures.sv_reply "{}") 0
      "https://files.example.com/po.docx" []
    = (Ret (Success data),
       [HttpGet "https://files.example.com/po.docx";
        ChatCompletion gpt_model po_system_prompt
                       (po_prompt ("PO 17" ++ nl ++ "ACME")) (1 # 10) 4000])
    /\ py_get "raw_text" data = PStr attached
    /\ String.prefix attached ("PO 17" ++ nl ++ "ACME") = true
    /\ String.length attached
       = Nat.min 5000 (String.length ("PO 17" ++ nl ++ "ACME"))
    /\ forall key, key <> "raw_text" ->
                   py_get key data
                   = py_get key (PDict [("po_number", PStr "PO-17");
                                        ("raw_text", PStr "made up");
                                        ("confidence", PFloat (9 # 10))]).
Proof.
  exact (@extract_purchase_order_keeps_fields
           MoreFixtures.rt_po (MoreFixtures.sv_reply "{}") 0
           "https://files.example.com/po.docx" []
           ("PO 17" ++ nl ++ "ACME")
           [HttpGet "https://files.example.com/po.docx"]
           [("po_number", PStr "PO-17"); ("raw_text", PStr "made up");
            ("confidence", PFloat (9 # 10))]
           eq_refl eq_refl eq_refl eq_refl).
Defined.

Lemma extract_purchase_order_masks_llm_failure_witness :
  fst (extract_purchase_order MoreFixtures.rt_docx
         (MoreFixtures.sv_reply "Sorry, I cannot read this.") 0
         "https://files.example.com/po.docx" [])
  = Ret (Success
           (PDict [("po_number", PNone); ("vendor_name", PNone);
                   ("date", PNone); ("total_value", PNone);
                   ("currency", PNone); ("milestones", PList []);
                   ("boq_items", PList []); ("confidence", PFloat 0);
                   ("raw_text",
                    PStr (PyStr.take 5000 ("PO 17" ++ nl ++ "ACME")))])).
Proof.
  exact (@extract_purchase_order_masks_llm_failure
           MoreFixtures.rt_docx
           (MoreFixtures.sv_reply "Sorry, I cannot read this.") 0
           "https://files.example.com/po.docx" []
           ("PO 17" ++ nl ++ "ACME")
           [HttpGet "https://files.example.com/po.docx"]
           eq_refl eq_refl eq_refl eq_refl).
Defined.

Lemma extract_purchase_order_non_object_witness :
  exists e,
    extract_purchase_order MoreFixtures.rt_docx (MoreFixtures.sv_reply "[]") 0
      "https://files.example.com/po.docx" []
    = (Ret (Failure e),
       [HttpGet "https://files.example.com/po.docx";
        ChatCompletion gpt_model po_system_prompt
                       (po_prompt ("PO 17" ++ nl ++ "ACME")) (1 # 10) 4000]).
Proof.
  refine (@extract_purchase_order_non_object
            MoreFixtures.rt_docx (MoreFixtures.sv_reply "[]") 0
            "https://files.example.com/po.docx" []
            ("PO 17" ++ nl ++ "ACME")
            [HttpGet "https://files.example.com/po.docx"]
            eq_refl eq_refl eq_refl _).
  intros d. vm_compute. discriminate.
Defined.

Lemma take_append (a b : string) :
  PyStr.take (String.length a) (a ++ b) = a.
Proof.
  unfold PyStr.take. induction a as [|c a IH]; cbn [String.length append].
  - now destruct b.
  - cbn [substring]. now rewrite IH.
Qed.

(** X20.  Only the first 15,000 characters of the text reach the language
    model: two texts that agree on them make each parser send the same
    prompt and return the same result. *)
Theorem parsers_read_15000_characters :
  forall rt sv head tail1 tail2 h,
    String.length head = 15000 ->
    _parse_po_with_gpt rt sv (head ++ tail1) h
    = _parse_po_with_gpt rt sv (head ++ tail2) h
    /\ _parse_invoice_with_gpt rt sv (head ++ tail1) h
       = _parse_invoice_with_gpt rt sv (head ++ tail2) h
    /\ _parse_milestones_with_gpt rt sv (Some (head ++ tail1)) h
       = _parse_milestones_with_gpt rt sv (Some (head ++ tail2)) h.
Proof.
  intros rt sv head tail1 tail2 h Hlen.
  unfold _parse_po_with_gpt, _parse_invoice_with_gpt,
    _parse_milestones_with_gpt.
  rewrite <- Hlen, !take_append. auto.
Qed.

Lemma parsers_read_15000_characters_witness :
  _parse_po_with_gpt Fixtures.rt_reject Fixtures.sv_idle
    (Fixtures.filler 15000 ++ "Total: 100") []
  = _parse_po_with_gpt Fixtures.rt_reject Fixtures.sv_idle
      (Fixtures.filler 15000 ++ "Total: 999") [].
Proof.
  apply (@parsers_read_15000_characters
           Fixtures.rt_reject Fixtures.sv_idle (Fixtures.filler 15000)
           "Total: 100" "Total: 999" []).
  vm_compute. reflexivity.
Defined.

Lemma attach_raw_text_log parsed_data raw h :
  snd (attach_raw_text parsed_data raw h) = h.
Proof. now destruct parsed_data. Qed.

Lemma try_failure_log (m : M envelope) h :
  snd (try_except m (fun e => ret (Failure e)) h) = snd (m h).
Proof. unfold try_except, ret. now destruct (m h) as [[a | e |] h1]. Qed.

Lemma bind_attach_log (parse : M pyval) (raw : string) h v h1 :
  parse h = (Ret v, h1) ->
  snd (bind parse (fun parsed_data => attach_raw_text parsed_data raw) h) = h1.
Proof. intros H. unfold bind. rewrite H. apply attach_raw_text_log. Qed.

(** X21.  [extract_from_bytes] works on the bytes it is given: it never
    fetches anything and never starts OCR.  All it may call is one chat
    completion. *)
Theorem extract_from_bytes_calls :
  forall rt sv content filename document_type h,
    exists evs,
      snd (extract_from_bytes rt sv content filename document_type h)
      = (h ++ evs)%list
      /\ (evs = []
          \/ exists system prompt max_tokens,
            evs = [ChatCompletion gpt_model system prompt (1 # 10) max_tokens]).
Proof.
  intros rt sv content filename document_type h.
  unfold extract_from_bytes. rewrite try_failure_log. cbv zeta.
  assert (Hnone : exists evs : log,
             h = (h ++ evs)%list
             /\ (evs = []
                 \/ exists system prompt max_tokens,
                   evs = [ChatCompletion gpt_model system prompt (1 # 10)
                                         max_tokens])).
  { exists []. split; [now rewrite app_nil_r | now left]. }
  assert (Hparse : forall raw_text : option string,
             exists evs,
               snd (match raw_text with
                    | Some t =>
                        if PyStr.truthy t then
                          if String.eqb document_type "purchase_order" then
                            bind (_parse_po_with_gpt rt sv t)
                                 (fun parsed_data => attach_raw_text parsed_data t)
                          else if String.eqb document_type "invoice" then
                            bind (_parse_invoice_with_gpt rt sv t)
                                 (fun parsed_data => attach_raw_text parsed_data t)
                          else if String.eqb document_type "milestone" then
                            bind (_parse_milestones_with_gpt rt sv (Some t))
                                 (fun milestones =>
                                    attach_raw_text
                                      (PDict [("milestones", milestones)]) t)
                          else ret (Failure ("Unknown document type: "
                                               ++ document_type))
                        else ret (Failure unreadable)
                    | None => ret (Failure unreadable)
                    end h) = (h ++ evs)%list
               /\ (evs = []
                   \/ exists system prompt max_tokens,
                     evs = [ChatCompletion gpt_model system prompt (1 # 10)
                                           max_tokens])).
  { intros [t|]; [|exact Hnone].
    destruct (PyStr.truthy t); [|exact Hnone].
    destruct (String.eqb document_type "purchase_order").
    { rewrite (@bind_attach_log _ t _ _ _ (_parse_po_with_gpt_returns rt sv t h)).
      eexists. split; [reflexivity | right; eauto]. }
    destruct (String.eqb document_type "invoice").
    { rewrite (@bind_attach_log _ t _ _ _ (_parse_invoice_with_gpt_returns rt sv t h)).
      eexists. split; [reflexivity | right; eauto]. }
    destruct (String.eqb document_type "milestone"); [|exact Hnone].
    unfold bind. rewrite _parse_milestones_with_gpt_returns.
    rewrite attach_raw_text_log.
    eexists. split; [reflexivity | right; eauto]. }
  destruct (in_list _ [".xlsx"; ".xls"]); [apply Hparse|].
  destruct (in_list _ [".docx"; ".doc"]); [apply Hparse|].
  destruct (String.eqb _ ".pdf"); [apply Hparse | exact Hnone].
Qed.

Lemma extract_from_bytes_unsupported_ext
      rt sv content filename document_type h :
  in_list (PyStr.lower (PyPath.suffix filename)) bytes_extensions = false ->
  extract_from_bytes rt sv content filename document_type h
  = (Ret (Failure ("Unsupported file type: "
                     ++ PyStr.lower (PyPath.suffix filename))), h).
Proof.
  unfold in_list, bytes_extensions, extract_from_bytes, try_except, in_list.
  cbn [existsb]. intros Hext. cbv zeta.
  destruct (String.eqb (PyStr.lower (PyPath.suffix filename)) ".xlsx"),
    (String.eqb (PyStr.lower (PyPath.suffix filename)) ".xls"),
    (String.eqb (PyStr.lower (PyPath.suffix filename)) ".docx"),
    (String.eqb (PyStr.lower (PyPath.suffix filename)) ".doc"),
    (String.eqb (PyStr.lower (PyPath.suffix filename)) ".pdf");
    cbn [orb] in *; try discriminate Hext; reflexivity.
Qed.

(** X22.  [extract_from_bytes] knows spreadsheets, Word documents and
    PDFs only.  Every other file name, an image ([.png], [.jpg], [.jpeg])
    included, is answered with ["Unsupported file type: <ext>"] before
    the bytes are looked at and without any call. *)
Theorem extract_from_bytes_unsupported :
  forall rt sv content filename document_type h,
    in_list (PyStr.lower (PyPath.suffix filename)) bytes_extensions = false ->
    extract_from_bytes rt sv content filename document_type h
    = (Ret (Failure ("Unsupported file type: "
                       ++ PyStr.lower (PyPath.suffix filename))), h).
Proof.
  intros rt sv content filename document_type h Hext.
  now apply extract_from_bytes_unsupported_ext.
Qed.

Lemma extract_from_bytes_unsupported_witness :
  extract_from_bytes MoreFixtures.rt_docx Fixtures.sv_idle Fixtures.some_file
                     "scans/PO-17.PNG" "purchase_order" []
  = (Ret (Failure "Unsupported file type: .png"), []).
Proof.
  exact (@extract_from_bytes_unsupported
           MoreFixtures.rt_docx Fixtures.sv_idle Fixtures.some_file
           "scans/PO-17.PNG" "purchase_order" [] eq_refl).
Defined.

(** X23.  The document type is looked at last: with a supported file name
    and text in the file, a document type other than [purchase_order],
    [invoice] and [milestone] is answered with
    ["Unknown document type: <type>"], and the language model is not
    called. *)
Theorem extract_from_bytes_unknown_type :
  forall rt sv content filename document_type h raw,
    raw_text_of_bytes rt content filename = Some raw ->
    PyStr.truthy raw = true ->
    in_list document_type ["purchase_order"; "invoice"; "milestone"] = false ->
    extract_from_bytes rt sv content filename document_type h
    = (Ret (Failure ("Unknown document type: " ++ document_type)), h).
Proof.
  unfold raw_text_of_bytes, extract_from_bytes, try_except, in_list.
  intros rt sv content filename document_type h raw Hraw Htruthy Htype.
  cbn [existsb] in Htype. cbv zeta in *.
  apply orb_false_elim in Htype. destruct Htype as [Hpo Htype].
  apply orb_false_elim in Htype. destruct Htype as [Hinv Htype].
  apply orb_false_elim in Htype. destruct Htype as [Hms _].
  destruct (existsb _ [".xlsx"; ".xls"]);
    [|destruct (existsb _ [".docx"; ".doc"]);
      [|destruct (String.eqb _ ".pdf"); [|discriminate Hraw]]];
    rewrite Hraw, Htruthy, Hpo, Hinv, Hms; reflexivity.
Qed.

Lemma extract_from_bytes_unknown_type_witness :
  extract_from_bytes MoreFixtures.rt_docx Fixtures.sv_idle Fixtures.some_file
                     "po.docx" "contract" []
  = (Ret (Failure "Unknown document type: contract"), []).
Proof.
  exact (@extract_from_bytes_unknown_type
           MoreFixtures.rt_docx Fixtures.sv_idle Fixtures.some_file
           "po.docx" "contract" [] ("PO 17" ++ nl ++ "ACME")
           eq_refl eq_refl eq_refl).
Defined.

(* ===================================================================== *)
(** ** Further properties: the router *)
(* ===================================================================== *)

(** X24.  An upload without a file name is handled under the name
    [document], which has no extension: once the upload is read,
    [extract_uploaded_file] answers ["Unsupported file type: "] for every
    content and document type, and calls nothing. *)
Theorem extract_uploaded_file_without_name :
  forall rt sv content filename document_type h,
    text_truthy filename = false ->
    extract_uploaded_file rt sv (Answer content) filename document_type h
    = (Ret (Failure "Unsupported file type: "), h).
Proof.
  intros rt sv content filename document_type h Hname.
  unfold extract_uploaded_file, try_except, lift. rewrite bind_ret_l, Hname.
  now rewrite extract_from_bytes_unsupported_ext.
Qed.

Lemma extract_uploaded_file_without_name_witness :
  extract_uploaded_file MoreFixtures.rt_docx Fixtures.sv_idle
                        (Answer Fixtures.some_file) (Some "") INVOICE []
  = (Ret (Failure "Unsupported file type: "), []).
Proof.
  exact (@extract_uploaded_file_without_name
           MoreFixtures.rt_docx Fixtures.sv_idle Fixtures.some_file
           (Some "") INVOICE [] eq_refl).
Defined.

(* ===================================================================== *)
(** ** Further properties: milestones *)
(* ===================================================================== *)

(** X25.  [extract_milestones] knows spreadsheets and PDFs only: a Word
    document or an image, which the other URL entry points accept, is
    answered with ["Unsupported file type for milestones: <ext>"] and
    nothing is called. *)
Theorem extract_milestones_unsupported :
  forall rt sv fuel file_url h,
    in_list (_get_extension file_url) milestone_extensions = false ->
    extract_milestones rt sv fuel file_url h
    = (Ret (Failure ("Unsupported file type for milestones: "
                       ++ _get_extension file_url)), h).
Proof.
  unfold in_list, milestone_extensions, extract_milestones, try_except, in_list.
  cbn [existsb]. intros rt sv fuel file_url h Hext. cbv zeta.
  destruct (String.eqb (_get_extension file_url) ".xlsx"),
    (String.eqb (_get_extension file_url) ".xls"),
    (String.eqb (_get_extension file_url) ".pdf");
    cbn [orb] in *; try discriminate Hext; reflexivity.
Qed.

Lemma extract_milestones_unsupported_witness :
  in_list (_get_extension "s3://docs/schedule.docx") supported_extensions = true
  /\ extract_milestones MoreFixtures.rt_docx Fixtures.sv_idle 0
       "s3://docs/schedule.docx" []
     = (Ret (Failure "Unsupported file type for milestones: .docx"), []).
Proof.
  split; [reflexivity|].
  exact (@extract_milestones_unsupported
           MoreFixtures.rt_docx Fixtures.sv_idle 0
           "s3://docs/schedule.docx" [] eq_refl).
Defined.

Lemma _download_file_outcome rt sv file_url h :
  fst (_download_file rt sv file_url h) <> Diverge.
Proof.
  unfold _download_file, hostname_bucket, lift, call, bind, ret, raise.
  destruct (PyStr.startswith "s3://" file_url).
  - destruct (_parse_s3_key rt file_url); [|discriminate].
    now destruct (s3_get_object sv h _ _).
  - destruct (PyStr.contains "s3." file_url
              && PyStr.contains "amazonaws.com" file_url).
    + destruct (urlparse rt file_url) as [parsed|e]; [|discriminate].
      destruct (url_hostname parsed); [|discriminate].
      now destruct (s3_get_object sv h _ _).
    + now destruct (http_get sv h file_url).
Qed.

(** [_extract_milestones_from_excel] always returns. *)
Lemma _extract_milestones_from_excel_returns rt sv file_url h :
  exists milestones h',
    _extract_milestones_from_excel rt sv file_url h = (Ret milestones, h')
    /\ forall e h1, _download_file rt sv file_url h = (Raise e, h1) ->
                    milestones = PList [] /\ h' = h1.
Proof.
  unfold _extract_milestones_from_excel, try_except, bind at 1.
  pose proof (_download_file_outcome rt sv file_url h) as Hout.
  destruct (_download_file rt sv file_url h) as [[content | e |] h1];
    [| | now destruct Hout].
  - assert (Hother : forall e' h2, (Ret content, h1) = (@Raise bytes e', h2) ->
                                   False) by (intros ? ? H; discriminate H).
    unfold bind at 1, lift.
    destruct (load_workbook rt content) as [wb|e];
      [|eexists; eexists; split;
        [reflexivity | intros ? ? H; now destruct (Hother _ _ H)]].
    unfold ret at 1, bind at 1.
    destruct (nth_error (wb_sheets wb) (wb_active_index wb))
      as [[name [sh|]]|]; cbn [snd iter_rows];
      [|eexists; eexists; split;
        [reflexivity | intros ? ? H; now destruct (Hother _ _ H)]
       |eexists; eexists; split;
        [reflexivity | intros ? ? H; now destruct (Hother _ _ H)]].
    unfold ret at 1.
    destruct (find_header_row rt sh);
      [eexists; eexists; split;
       [reflexivity | intros ? ? H; now destruct (Hother _ _ H)]|].
    destruct (_extract_excel_from_bytes rt content) as [t|].
    + rewrite _parse_milestones_with_gpt_returns.
      eexists; eexists; split;
        [reflexivity | intros ? ? H; now destruct (Hother _ _ H)].
    + eexists; eexists; split;
        [reflexivity | intros ? ? H; now destruct (Hother _ _ H)].
  - eexists; eexists; split; [reflexivity|].
    intros e' h2 H. inversion H. auto.
Qed.

(** X26.  For a spreadsheet locator [extract_milestones] always reports
    success: every failure on the way (the download, the workbook, the
    language model) ends as a list of milestones.  A failed download in
    particular is reported as success with no milestones. *)
Theorem extract_milestones_spreadsheet_succeeds :
  forall rt sv fuel file_url h,
    in_list (_get_extension file_url) [".xlsx"; ".xls"] = true ->
    exists milestones h',
      extract_milestones rt sv fuel file_url h
      = (Ret (Success (PDict [("milestones", milestones)])), h')
      /\ forall e h1, _download_file rt sv file_url h = (Raise e, h1) ->
                      milestones = PList [] /\ h' = h1.
Proof.
  intros rt sv fuel file_url h Hext.
  destruct (_extract_milestones_from_excel_returns rt sv file_url h)
    as (milestones & h' & Hrun & Hfail).
  exists milestones, h'. split; [|exact Hfail].
  unfold extract_milestones, try_except. cbv zeta.
  rewrite Hext. unfold bind. now rewrite Hrun.
Qed.

Lemma extract_milestones_spreadsheet_succeeds_witness :
  let sv := {| s3_get_object := fun _ _ _ => Fault "NoSuchKey";
               http_get := fun _ _ => Fault "404 Not Found";
               start_document_text_detection := fun _ _ _ => Answer "job-1";
               get_document_text_detection :=
                 fun _ _ _ => Answer Fixtures.in_progress;
               detect_document_text := fun _ _ _ => Answer [];
               chat_completions_create := fun _ _ _ _ _ _ => Answer None |} in
  exists milestones h',
    extract_milestones MoreFixtures.rt_docx sv 0 "s3://docs/missing.xlsx" []
    = (Ret (Success (PDict [("milestones", milestones)])), h')
    /\ milestones = PList []
    /\ h' = [S3GetObject "infradyn-files" "missing.xlsx"].
Proof.
  intros sv.
  destruct (@extract_milestones_spreadsheet_succeeds
              MoreFixtures.rt_docx sv 0 "s3://docs/missing.xlsx" [] eq_refl)
    as (milestones & h' & Hrun & Hfail).
  exists milestones, h'. split; [exact Hrun|].
  exact (Hfail "NoSuchKey" [S3GetObject "infradyn-files" "missing.xlsx"]
               eq_refl).
Defined.

(** X27.  Without a header row among the first 10 rows of the active
    worksheet the heuristic is given up.  When the workbook has no chart
    sheet, the text of the whole workbook goes to the language model in
    one chat completion, and what the model answers (or the empty list
    when it fails) is the result.  When the workbook has a chart sheet,
    its text cannot be extracted and the result is the empty list,
    without a chat completion. *)
Theorem _extract_milestones_from_excel_llm_fallback :
  forall rt sv file_url h content h1 wb name sh,
    _download_file rt sv file_url h = (Ret content, h1) ->
    load_workbook rt content = Answer wb ->
    nth_error (wb_sheets wb) (wb_active_index wb) = Some (name, Worksheet sh) ->
    find_header_row rt sh = None ->
    if has_chartsheet wb
    then _extract_milestones_from_excel rt sv file_url h = (Ret (PList []), h1)
    else
      let text := PyStr.join nl (flat_map (sheet_lines rt) (worksheets wb)) in
      _extract_milestones_from_excel rt sv file_url h
      = (Ret (parsed_or rt (PList [])
                (chat_completions_create sv h1 gpt_model
                                         milestones_system_prompt
                                         (milestones_prompt text) (1 # 10) 2000)),
         (h1 ++ [ChatCompletion gpt_model milestones_system_prompt
                                (milestones_prompt text) (1 # 10) 2000])%list).
Proof.
  intros rt sv file_url h content h1 wb name sh Hd Hwb Hactive Hheader.
  unfold _extract_milestones_from_excel, try_except, bind, lift.
  rewrite Hd, Hwb. unfold ret. rewrite Hactive.
  cbn [snd iter_rows]. rewrite Hheader.
  unfold _extract_excel_from_bytes. rewrite Hwb.
  destruct (has_chartsheet wb) eqn:Hcharts.
  - destruct (@workbook_lines_chartsheet rt wb Hcharts) as (e & He).
    now rewrite He.
  - rewrite (@workbook_lines_worksheets rt wb Hcharts). cbv zeta.
    now rewrite _parse_milestones_with_gpt_returns.
Qed.

Lemma _extract_milestones_from_excel_llm_fallback_witness :
  let sh := [[CStr "Stage"; CStr "Share"]; [CStr "Mobilization"; CInt 10]] in
  let wb := {| wb_sheets := [("Plan", Worksheet sh)]; wb_active_index := 0 |} in
  let charted := {| wb_sheets := [("Plan", Worksheet sh); ("Chart1", Chartsheet)];
                    wb_active_index := 0 |} in
  let text := "=== Sheet: Plan ===" ++ nl ++ "Stage | Share" ++ nl
              ++ "Mobilization | 10" in
  _extract_milestones_from_excel (Fixtures.rt_with (Answer []) [] wb)
                                 (MoreFixtures.sv_reply "[]")
                                 "s3://docs/plan.xlsx" []
  = (Ret (PList []),
     [S3GetObject "infradyn-files" "plan.xlsx";
      ChatCompletion gpt_model milestones_system_prompt
                     (milestones_prompt text) (1 # 10) 2000])
  /\ _extract_milestones_from_excel (Fixtures.rt_with (Answer []) [] charted)
                                    (MoreFixtures.sv_reply "[]")
                                    "s3://docs/plan.xlsx" []
     = (Ret (PList []), [S3GetObject "infradyn-files" "plan.xlsx"]).
Proof.
  intros sh wb charted text. split.
  - exact (@_extract_milestones_from_excel_llm_fallback
             (Fixtures.rt_with (Answer []) [] wb)
             (MoreFixtures.sv_reply "[]") "s3://docs/plan.xlsx" []
             Fixtures.some_file [S3GetObject "infradyn-files" "plan.xlsx"]
             wb "Plan" sh eq_refl eq_refl eq_refl eq_refl).
  - exact (@_extract_milestones_from_excel_llm_fallback
             (Fixtures.rt_with (Answer []) [] charted)
             (MoreFixtures.sv_reply "[]") "s3://docs/plan.xlsx" []
             Fixtures.some_file [S3GetObject "infradyn-files" "plan.xlsx"]
             charted "Plan" sh eq_refl eq_refl eq_refl eq_refl).
Defined.

(** X28.  Only the first 10 rows are searched for the header: rows from
    the eleventh on never change which row is taken as the header. *)
Theorem find_header_row_first_ten :
  forall rt top below,
    List.length top = 10 ->
    find_header_row rt (top ++ below)%list = find_header_row rt top.
Proof.
  intros rt top below Hlen. unfold find_header_row.
  rewrite firstn_app, Hlen, Nat.sub_diag. cbn [firstn].
  now rewrite app_nil_r.
Qed.

Lemma find_header_row_first_ten_witness :
  find_header_row Fixtures.rt_reject
    (repeat [CStr "Project Alpha"; CNone] 10
       ++ [[CStr "Milestone"; CStr "Payment %"]])%list
  = None.
Proof.
  exact (@find_header_row_first_ten
           Fixtures.rt_reject (repeat [CStr "Project Alpha"; CNone] 10)
           [[CStr "Milestone"; CStr "Payment %"]] eq_refl).
Defined.

Lemma lstrip_head (s : string) :
  PyStr.lstrip s = ""
  \/ exists c t, PyStr.lstrip s = String c t /\ PyStr.is_space c = false.
Proof.
  induction s as [|c s IH]; [now left|].
  cbn [PyStr.lstrip]. destruct (PyStr.is_space c) eqn:Hc; [exact IH|].
  right. eauto.
Qed.

Lemma rstrip_idempotent (s : string) :
  PyStr.rstrip (PyStr.rstrip s) = PyStr.rstrip s.
Proof.
  induction s as [|c s IH]; [reflexivity|].
  cbn [PyStr.rstrip]. destruct (PyStr.rstrip s) as [|d r] eqn:Hr.
  - destruct (PyStr.is_space c) eqn:Hc; [reflexivity|].
    cbn [PyStr.rstrip]. now rewrite Hc.
  - cbn [PyStr.rstrip] in IH |- *. now rewrite IH.
Qed.

Lemma rstrip_keeps_head (c : ascii) (t : string) :
  PyStr.is_space c = false ->
  exists r, PyStr.rstrip (String c t) = String c r.
Proof.
  intros Hc. cbn [PyStr.rstrip]. rewrite Hc.
  destruct (PyStr.rstrip t); eauto.
Qed.

(** [s.strip().strip() == s.strip()] *)
Lemma strip_idempotent (s : string) :
  PyStr.strip (PyStr.strip s) = PyStr.strip s.
Proof.
  unfold PyStr.strip.
  destruct (lstrip_head s) as [E|(c & t & E & Hc)]; rewrite E;
    [reflexivity|].
  destruct (@rstrip_keeps_head c t Hc) as (r & Hr).
  rewrite Hr. cbn [PyStr.lstrip]. rewrite Hc, <- Hr.
  apply rstrip_idempotent.
Qed.

Lemma classify_cell_well_formed rt m v :
  milestone_well_formed m -> milestone_well_formed (classify_cell rt m v).
Proof.
  intros (Htitle & Hpct). unfold classify_cell.
  destruct v as [| s | n | x | b | d | d | t | d]; try (split; assumption);
    rewrite ?andb_false_r; unfold is_percentage;
    cbn [int_or_float strftime_of].
  - destruct (negb (text_truthy (pm_title m)) && (3 <? String.length s)).
    + split; [apply strip_idempotent | exact Hpct].
    + split; assumption.
  - destruct (negb (Qle_bool (inject_Z n) 0)
              && Qle_bool (inject_Z n) (inject_Z 100)) eqn:Hrange;
      [|split; assumption].
    destruct (pm_payment_percentage m) eqn:E; split; cbn;
      rewrite ?E; assumption.
  - destruct (negb (Qle_bool x 0) && Qle_bool x (inject_Z 100)) eqn:Hrange;
      [|split; assumption].
    destruct (pm_payment_percentage m) eqn:E; split; cbn;
      rewrite ?E; assumption.
  - destruct (negb (Qle_bool (inject_Z (if b then 1 else 0)) 0)
              && Qle_bool (inject_Z (if b then 1 else 0)) (inject_Z 100))
      eqn:Hrange; [|split; assumption].
    destruct (pm_payment_percentage m) eqn:E; split; cbn;
      rewrite ?E; assumption.
  - destruct (pm_expected_date m); split; assumption.
  - destruct (pm_expected_date m); split; assumption.
  - destruct (pm_expected_date m); split; assumption.
  - split; assumption.
Qed.

Lemma fold_classify_well_formed rt : forall values m,
  milestone_well_formed m ->
  milestone_well_formed (fold_left (classify_cell rt) values m).
Proof.
  induction values as [|v values IH]; intros m Hm; [exact Hm|].
  cbn [fold_left]. apply IH. now apply classify_cell_well_formed.
Qed.

(** X29.  Whatever the cells of a row hold, the heuristic emits at most
    one milestone for it, and a milestone it emits has a title that is
    not empty and has no white space at its ends, a percentage in
    (0, 100] and no description. *)
Theorem parse_data_row_emits_valid :
  forall rt values,
    List.length (parse_data_row rt values) <= 1
    /\ forall m, In m (parse_data_row rt values) ->
         exists title expected_date p,
           m = milestone title expected_date p
           /\ PyStr.truthy title = true
           /\ PyStr.strip title = title
           /\ in_percent_range p = true.
Proof.
  intros rt values. unfold parse_data_row.
  destruct (negb (existsb cell_truthy values)); [split; [cbn; lia | intros m []]|].
  pose proof (@fold_classify_well_formed rt values empty_milestone
                (conj I I)) as (Htitle & Hpct).
  destruct (pm_title (fold_left (classify_cell rt) values empty_milestone))
    as [t|]; cbn [text_truthy andb];
    [|split; [cbn; lia | intros m []]].
  destruct (PyStr.truthy t) eqn:Ht; cbn [andb];
    [|split; [cbn; lia | intros m []]].
  destruct (pm_payment_percentage
              (fold_left (classify_cell rt) values empty_milestone))
    as [x|]; cbn [percentage_truthy];
    [|split; [cbn; lia | intros m []]].
  destruct (negb (Qnum x =? 0)%Z); [|split; [cbn; lia | intros m []]].
  split; [cbn; lia|]. intros m [E|[]]. subst m.
  exists t, (pm_expected_date
               (fold_left (classify_cell rt) values empty_milestone)), x.
  auto.
Qed.

(** X30.  [extract_purchase_order], [extract_invoice] and
    [extract_from_bytes] answer ["Could not extract text from document"]
    whenever the extractor of a supported format gives no text or an
    empty one, and the language model is not called. *)
Theorem empty_text_is_unreadable :
  forall rt sv,
    (forall fuel file_url h raw h1,
        in_list (_get_extension file_url) supported_extensions = true ->
        raw_text_of_url rt sv fuel file_url h = (Ret raw, h1) ->
        text_truthy raw = false ->
        extract_purchase_order rt sv fuel file_url h
        = (Ret (Failure "Could not extract text from document"), h1)
        /\ extract_invoice rt sv fuel file_url h
           = (Ret (Failure "Could not extract text from document"), h1))
    /\ (forall content filename document_type h,
           in_list (PyStr.lower (PyPath.suffix filename)) bytes_extensions
           = true ->
           text_truthy (raw_text_of_bytes rt content filename) = false ->
           extract_from_bytes rt sv content filename document_type h
           = (Ret (Failure "Could not extract text from document"), h)).
Proof.
  intros rt sv. split.
  - intros fuel file_url h raw h1 Hext Hraw Hfalsy. split.
    + now apply extract_purchase_order_unreadable with raw.
    + now apply extract_invoice_unreadable with raw.
  - intros content filename document_type h Hext Hfalsy.
    now apply extract_from_bytes_unreadable.
Qed.

Lemma empty_text_is_unreadable_witness :
  let rt := Fixtures.rt_with (Answer []) ["  "; ""] Fixtures.no_workbook in
  (extract_purchase_order rt MoreFixtures.sv_with_file 0
     "https://files.example.com/blank.docx" []
   = (Ret (Failure "Could not extract text from document"),
      [HttpGet "https://files.example.com/blank.docx"])
   /\ extract_invoice rt MoreFixtures.sv_with_file 0
        "https://files.example.com/blank.docx" []
      = (Ret (Failure "Could not extract text from document"),
         [HttpGet "https://files.example.com/blank.docx"]))
  /\ extract_from_bytes rt MoreFixtures.sv_with_file [] "blank.docx"
                        "invoice" []
     = (Ret (Failure "Could not extract text from document"), []).
Proof.
  intros rt.
  destruct (empty_text_is_unreadable rt MoreFixtures.sv_with_file)
    as (Hurl & Hbytes).
  split.
  - exact (Hurl 0 "https://files.example.com/blank.docx" [] (Some "")
                [HttpGet "https://files.example.com/blank.docx"]
                eq_refl eq_refl eq_refl).
  - exact (Hbytes [] "blank.docx" "invoice" [] eq_refl eq_refl).
Defined.
